(** * DQAD payer-claims pipeline: data-quality validation and anomaly tiering

    A shallow embedding of the decision logic of
    - [src/glue/dqad_etl_job.py] (the Spark job: module [Glue]), and
    - [src/data/test_dq_validation.py] (the Pandas reference: module [Pandas]).

    Conventions of the embedding.
    - A DataFrame is a [list] of rows; a nullable cell is an [option]
      ([None] is SQL NULL, Pandas NaN/NaT/None).
    - A [DateType] cell is the day number since the epoch (Spark's own
      representation); an unparsable date arrives as NULL / NaT.
    - A [DoubleType] cell is a [double]: a finite value (every finite
      binary64 is a rational) or one of the three special values.  The
      arithmetic of the detector and of the metrics is exact (reals and
      rationals): binary64 rounding is not part of the model.
    - Reading the CSV file, writing the three frames and publishing the
      metrics are outside: a batch is the list of typed records the
      validator receives.
    - The column [dq_issues] is the string of [";"]-terminated tags; it is
      kept as the list of codes appended so far and rendered by
      [render_issues]. *)

From Stdlib Require Import List String Ascii Bool Arith ZArith QArith.
From Stdlib Require Import Reals Qreals Lra Lia Permutation Sorted.
From Stdlib Require Import NArith Qround Qabs.
From Stdlib Require Lqa Floats Uint63.
Import ListNotations.

Close Scope R_scope.
Close Scope Q_scope.
Open Scope nat_scope.

(** ** Data model *)

Inductive double : Type :=
| DFin (q : Q)
| DPosInf
| DNegInf
| DNaN.

Definition date := Z.

(** [claims_schema]; [claim_id] is the only non-nullable field. *)
Record Claim : Type := mkClaim {
  claim_id        : string;
  member_id       : option string;
  provider_id     : option string;
  provider_npi    : option string;
  cpt_code        : option string;
  icd10_code      : option string;
  claim_amount    : option double;
  service_date    : option date;
  submission_date : option date;
  claim_status    : option string;
  denial_reason   : option string;
  patient_dob     : option date;
  patient_zip     : option string;
  patient_gender  : option string
}.

Inductive IssueCode : Type :=
| MISSING_MEMBER_ID
| MISSING_NPI
| MISSING_CPT
| MISSING_DIAGNOSIS
| MISSING_AMOUNT
| INVALID_NPI
| NEGATIVE_AMOUNT
| EXCESSIVE_AMOUNT
| FUTURE_SERVICE_DATE
| LATE_SUBMISSION
| SUBMISSION_BEFORE_SERVICE
| INVALID_STATUS
| INVALID_GENDER
| INVALID_ZIP.

(** The literal appended to [dq_issues] for each code. *)
Definition issue_tag (i : IssueCode) : string :=
  match i with
  | MISSING_MEMBER_ID => "MISSING_MEMBER_ID;"
  | MISSING_NPI => "MISSING_NPI;"
  | MISSING_CPT => "MISSING_CPT;"
  | MISSING_DIAGNOSIS => "MISSING_DIAGNOSIS;"
  | MISSING_AMOUNT => "MISSING_AMOUNT;"
  | INVALID_NPI => "INVALID_NPI;"
  | NEGATIVE_AMOUNT => "NEGATIVE_AMOUNT;"
  | EXCESSIVE_AMOUNT => "EXCESSIVE_AMOUNT;"
  | FUTURE_SERVICE_DATE => "FUTURE_SERVICE_DATE;"
  | LATE_SUBMISSION => "LATE_SUBMISSION;"
  | SUBMISSION_BEFORE_SERVICE => "SUBMISSION_BEFORE_SERVICE;"
  | INVALID_STATUS => "INVALID_STATUS;"
  | INVALID_GENDER => "INVALID_GENDER;"
  | INVALID_ZIP => "INVALID_ZIP;"
  end%string.

Definition render_issues (l : list IssueCode) : string :=
  fold_right (fun i acc => (issue_tag i ++ acc)%string) EmptyString l.

(** [DQ_THRESHOLDS] (the same dictionary in both files). *)
Module DQ_THRESHOLDS.
Definition min_claim_amount : Q := 0.
Definition max_claim_amount : Q := 100000.
Definition npi_length : nat := 10.
Definition max_days_to_submission : Z := 365.
End DQ_THRESHOLDS.

Definition valid_statuses : list string := ["PAID"; "DENIED"; "PENDING"]%string.
Definition valid_genders : list string := ["M"; "F"; "U"]%string.

(** ** Three-valued column expressions (Spark SQL) *)

Module Sql.

(** A boolean column cell: [None] is NULL. *)
Definition tbool := option bool.

Definition isNull {A} (x : option A) : tbool :=
  Some (match x with None => true | Some _ => false end).

Definition not3 (a : tbool) : tbool := option_map negb a.

Definition and3 (a b : tbool) : tbool :=
  match a, b with
  | Some false, _ | _, Some false => Some false
  | Some true, Some true => Some true
  | _, _ => None
  end.

Definition or3 (a b : tbool) : tbool :=
  match a, b with
  | Some true, _ | _, Some true => Some true
  | Some false, Some false => Some false
  | _, _ => None
  end.

(** A binary operator that is NULL as soon as one operand is. *)
Definition lift2 {A B C} (f : A -> B -> C) (x : option A) (y : option B)
  : option C :=
  match x, y with
  | Some a, Some b => Some (f a b)
  | _, _ => None
  end.

(** A [when] branch, and a [filter], take a row only when the condition
    is true: NULL counts as not satisfied. *)
Definition holds (c : tbool) : bool :=
  match c with Some true => true | _ => false end.

(** [when(c1, v1).when(c2, v2)....otherwise(d)] *)
Fixpoint case_when {A} (branches : list (tbool * A)) (default : A) : A :=
  match branches with
  | [] => default
  | (c, v) :: rest => if holds c then v else case_when rest default
  end.

(** [col.isin(values)] for a list of non-null literals. *)
Definition isin (x : option string) (values : list string) : tbool :=
  option_map (fun s => existsb (String.eqb s) values) x.

(** Spark's total order on doubles: NaN equals itself and is larger than
    every other value. *)
Definition double_lt (a b : double) : bool :=
  match a, b with
  | DNaN, _ => false
  | _, DNaN => true
  | DPosInf, _ => false
  | _, DPosInf => true
  | _, DNegInf => false
  | DNegInf, _ => true
  | DFin x, DFin y => negb (Qle_bool y x)
  end.

End Sql.

(** ** Regular expressions used by the rules *)

Definition is_digit (c : ascii) : bool :=
  (48 <=? nat_of_ascii c)%nat && (nat_of_ascii c <=? 57)%nat.

Definition bytes (l : list nat) : string :=
  fold_right (fun n acc => String (ascii_of_nat n) acc) EmptyString l.

(** [n] characters of [[0-9]], then the continuation [k] on the rest. *)
Fixpoint digits_then (n : nat) (s : string) (k : string -> bool) : bool :=
  match n with
  | O => k s
  | S n' =>
      match s with
      | EmptyString => false
      | String c r => is_digit c && digits_then n' r k
      end
  end.

Module JavaRegex.

(** Line terminators of [java.util.regex] (UTF-8 encoded): LF, CR LF, CR,
    U+0085, U+2028, U+2029. *)
Definition line_terminators : list string :=
  [bytes [10]; bytes [13; 10]; bytes [13]; bytes [194; 133];
   bytes [226; 128; 168]; bytes [226; 128; 169]].

(** [$]: the end of the input, or just before a final line terminator. *)
Definition dollar (rest : string) : bool :=
  String.eqb rest EmptyString || existsb (String.eqb rest) line_terminators.

(** [s.rlike("^[0-9]{10}$")] *)
Definition rlike_npi (s : string) : bool := digits_then 10 s dollar.

(** [s.rlike("^[0-9]{5}(-[0-9]{4})?$")] *)
Definition rlike_zip (s : string) : bool :=
  digits_then 5 s (fun r =>
    match r with
    | String "-"%char r' => digits_then 4 r' dollar || dollar r
    | _ => dollar r
    end).

End JavaRegex.

(** ** Exact arithmetic for the aggregates *)

Definition Rltb (x y : R) : bool := if Rlt_dec x y then true else false.

Definition Rsum (l : list R) : R := fold_right Rplus 0%R l.

(** [avg]: NULL on no value. *)
Definition mean (l : list R) : option R :=
  match l with
  | [] => None
  | _ => Some (Rsum l / INR (List.length l))%R
  end.

(** Sum of the squared deviations from [m]. *)
Definition sum_sq_dev (m : R) (l : list R) : R :=
  Rsum (map (fun x => ((x - m) * (x - m))%R) l).

(** [stddev] is the sample standard deviation ([stddev_samp], divisor
    [n - 1]); on fewer than two values it is NULL (Spark 3.1 and later;
    Pandas gives NaN, which no comparison satisfies either). *)
Definition stddev_samp (l : list R) : option R :=
  match mean l with
  | None => None
  | Some m =>
      if (List.length l <? 2)%nat then None
      else Some (sqrt (sum_sq_dev m l / (INR (List.length l) - 1)))%R
  end.

Definition option_string_dec (a b : option string) : {a = b} + {a <> b}.
Proof. decide equality; apply string_dec. Defined.

(** ** The Spark job, [src/glue/dqad_etl_job.py] *)

Module Glue.
Import Sql.

(** *** [validate_data_quality] *)

(** 1. Null/Missing value checks: one chained [when]. *)
Definition null_checks (c : Claim) (dq_issues : list IssueCode)
  : list IssueCode :=
  case_when
    [ (isNull (member_id c), dq_issues ++ [MISSING_MEMBER_ID]);
      (isNull (provider_npi c), dq_issues ++ [MISSING_NPI]);
      (isNull (cpt_code c), dq_issues ++ [MISSING_CPT]);
      (or3 (isNull (icd10_code c))
           (lift2 String.eqb (icd10_code c) (Some EmptyString)),
       dq_issues ++ [MISSING_DIAGNOSIS]);
      (isNull (claim_amount c), dq_issues ++ [MISSING_AMOUNT]) ]
    dq_issues.

(** 2. Column [npi_valid].  [length] counts characters and [String.length]
    bytes; they agree on every string the pattern accepts, and the
    conjunction is false on the others. *)
Definition npi_valid (c : Claim) : tbool :=
  and3 (lift2 Nat.eqb (option_map String.length (provider_npi c))
              (Some DQ_THRESHOLDS.npi_length))
       (option_map JavaRegex.rlike_npi (provider_npi c)).

Definition npi_check (c : Claim) (dq_issues : list IssueCode)
  : list IssueCode :=
  case_when [ (not3 (npi_valid c), dq_issues ++ [INVALID_NPI]) ] dq_issues.

(** 3. Claim amount validations. *)
Definition amount_checks (c : Claim) (dq_issues : list IssueCode)
  : list IssueCode :=
  case_when
    [ (lift2 double_lt (claim_amount c)
             (Some (DFin DQ_THRESHOLDS.min_claim_amount)),
       dq_issues ++ [NEGATIVE_AMOUNT]);
      (lift2 double_lt (Some (DFin DQ_THRESHOLDS.max_claim_amount))
             (claim_amount c),
       dq_issues ++ [EXCESSIVE_AMOUNT]) ]
    dq_issues.

(** [datediff(end, start)]: number of days from [start] to [end]. *)
Definition datediff (e s : option date) : option Z := lift2 Z.sub e s.

(** 4. Date validations; [current_date] is [datetime.now().date()]. *)
Definition date_checks (current_date : date) (c : Claim)
           (dq_issues : list IssueCode) : list IssueCode :=
  case_when
    [ (lift2 Z.ltb (Some current_date) (service_date c),
       dq_issues ++ [FUTURE_SERVICE_DATE]);
      (lift2 Z.ltb (Some DQ_THRESHOLDS.max_days_to_submission)
             (datediff (submission_date c) (service_date c)),
       dq_issues ++ [LATE_SUBMISSION]);
      (lift2 Z.ltb (submission_date c) (service_date c),
       dq_issues ++ [SUBMISSION_BEFORE_SERVICE]) ]
    dq_issues.

(** 5. Invalid status. *)
Definition status_check (c : Claim) (dq_issues : list IssueCode)
  : list IssueCode :=
  case_when
    [ (not3 (isin (claim_status c) valid_statuses),
       dq_issues ++ [INVALID_STATUS]) ]
    dq_issues.

(** 6. Gender validation. *)
Definition gender_check (c : Claim) (dq_issues : list IssueCode)
  : list IssueCode :=
  case_when
    [ (not3 (isin (patient_gender c) valid_genders),
       dq_issues ++ [INVALID_GENDER]) ]
    dq_issues.

(** 7. ZIP code validation. *)
Definition zip_check (c : Claim) (dq_issues : list IssueCode)
  : list IssueCode :=
  case_when
    [ (not3 (option_map JavaRegex.rlike_zip (patient_zip c)),
       dq_issues ++ [INVALID_ZIP]) ]
    dq_issues.

(** The successive values of column [dq_issues], from the empty string. *)
Definition issues_of (current_date : date) (c : Claim) : list IssueCode :=
  zip_check c
    (gender_check c
       (status_check c
          (date_checks current_date c
             (amount_checks c (npi_check c (null_checks c [])))))).

(** A row of [dq_df]: the input columns and the three added ones. *)
Record DqRow : Type := mkDqRow {
  dq_claim      : Claim;
  dq_issues     : list IssueCode;
  dq_npi_valid  : tbool;
  has_dq_issues : tbool
}.

Definition dq_row (current_date : date) (c : Claim) : DqRow :=
  let issues := issues_of current_date c in
  {| dq_claim := c;
     dq_issues := issues;
     dq_npi_valid := npi_valid c;
     has_dq_issues :=
       Some (0 <? String.length (render_issues issues))%nat |}.

(** Returns [(clean_df, dq_failures_df)]. *)
Definition validate_data_quality (current_date : date) (df : list Claim)
  : list Claim * list DqRow :=
  let dq_df := map (dq_row current_date) df in
  let clean_df :=
    map dq_claim (filter (fun r => holds (not3 (has_dq_issues r))) dq_df) in
  let dq_failures_df := filter (fun r => holds (has_dq_issues r)) dq_df in
  (clean_df, dq_failures_df).

(** *** [detect_statistical_anomalies] *)

(** The value of [claim_amount] seen by the aggregates.  Only rows that
    passed the validator reach them and those are finite (lemma
    [clean_amount_finite]); the other cells are read as NULL. *)
Definition amount_value (c : Claim) : option R :=
  match claim_amount c with
  | Some (DFin q) => Some (Q2R q)
  | _ => None
  end.

(** The rows of the group of key [k], and the non-null amounts of some
    rows (the aggregates skip NULL). *)
Definition group_rows (df : list Claim) (k : option string) : list Claim :=
  filter (fun c => if option_string_dec (cpt_code c) k then true else false)
         df.

Definition amounts (rows : list Claim) : list R :=
  flat_map (fun c => match amount_value c with
                     | Some a => [a]
                     | None => []
                     end) rows.

(** A row of [stats_df]. *)
Record StatsRow : Type := mkStatsRow {
  stats_cpt_code : option string;
  avg_amount     : option R;
  stddev_amount  : option R;
  count          : nat
}.

(** [df.groupBy("cpt_code").agg(avg, stddev, count("*"))]: one row for
    each distinct key (NULL keys form a group of their own). *)
Definition stats_row (df : list Claim) (k : option string) : StatsRow :=
  let rows := group_rows df k in
  {| stats_cpt_code := k;
     avg_amount := mean (amounts rows);
     stddev_amount := stddev_samp (amounts rows);
     count := List.length rows |}.

Definition stats_df (df : list Claim) : list StatsRow :=
  map (stats_row df) (nodup option_string_dec (map cpt_code df)).

(** The equi-join condition: NULL keys never match. *)
Definition key_matches (c : Claim) (s : StatsRow) : bool :=
  holds (lift2 String.eqb (cpt_code c) (stats_cpt_code s)).

(** [df.join(stats_df, "cpt_code", "left")] *)
Definition left_join (df : list Claim) (stats : list StatsRow)
  : list (Claim * option StatsRow) :=
  flat_map (fun c =>
              match filter (key_matches c) stats with
              | [] => [(c, None)]
              | matches => map (fun s => (c, Some s)) matches
              end) df.

(** Spark's [/]: NULL when the divisor is zero. *)
Definition divide (x y : option R) : option R :=
  match x, y with
  | Some a, Some b => if Req_dec_T b 0 then None else Some (a / b)%R
  | _, _ => None
  end.

(** A row of [df_with_stats]. *)
Record ScoredRow : Type := mkScoredRow {
  scored_claim           : Claim;
  joined_avg_amount      : option R;
  joined_stddev_amount   : option R;
  joined_count           : option nat;
  z_score                : option R;
  is_statistical_outlier : tbool
}.

Definition score (cs : Claim * option StatsRow) : ScoredRow :=
  let (c, s) := cs in
  let avg := match s with Some s => avg_amount s | None => None end in
  let sd := match s with Some s => stddev_amount s | None => None end in
  let z :=
    case_when
      [ (lift2 Rltb (Some 0%R) sd,
         divide (lift2 Rminus (amount_value c) avg) sd) ]
      (Some 0%R) in
  {| scored_claim := c;
     joined_avg_amount := avg;
     joined_stddev_amount := sd;
     joined_count := option_map count s;
     z_score := z;
     is_statistical_outlier := lift2 Rltb (Some 3%R) (option_map Rabs z) |}.

Definition detect_statistical_anomalies (df : list Claim) : list ScoredRow :=
  map score (left_join df (stats_df df)).

(** *** [calculate_dq_metrics] *)

(** The counts are Python integers; the two percentages are quotients of
    integers, kept exact.  The entries [timestamp] and [source_file] of the
    dictionary decide nothing and are left out. *)
Record Metrics : Type := mkMetrics {
  total_records      : Z;
  gold_records       : Z;
  silver_records     : Z;
  quarantine_records : Z;
  total_anomalies    : Z;
  data_quality_score : Q;
  anomaly_rate       : Q
}.

Definition calculate_dq_metrics
           (raw_count clean_count dq_failure_count outlier_count : Z)
  : Metrics :=
  let total_anomalies := (dq_failure_count + outlier_count)%Z in
  let gold_count := (clean_count - outlier_count)%Z in
  {| total_records := raw_count;
     gold_records := gold_count;
     silver_records := dq_failure_count;
     quarantine_records := outlier_count;
     total_anomalies := total_anomalies;
     data_quality_score :=
       if (raw_count >? 0)%Z
       then (inject_Z gold_count / inject_Z raw_count * 100)%Q
       else 0%Q;
     anomaly_rate :=
       if (raw_count >? 0)%Z
       then (inject_Z total_anomalies / inject_Z raw_count * 100)%Q
       else 0%Q |}.

(** *** The job: the statements at module level, in order

    The [select]s that shape the SILVER and QUARANTINE frames and the
    [year]/[month] columns added to GOLD change columns, not rows; every
    output row is kept here with the claim it comes from. *)

Record Outputs : Type := mkOutputs {
  clean_claims         : list Claim;
  dq_failures          : list DqRow;
  claims_with_outliers : list ScoredRow;
  gold_claims          : list Claim;
  silver_claims        : list DqRow;
  quarantine_claims    : list ScoredRow;
  dq_metrics           : Metrics
}.

Definition run (current_date : date) (raw_claims_df : list Claim) : Outputs :=
  let raw_count := Z.of_nat (List.length raw_claims_df) in
  let (clean_claims, dq_failures) :=
    validate_data_quality current_date raw_claims_df in
  let clean_count := Z.of_nat (List.length clean_claims) in
  let dq_failure_count := Z.of_nat (List.length dq_failures) in
  let claims_with_outliers := detect_statistical_anomalies clean_claims in
  let statistical_outliers :=
    filter (fun r => holds (is_statistical_outlier r)) claims_with_outliers in
  let outlier_count := Z.of_nat (List.length statistical_outliers) in
  let gold_claims :=
    map scored_claim
        (filter (fun r => holds (not3 (is_statistical_outlier r)))
                claims_with_outliers) in
  {| clean_claims := clean_claims;
     dq_failures := dq_failures;
     claims_with_outliers := claims_with_outliers;
     gold_claims := gold_claims;
     silver_claims := dq_failures;
     quarantine_claims := statistical_outliers;
     dq_metrics :=
       calculate_dq_metrics raw_count clean_count dq_failure_count
                            outlier_count |}.

End Glue.

(** ** The Pandas reference, [src/data/test_dq_validation.py] *)

Module Pandas.

(** A missing cell ([None], [NaN], [NaT]) makes every mask below false
    except [isna] and the negated [isin]. *)
Definition isna {A} (x : option A) : bool :=
  match x with None => true | Some _ => false end.

(** In a float column NaN is the missing value. *)
Definition amount_isna (x : option double) : bool :=
  match x with
  | None | Some DNaN => true
  | Some _ => false
  end.

(** IEEE comparison of two floats: false as soon as one is NaN. *)
Definition double_lt (a b : double) : bool :=
  match a, b with
  | DNaN, _ | _, DNaN => false
  | DPosInf, _ => false
  | _, DPosInf => true
  | _, DNegInf => false
  | DNegInf, _ => true
  | DFin x, DFin y => negb (Qle_bool y x)
  end.

Definition mask2 {A B} (f : A -> B -> bool) (x : option A) (y : option B)
  : bool :=
  match x, y with
  | Some a, Some b => f a b
  | _, _ => false
  end.

Definition isin (x : option string) (values : list string) : bool :=
  match x with
  | Some s => existsb (String.eqb s) values
  | None => false
  end.

(** [df.loc[mask, 'dq_issues'] += tag] on one row. *)
Definition flag (mask : bool) (i : IssueCode) (dq_issues : list IssueCode)
  : list IssueCode :=
  if mask then dq_issues ++ [i] else dq_issues.

(** [$] of Python's [re]: the end of the string, or just before a
    newline that ends it. *)
Definition dollar (rest : string) : bool :=
  String.eqb rest EmptyString || String.eqb rest (bytes [10]).

(** [astype(str).str.match(r'^\d{10}$')].  A missing cell is rendered
    ["nan"], which does not match.  Field values are byte strings here, so
    [\d] is read on ASCII digits. *)
Definition npi_valid (c : Claim) : bool :=
  match provider_npi c with
  | None => false
  | Some s => digits_then 10 s dollar
  end.

(** [(submission_date - service_date).dt.days].  The files carry calendar
    dates, so the parsed timestamps are midnights and compare as day
    numbers. *)
Definition days_to_submission (c : Claim) : option Z :=
  match submission_date c, service_date c with
  | Some e, Some s => Some (e - s)%Z
  | _, _ => None
  end.

(** The value of column [dq_issues] after all the updates, in order. *)
Definition issues_of (current_date : date) (c : Claim) : list IssueCode :=
  let dq := [] in
  (* 1. Null/Missing value checks *)
  let dq := flag (isna (member_id c)) MISSING_MEMBER_ID dq in
  let dq := flag (isna (provider_npi c)) MISSING_NPI dq in
  let dq := flag (isna (cpt_code c)) MISSING_CPT dq in
  let dq := flag (isna (icd10_code c)
                  || mask2 String.eqb (icd10_code c) (Some EmptyString))
                 MISSING_DIAGNOSIS dq in
  let dq := flag (amount_isna (claim_amount c)) MISSING_AMOUNT dq in
  (* 2. Invalid NPI format *)
  let dq := flag (negb (npi_valid c)) INVALID_NPI dq in
  (* 3. Claim amount validations *)
  let dq := flag (mask2 double_lt (claim_amount c)
                        (Some (DFin DQ_THRESHOLDS.min_claim_amount)))
                 NEGATIVE_AMOUNT dq in
  let dq := flag (mask2 double_lt
                        (Some (DFin DQ_THRESHOLDS.max_claim_amount))
                        (claim_amount c))
                 EXCESSIVE_AMOUNT dq in
  (* 4. Date validations *)
  let dq := flag (mask2 Z.ltb (Some current_date) (service_date c))
                 FUTURE_SERVICE_DATE dq in
  let dq := flag (mask2 Z.ltb (Some DQ_THRESHOLDS.max_days_to_submission)
                        (days_to_submission c))
                 LATE_SUBMISSION dq in
  let dq := flag (mask2 Z.ltb (submission_date c) (service_date c))
                 SUBMISSION_BEFORE_SERVICE dq in
  (* 5. Invalid status *)
  let dq := flag (negb (isin (claim_status c) valid_statuses))
                 INVALID_STATUS dq in
  (* 6. Gender validation *)
  let dq := flag (negb (isin (patient_gender c) valid_genders))
                 INVALID_GENDER dq in
  dq.

(** The mask of each update above, by the code it appends, and the codes
    in the order of the updates (there is no ZIP rule in this file). *)
Definition rule_mask (current_date : date) (c : Claim) (i : IssueCode)
  : bool :=
  match i with
  | MISSING_MEMBER_ID => isna (member_id c)
  | MISSING_NPI => isna (provider_npi c)
  | MISSING_CPT => isna (cpt_code c)
  | MISSING_DIAGNOSIS =>
      isna (icd10_code c)
      || mask2 String.eqb (icd10_code c) (Some EmptyString)
  | MISSING_AMOUNT => amount_isna (claim_amount c)
  | INVALID_NPI => negb (npi_valid c)
  | NEGATIVE_AMOUNT =>
      mask2 double_lt (claim_amount c)
            (Some (DFin DQ_THRESHOLDS.min_claim_amount))
  | EXCESSIVE_AMOUNT =>
      mask2 double_lt (Some (DFin DQ_THRESHOLDS.max_claim_amount))
            (claim_amount c)
  | FUTURE_SERVICE_DATE => mask2 Z.ltb (Some current_date) (service_date c)
  | LATE_SUBMISSION =>
      mask2 Z.ltb (Some DQ_THRESHOLDS.max_days_to_submission)
            (days_to_submission c)
  | SUBMISSION_BEFORE_SERVICE =>
      mask2 Z.ltb (submission_date c) (service_date c)
  | INVALID_STATUS => negb (isin (claim_status c) valid_statuses)
  | INVALID_GENDER => negb (isin (patient_gender c) valid_genders)
  | INVALID_ZIP => false
  end.

Definition catalogue : list IssueCode :=
  [ MISSING_MEMBER_ID; MISSING_NPI; MISSING_CPT; MISSING_DIAGNOSIS;
    MISSING_AMOUNT; INVALID_NPI; NEGATIVE_AMOUNT; EXCESSIVE_AMOUNT;
    FUTURE_SERVICE_DATE; LATE_SUBMISSION; SUBMISSION_BEFORE_SERVICE;
    INVALID_STATUS; INVALID_GENDER ].

Record DqRow : Type := mkDqRow {
  dq_claim   : Claim;
  dq_issues  : list IssueCode;
  is_anomaly : bool
}.

Definition dq_row (current_date : date) (c : Claim) : DqRow :=
  let issues := issues_of current_date c in
  {| dq_claim := c;
     dq_issues := issues;
     is_anomaly := (0 <? String.length (render_issues issues))%nat |}.

(** Returns [(clean_df, anomalies_df)]. *)
Definition validate_data_quality (current_date : date) (df : list Claim)
  : list Claim * list DqRow :=
  let rows := map (dq_row current_date) df in
  (map dq_claim (filter (fun r => negb (is_anomaly r)) rows),
   filter is_anomaly rows).

(** [detect_statistical_anomalies].  A missing amount is [None]; as in the
    Spark job, the rows that passed the validator have finite amounts. *)
Definition amount_value (c : Claim) : option R :=
  match claim_amount c with
  | Some (DFin q) => Some (Q2R q)
  | _ => None
  end.

Definition amounts (rows : list Claim) : list R :=
  flat_map (fun c => match amount_value c with
                     | Some a => [a]
                     | None => []
                     end) rows.

Record StatsRow : Type := mkStatsRow {
  stats_cpt_code : string;
  avg_amount     : option R;
  stddev_amount  : option R;
  count          : nat
}.

Definition group_rows (df : list Claim) (k : string) : list Claim :=
  filter (fun c => mask2 String.eqb (cpt_code c) (Some k)) df.

(** [groupby('cpt_code')] leaves the rows with a missing key out. *)
Definition group_keys (df : list Claim) : list string :=
  nodup string_dec
        (flat_map (fun c => match cpt_code c with
                            | Some k => [k]
                            | None => []
                            end) df).

Definition stats_row (df : list Claim) (k : string) : StatsRow :=
  let xs := amounts (group_rows df k) in
  {| stats_cpt_code := k;
     avg_amount := mean xs;
     stddev_amount := stddev_samp xs;
     count := List.length xs |}.

Definition stats_df (df : list Claim) : list StatsRow :=
  map (stats_row df) (group_keys df).

(** [df.merge(stats_df, on='cpt_code', how='left')] *)
Definition merge_left (df : list Claim) (stats : list StatsRow)
  : list (Claim * option StatsRow) :=
  flat_map (fun c =>
              match filter (fun s => mask2 String.eqb (cpt_code c)
                                           (Some (stats_cpt_code s))) stats
              with
              | [] => [(c, None)]
              | matches => map (fun s => (c, Some s)) matches
              end) df.

Record ScoredRow : Type := mkScoredRow {
  scored_claim           : Claim;
  joined_avg_amount      : option R;
  joined_stddev_amount   : option R;
  z_score                : option R;
  is_statistical_outlier : bool
}.

Definition score (cs : Claim * option StatsRow) : ScoredRow :=
  let (c, s) := cs in
  let avg := match s with Some s => avg_amount s | None => None end in
  let sd := match s with Some s => stddev_amount s | None => None end in
  let mask := mask2 Rltb (Some 0%R) sd in
  let z :=
    if mask
    then match amount_value c, avg, sd with
         | Some a, Some m, Some d => Some ((a - m) / d)%R
         | _, _, _ => None
         end
    else Some 0%R in
  {| scored_claim := c;
     joined_avg_amount := avg;
     joined_stddev_amount := sd;
     z_score := z;
     is_statistical_outlier := mask2 Rltb (Some 3%R) (option_map Rabs z) |}.

Definition detect_statistical_anomalies (df : list Claim) : list ScoredRow :=
  map score (merge_left df (stats_df df)).

Record Metrics : Type := mkMetrics {
  raw_records        : Z;
  clean_records      : Z;
  anomaly_records    : Z;
  data_quality_score : Q;
  anomaly_rate       : Q
}.

Definition calculate_dq_metrics (raw_count clean_count anomaly_count : Z)
  : Metrics :=
  {| raw_records := raw_count;
     clean_records := clean_count;
     anomaly_records := anomaly_count;
     data_quality_score :=
       if (raw_count >? 0)%Z
       then (inject_Z clean_count / inject_Z raw_count * 100)%Q
       else 0%Q;
     anomaly_rate :=
       if (raw_count >? 0)%Z
       then (inject_Z anomaly_count / inject_Z raw_count * 100)%Q
       else 0%Q |}.

End Pandas.

(** ** Statements about issue lists *)

(** The numbered block of [validate_data_quality] that appends a code. *)
Definition block (i : IssueCode) : nat :=
  match i with
  | MISSING_MEMBER_ID | MISSING_NPI | MISSING_CPT
  | MISSING_DIAGNOSIS | MISSING_AMOUNT => 1
  | INVALID_NPI => 2
  | NEGATIVE_AMOUNT | EXCESSIVE_AMOUNT => 3
  | FUTURE_SERVICE_DATE | LATE_SUBMISSION | SUBMISSION_BEFORE_SERVICE => 4
  | INVALID_STATUS => 5
  | INVALID_GENDER => 6
  | INVALID_ZIP => 7
  end.


(** What one chained [when] contributes: nothing, or a single code of the
    block. *)
Definition at_most_one_of (k : nat) (l : list IssueCode) : Prop :=
  l = [] \/ exists i, l = [i] /\ block i = k.


(** [claim_status] is a member of the closed set of statuses. *)
Definition status_in_set (c : Claim) : Prop :=
  exists s, claim_status c = Some s /\ In s valid_statuses.

(** A record is rule-clean when its issue string is empty. *)
Definition rule_clean (issues : list IssueCode) : bool :=
  match issues with
  | [] => true
  | _ :: _ => false
  end.

(** The row of [df_with_stats] that belongs to claim [c] of frame [df]: [c]
    joined with the statistics of its own [cpt_code] group (with NULLs when
    the key is NULL). *)
Definition scored_row (df : list Claim) (c : Claim) : Glue.ScoredRow :=
  Glue.score
    (c, option_map (fun k => Glue.stats_row df (Some k)) (cpt_code c)).

(** The same row in the Pandas detector. *)
Definition pandas_scored_row (df : list Claim) (c : Claim)
  : Pandas.ScoredRow :=
  Pandas.score (c, option_map (Pandas.stats_row df) (cpt_code c)).

(** The amounts of the peer group of [c] in frame [df]. *)
Definition peer_amounts (df : list Claim) (c : Claim) : list R :=
  Glue.amounts (Glue.group_rows df (cpt_code c)).

(** ** Sample records *)

Module Sample.
Open Scope string_scope.

(** A record every rule accepts on day [today]. *)
Definition today : date := 20000%Z.

Definition valid_claim : Claim :=
  {| claim_id := "CLM-0001";
     member_id := Some "MBR-17";
     provider_id := Some "PRV-4";
     provider_npi := Some "1234567890";
     cpt_code := Some "99213";
     icd10_code := Some "I10";
     claim_amount := Some (DFin 250);
     service_date := Some 19000%Z;
     submission_date := Some 19010%Z;
     claim_status := Some "PAID";
     denial_reason := None;
     patient_dob := Some 3000%Z;
     patient_zip := Some "12345";
     patient_gender := Some "F" |}.

Definition with_amount (q : Q) (id : string) (c : Claim) : Claim :=
  {| claim_id := id;
     member_id := member_id c;
     provider_id := provider_id c;
     provider_npi := provider_npi c;
     cpt_code := cpt_code c;
     icd10_code := icd10_code c;
     claim_amount := Some (DFin q);
     service_date := service_date c;
     submission_date := submission_date c;
     claim_status := claim_status c;
     denial_reason := denial_reason c;
     patient_dob := patient_dob c;
     patient_zip := patient_zip c;
     patient_gender := patient_gender c |}.

(** The valid record with another [provider_npi]. *)
Definition with_npi (npi : string) (c : Claim) : Claim :=
  {| claim_id := claim_id c;
     member_id := member_id c;
     provider_id := provider_id c;
     provider_npi := Some npi;
     cpt_code := cpt_code c;
     icd10_code := icd10_code c;
     claim_amount := claim_amount c;
     service_date := service_date c;
     submission_date := submission_date c;
     claim_status := claim_status c;
     denial_reason := denial_reason c;
     patient_dob := patient_dob c;
     patient_zip := patient_zip c;
     patient_gender := patient_gender c |}.

(** Served and submitted on other days. *)
Definition with_dates (service submission : date) (c : Claim) : Claim :=
  {| claim_id := claim_id c;
     member_id := member_id c;
     provider_id := provider_id c;
     provider_npi := provider_npi c;
     cpt_code := cpt_code c;
     icd10_code := icd10_code c;
     claim_amount := claim_amount c;
     service_date := Some service;
     submission_date := Some submission;
     claim_status := claim_status c;
     denial_reason := denial_reason c;
     patient_dob := patient_dob c;
     patient_zip := patient_zip c;
     patient_gender := patient_gender c |}.

(** Two claims of one procedure code with different amounts, and two with
    the same amount. *)
Definition spread_batch : list Claim :=
  [valid_claim; with_amount 750 "CLM-0009" valid_claim].

Definition flat_batch : list Claim :=
  [valid_claim; with_amount 250 "CLM-0010" valid_claim].

(** Ten claims of one procedure code that bill 100, and one that bills
    10000. *)
Definition peers : list Claim :=
  map (fun id => with_amount 100 id valid_claim)
      ["P01"; "P02"; "P03"; "P04"; "P05";
       "P06"; "P07"; "P08"; "P09"; "P10"].

Definition big_claim : Claim := with_amount 10000 "CLM-0011" valid_claim.

(** [member_id] and [provider_npi] both absent. *)
Definition no_member_no_npi : Claim :=
  {| claim_id := "CLM-0002";
     member_id := None;
     provider_id := Some "PRV-4";
     provider_npi := None;
     cpt_code := Some "99213";
     icd10_code := Some "I10";
     claim_amount := Some (DFin 250);
     service_date := Some 19000%Z;
     submission_date := Some 19010%Z;
     claim_status := Some "PAID";
     denial_reason := None;
     patient_dob := Some 3000%Z;
     patient_zip := Some "12345";
     patient_gender := Some "F" |}.


(** Served tomorrow, submitted the day before the service. *)
Definition future_and_before : Claim :=
  {| claim_id := "CLM-0004";
     member_id := Some "MBR-17";
     provider_id := Some "PRV-4";
     provider_npi := Some "1234567890";
     cpt_code := Some "99213";
     icd10_code := Some "I10";
     claim_amount := Some (DFin 250);
     service_date := Some 20001%Z;
     submission_date := Some 20000%Z;
     claim_status := Some "PAID";
     denial_reason := None;
     patient_dob := Some 3000%Z;
     patient_zip := Some "12345";
     patient_gender := Some "F" |}.



(** [claim_status] absent. *)
Definition no_status : Claim :=
  {| claim_id := "CLM-0007";
     member_id := Some "MBR-17";
     provider_id := Some "PRV-4";
     provider_npi := Some "1234567890";
     cpt_code := Some "99213";
     icd10_code := Some "I10";
     claim_amount := Some (DFin 250);
     service_date := Some 19000%Z;
     submission_date := Some 19010%Z;
     claim_status := None;
     denial_reason := None;
     patient_dob := Some 3000%Z;
     patient_zip := Some "12345";
     patient_gender := Some "F" |}.

(** [claim_status] outside the closed set. *)
Definition odd_status : Claim :=
  {| claim_id := "CLM-0008";
     member_id := Some "MBR-17";
     provider_id := Some "PRV-4";
     provider_npi := Some "1234567890";
     cpt_code := Some "99213";
     icd10_code := Some "I10";
     claim_amount := Some (DFin 250);
     service_date := Some 19000%Z;
     submission_date := Some 19010%Z;
     claim_status := Some "REVERSED";
     denial_reason := None;
     patient_dob := Some 3000%Z;
     patient_zip := Some "12345";
     patient_gender := Some "F" |}.

End Sample.


(** ** The order of the rules *)

(** The position of a code in the order in which the rules are written. *)
Definition rank (i : IssueCode) : nat :=
  match i with
  | MISSING_MEMBER_ID => 0
  | MISSING_NPI => 1
  | MISSING_CPT => 2
  | MISSING_DIAGNOSIS => 3
  | MISSING_AMOUNT => 4
  | INVALID_NPI => 5
  | NEGATIVE_AMOUNT => 6
  | EXCESSIVE_AMOUNT => 7
  | FUTURE_SERVICE_DATE => 8
  | LATE_SUBMISSION => 9
  | SUBMISSION_BEFORE_SERVICE => 10
  | INVALID_STATUS => 11
  | INVALID_GENDER => 12
  | INVALID_ZIP => 13
  end.

Definition before (a b : IssueCode) : Prop := rank a < rank b.

(** The tag of a code without its [";"]. *)
Definition issue_name (i : IssueCode) : string :=
  match i with
  | MISSING_MEMBER_ID => "MISSING_MEMBER_ID"
  | MISSING_NPI => "MISSING_NPI"
  | MISSING_CPT => "MISSING_CPT"
  | MISSING_DIAGNOSIS => "MISSING_DIAGNOSIS"
  | MISSING_AMOUNT => "MISSING_AMOUNT"
  | INVALID_NPI => "INVALID_NPI"
  | NEGATIVE_AMOUNT => "NEGATIVE_AMOUNT"
  | EXCESSIVE_AMOUNT => "EXCESSIVE_AMOUNT"
  | FUTURE_SERVICE_DATE => "FUTURE_SERVICE_DATE"
  | LATE_SUBMISSION => "LATE_SUBMISSION"
  | SUBMISSION_BEFORE_SERVICE => "SUBMISSION_BEFORE_SERVICE"
  | INVALID_STATUS => "INVALID_STATUS"
  | INVALID_GENDER => "INVALID_GENDER"
  | INVALID_ZIP => "INVALID_ZIP"
  end%string.

(** ** [main] of [src/data/test_dq_validation.py] *)

Module PandasMain.

(** [s.split(sep)] for a separator of one character. *)
Fixpoint split (sep : ascii) (s : string) : list string :=
  match s with
  | EmptyString => [EmptyString]
  | String c r =>
      if Ascii.eqb c sep then EmptyString :: split sep r
      else match split sep r with
           | h :: t => String c h :: t
           | [] => [String c EmptyString]
           end
  end.

(** A dictionary from strings to counts; the items keep the order in which
    the keys were first set. *)
Definition dict := list (string * nat).

Fixpoint get (d : dict) (k : string) (default : nat) : nat :=
  match d with
  | [] => default
  | (k', v) :: r => if String.eqb k' k then v else get r k default
  end.

(** [d[k] = v] *)
Fixpoint set (d : dict) (k : string) (v : nat) : dict :=
  match d with
  | [] => [(k, v)]
  | (k', v') :: r =>
      if String.eqb k' k then (k', v) :: r else (k', v') :: set r k v
  end.

(** The inner loop over [issues.split(';')] for one row. *)
Definition count_row (issue_counts : dict) (issues : string) : dict :=
  fold_left
    (fun counts issue =>
       if String.eqb issue EmptyString then counts
       else set counts issue (get counts issue 0 + 1))
    (split ";"%char issues) issue_counts.

(** The outer loop over [anomaly_df['dq_issues']]. *)
Definition issue_counts (anomaly_df : list Pandas.DqRow) : dict :=
  fold_left count_row
            (map (fun r => render_issues (Pandas.dq_issues r)) anomaly_df) [].

(** [sorted(items, key=lambda x: x[1], reverse=True)]: the sort is stable,
    items of equal count stay in their order. *)
Fixpoint insert_desc (x : string * nat) (l : list (string * nat))
  : list (string * nat) :=
  match l with
  | [] => [x]
  | y :: r => if snd y <=? snd x then x :: y :: r else y :: insert_desc x r
  end.

Definition sorted_desc (items : list (string * nat)) : list (string * nat) :=
  fold_right insert_desc [] items.

(** What the loop body prints for one file. *)
Record FileReport : Type := mkFileReport {
  raw_count     : nat;
  clean_count   : nat;
  anomaly_count : nat;
  outlier_count : nat;
  metrics       : Pandas.Metrics;
  top_issues    : list (string * nat);
  clean_df      : list Claim;
  anomaly_df    : list Pandas.DqRow
}.

Definition process_file (current_date : date) (df : list Claim)
  : FileReport :=
  let raw_count := List.length df in
  let (clean_df, anomaly_df) :=
    Pandas.validate_data_quality current_date df in
  let clean_count := List.length clean_df in
  let anomaly_count := List.length anomaly_df in
  let outlier_count :=
    if 0 <? clean_count
    then List.length
           (filter Pandas.is_statistical_outlier
                   (Pandas.detect_statistical_anomalies clean_df))
    else 0 in
  let metrics :=
    Pandas.calculate_dq_metrics (Z.of_nat raw_count) (Z.of_nat clean_count)
                                (Z.of_nat anomaly_count) in
  let top_issues :=
    if 0 <? anomaly_count
    then firstn 5 (sorted_desc (issue_counts anomaly_df))
    else [] in
  {| raw_count := raw_count;
     clean_count := clean_count;
     anomaly_count := anomaly_count;
     outlier_count := outlier_count;
     metrics := metrics;
     top_issues := top_issues;
     clean_df := clean_df;
     anomaly_df := anomaly_df |}.

(** The overall summary. *)
Record Summary : Type := mkSummary {
  total_clean     : nat;
  total_anomalies : nat;
  total_raw       : nat;
  overall_metrics : Pandas.Metrics
}.

Definition sum (l : list nat) : nat := fold_right Nat.add 0 l.


End PandasMain.



Definition IssueCode_eq_dec (a b : IssueCode) : {a = b} + {a <> b}.
Proof. decide equality. Defined.

(** The row carries code [i]. *)
Definition carries (i : IssueCode) (r : Pandas.DqRow) : bool :=
  if in_dec IssueCode_eq_dec i (Pandas.dq_issues r) then true else false.

(** Counts in decreasing order. *)
Definition count_ge (a b : string * nat) : Prop := snd b <= snd a.

(** The entries of the counter: one for each code that occurs, with its
    count. *)
Definition counter_ok (d : PandasMain.dict) : Prop :=
  NoDup (map fst d)
  /\ Forall (fun kv => (exists i, fst kv = issue_name i) /\ 0 < snd kv) d.

(** * Around the job: metrics, trigger, remediation *)

(** ** CloudWatch metric data *)

Module CloudWatch.

(** One entry of [MetricData].  The [Timestamp] is read from the clock and
    is left out; a count is an integer, kept as a rational like the
    percentages. *)
Record MetricDatum : Type := mkMetricDatum {
  MetricName : string;
  Value      : Q;
  Unit       : string;
  Dimensions : list (string * string)
}.

(** What [get_metric_statistics] is asked for. *)
Record Query : Type := mkQuery {
  query_Namespace  : string;
  query_MetricName : string;
  query_Dimensions : list (string * string)
}.

Definition dimension_eqb (a b : string * string) : bool :=
  String.eqb (fst a) (fst b) && String.eqb (snd a) (snd b).

Definition dimensions_in (a b : list (string * string)) : bool :=
  forallb (fun x => existsb (dimension_eqb x) b) a.

(** CloudWatch keeps one metric for each namespace, name and set of
    dimensions; a query reads the data points published under exactly its
    own namespace, name and dimensions. *)
Definition selects (q : Query) (namespace : string) (d : MetricDatum)
  : bool :=
  String.eqb (query_Namespace q) namespace
  && String.eqb (query_MetricName q) (MetricName d)
  && dimensions_in (query_Dimensions q) (Dimensions d)
  && dimensions_in (Dimensions d) (query_Dimensions q).

End CloudWatch.

(** ** [push_metrics_to_cloudwatch] of [src/glue/dqad_etl_job.py] *)

Module GluePush.
Import CloudWatch.

(** [ch in s] for a string [ch] of one character. *)
Fixpoint contains (ch : ascii) (s : string) : bool :=
  match s with
  | EmptyString => false
  | String c r => Ascii.eqb c ch || contains ch r
  end.

(** [source_file.split('/')[0] + '/' if '/' in source_file else source_file] *)
Definition folder_prefix (source_file : string) : string :=
  if contains "/"%char source_file
  then (hd EmptyString (PandasMain.split "/"%char source_file) ++ "/")%string
  else source_file.

(** The entries for the file itself. *)
Definition metric_data (metrics : Glue.Metrics) (source_file : string)
  : list MetricDatum :=
  [ {| MetricName := "TotalRecords";
       Value := inject_Z (Glue.total_records metrics);
       Unit := "Count";
       Dimensions := [("SourceFile", source_file)] |};
    {| MetricName := "GoldRecords";
       Value := inject_Z (Glue.gold_records metrics);
       Unit := "Count";
       Dimensions := [("SourceFile", source_file)] |};
    {| MetricName := "SilverRecords";
       Value := inject_Z (Glue.silver_records metrics);
       Unit := "Count";
       Dimensions := [("SourceFile", source_file)] |};
    {| MetricName := "QuarantineRecords";
       Value := inject_Z (Glue.quarantine_records metrics);
       Unit := "Count";
       Dimensions := [("SourceFile", source_file)] |};
    {| MetricName := "AnomalyCount";
       Value := inject_Z (Glue.total_anomalies metrics);
       Unit := "Count";
       Dimensions := [("SourceFile", source_file)] |};
    {| MetricName := "DataQualityScore";
       Value := Glue.data_quality_score metrics;
       Unit := "Percent";
       Dimensions := [("SourceFile", source_file)] |};
    {| MetricName := "AnomalyRate";
       Value := Glue.anomaly_rate metrics;
       Unit := "Percent";
       Dimensions := [("SourceFile", source_file)] |} ]%string.

(** The same entries once more, under the folder. *)
Definition aggregated_metric_data
           (metrics : Glue.Metrics) (folder_prefix : string)
  : list MetricDatum :=
  [ {| MetricName := "TotalRecords";
       Value := inject_Z (Glue.total_records metrics);
       Unit := "Count";
       Dimensions := [("SourceFile", folder_prefix)] |};
    {| MetricName := "GoldRecords";
       Value := inject_Z (Glue.gold_records metrics);
       Unit := "Count";
       Dimensions := [("SourceFile", folder_prefix)] |};
    {| MetricName := "SilverRecords";
       Value := inject_Z (Glue.silver_records metrics);
       Unit := "Count";
       Dimensions := [("SourceFile", folder_prefix)] |};
    {| MetricName := "QuarantineRecords";
       Value := inject_Z (Glue.quarantine_records metrics);
       Unit := "Count";
       Dimensions := [("SourceFile", folder_prefix)] |};
    {| MetricName := "AnomalyCount";
       Value := inject_Z (Glue.total_anomalies metrics);
       Unit := "Count";
       Dimensions := [("SourceFile", folder_prefix)] |};
    {| MetricName := "DataQualityScore";
       Value := Glue.data_quality_score metrics;
       Unit := "Percent";
       Dimensions := [("SourceFile", folder_prefix)] |};
    {| MetricName := "AnomalyRate";
       Value := Glue.anomaly_rate metrics;
       Unit := "Percent";
       Dimensions := [("SourceFile", folder_prefix)] |} ]%string.

(** The [MetricData] of the one call of [put_metric_data]; [source_file]
    is the entry of that name of the metrics, the job's [S3_INPUT_KEY]. *)
Definition push_metrics_to_cloudwatch
           (metrics : Glue.Metrics) (source_file : string)
  : list MetricDatum :=
  metric_data metrics source_file
  ++ aggregated_metric_data metrics (folder_prefix source_file).

End GluePush.

(** The names of the seven metrics of a run. *)
Definition metric_names : list string :=
  [ "TotalRecords"; "GoldRecords"; "SilverRecords"; "QuarantineRecords";
    "AnomalyCount"; "DataQualityScore"; "AnomalyRate" ]%string.

(** The entries of a call published under the dimension [SourceFile = v]
    with the name [n]. *)
Definition published_as (n v : string) (data : list CloudWatch.MetricDatum)
  : list CloudWatch.MetricDatum :=
  filter (fun d =>
            String.eqb (CloudWatch.MetricName d) n
            && match CloudWatch.Dimensions d with
               | [(k, v')] => String.eqb k "SourceFile" && String.eqb v' v
               | _ => false
               end) data.

(** The value of a run published under a name. *)
Definition metric_value (metrics : Glue.Metrics) (n : string) : Q :=
  if String.eqb n "TotalRecords" then inject_Z (Glue.total_records metrics)
  else if String.eqb n "GoldRecords"
  then inject_Z (Glue.gold_records metrics)
  else if String.eqb n "SilverRecords"
  then inject_Z (Glue.silver_records metrics)
  else if String.eqb n "QuarantineRecords"
  then inject_Z (Glue.quarantine_records metrics)
  else if String.eqb n "AnomalyCount"
  then inject_Z (Glue.total_anomalies metrics)
  else if String.eqb n "DataQualityScore"
  then Glue.data_quality_score metrics
  else Glue.anomaly_rate metrics.

(** ** The readers of [src/dashboard/app.py] *)

Module Dashboard.
Import CloudWatch.

Definition CLOUDWATCH_NAMESPACE_DQ : string := "DQAD/DataQuality".
Definition CLOUDWATCH_NAMESPACE_COST : string := "DQAD/Cost".

(** The request that [fetch_cloudwatch_metrics] sends. *)
Definition fetch_cloudwatch_metrics_query (namespace metric_name : string)
  : Query :=
  {| query_Namespace := namespace;
     query_MetricName := metric_name;
     query_Dimensions := [("SourceFile", "claims/")]%string |}.

(** A data point of an answer, with the one statistic that is read. *)
Record Datapoint : Type := mkDatapoint {
  Timestamp : Z;
  Maximum   : Q
}.

(** [needle in s] *)
Fixpoint substring_in (needle s : string) : bool :=
  String.prefix needle s
  || match s with
     | EmptyString => false
     | String _ r => substring_in needle r
     end.

(** The metrics of a file: the first dimension is not the folder
    ['claims/'] and names a file of the generator. *)
Definition file_dimensions (metrics : list (list (string * string)))
  : list (list (string * string)) :=
  filter (fun dimensions =>
            match dimensions with
            | [] => false
            | (_, value) :: _ =>
                negb (String.eqb value "claims/")
                && substring_in "payer_claims" value
            end) metrics.

(** [max(datapoints, key=lambda x: x['Timestamp'])]: the first of the
    latest. *)
Fixpoint latest_from (best : Datapoint) (l : list Datapoint) : Datapoint :=
  match l with
  | [] => best
  | x :: r =>
      if (Timestamp best <? Timestamp x)%Z then latest_from x r
      else latest_from best r
  end.

(** [int(x)]: towards zero. *)
Definition int (x : Q) : Z := Z.quot (Qnum x) (Zpos (Qden x)).

Record Summary : Type := mkSummary {
  total_anomalies     : Z;
  data_quality_issues : Z;
  total_records       : Z;
  gold_records        : Z;
  dq_score            : Q
}.

Definition no_data : Summary :=
  {| total_anomalies := 0; data_quality_issues := 0; total_records := 0;
     gold_records := 0; dq_score := 0 |}.

(** The two calls of CloudWatch that the summary makes; [None] is a call
    that raises. *)
Record Clients : Type := mkClients {
  list_metrics : string -> string -> option (list (list (string * string)));
  get_metric_statistics : Query -> option (list Datapoint)
}.

(** The value shown for one metric of the file. *)
Definition fetch_one (cw : Clients) (source_file metric_name : string)
  : option Z :=
  match get_metric_statistics cw
          {| query_Namespace := CLOUDWATCH_NAMESPACE_DQ;
             query_MetricName := metric_name;
             query_Dimensions := [("SourceFile"%string, source_file)] |}
  with
  | None => None
  | Some [] => Some 0%Z
  | Some (x :: r) => Some (int (Maximum (latest_from x r)))
  end.

(** [fetch_anomaly_summary]; [clients] is [None] when the clients could
    not be made. *)
Definition fetch_anomaly_summary (clients : option Clients) : Summary :=
  match clients with
  | None => no_data
  | Some cw =>
      match list_metrics cw CLOUDWATCH_NAMESPACE_DQ "TotalRecords" with
      | None => no_data
      | Some all_metrics =>
          match file_dimensions all_metrics with
          | [] => no_data
          | dimensions :: _ =>
              let source_file := snd (hd (EmptyString, EmptyString)
                                         dimensions) in
              match fetch_one cw source_file "AnomalyCount",
                    fetch_one cw source_file "SilverRecords",
                    fetch_one cw source_file "TotalRecords",
                    fetch_one cw source_file "GoldRecords"
              with
              | Some a, Some s, Some t, Some g =>
                  {| total_anomalies := a;
                     data_quality_issues := s;
                     total_records := t;
                     gold_records := g;
                     dq_score :=
                       if (t >? 0)%Z
                       then (inject_Z g / inject_Z t * 100)%Q
                       else 0%Q |}
              | _, _, _, _ => no_data
              end
          end
      end
  end.

(** The request that [fetch_cost_summary] sends: no dimension. *)
Definition cost_summary_query : Query :=
  {| query_Namespace := CLOUDWATCH_NAMESPACE_COST;
     query_MetricName := "EstimatedDailyCost";
     query_Dimensions := [] |}.

Record CostSummary : Type := mkCostSummary {
  current_daily_cost : Q;
  avg_daily_cost     : Q;
  projected_monthly  : Q
}.

(** [sum(dp['Maximum'] for dp in datapoints)] *)
Definition sum_maximum (datapoints : list Datapoint) : Q :=
  fold_left (fun total dp => (total + Maximum dp)%Q) datapoints 0%Q.

(** [fetch_cost_summary]; the first of the data points sorted by time,
    latest first, is the first of the latest. *)
Definition fetch_cost_summary (clients : option Clients) : CostSummary :=
  match clients with
  | None =>
      {| current_daily_cost := (45 # 100)%Q;
         avg_daily_cost := (38 # 100)%Q;
         projected_monthly := (1350 # 100)%Q |}
  | Some cw =>
      match get_metric_statistics cw cost_summary_query with
      | None =>
          {| current_daily_cost := (2 # 100)%Q;
             avg_daily_cost := (2 # 100)%Q;
             projected_monthly := (60 # 100)%Q |}
      | Some datapoints =>
          let current_cost :=
            match datapoints with
            | [] => (2 # 100)%Q
            | x :: r => Maximum (latest_from x r)
            end in
          let total := sum_maximum datapoints in
          let avg_cost :=
            match datapoints with
            | [] => current_cost
            | _ :: _ =>
                (total / inject_Z (Z.of_nat (List.length datapoints)))%Q
            end in
          {| current_daily_cost := current_cost;
             avg_daily_cost := avg_cost;
             projected_monthly := (current_cost * 30)%Q |}
      end
  end.

End Dashboard.

(** CloudWatch after one call of [put_metric_data] at time [t], as the
    dashboard sees it: the metrics of a name, and one data point for each
    entry a query selects. *)
Definition cloudwatch_after
           (namespace : string) (t : Z) (data : list CloudWatch.MetricDatum)
  : Dashboard.Clients :=
  {| Dashboard.list_metrics :=
       fun ns metric_name =>
         Some (map CloudWatch.Dimensions
                   (filter (fun d =>
                              String.eqb ns namespace
                              && String.eqb (CloudWatch.MetricName d)
                                            metric_name)
                           data));
     Dashboard.get_metric_statistics :=
       fun q =>
         Some (map (fun d => Dashboard.mkDatapoint t (CloudWatch.Value d))
                   (filter (CloudWatch.selects q namespace) data)) |}.

(** ** [src/lambda/glue_trigger/app.py] *)

Module GlueTrigger.

(** A record of an S3 event notification: [eventName], and under [s3] the
    name of the bucket and the key and size of the object. *)
Record S3Record : Type := mkS3Record {
  eventName   : string;
  bucket_name : string;
  object_key  : string;
  object_size : Z
}.

(** The calls of AWS services, in the order in which they are made. *)
Inductive Call : Type :=
| start_job_run (JobName : string) (Arguments : list (string * string))
| put_metric_data (Namespace : string)
                  (MetricData : list CloudWatch.MetricDatum).

Inductive Exception : Type :=
| UnboundLocalError (name : string)
| ServiceError (message : string).

Inductive Outcome (A : Type) : Type :=
| Return (a : A)
| Raise (e : Exception).

Arguments Return {A} a.
Arguments Raise {A} e.

(** What is returned to the caller. *)
Record Response : Type := mkResponse {
  statusCode : Z;
  message    : string;
  job_run_id : string
}.

Section Handler.

(** The environment of the function. *)
Variables GLUE_JOB_NAME S3_RAW_BUCKET S3_PROCESSED_BUCKET
          CLOUDWATCH_NAMESPACE : string.

(** Glue's answer to [start_job_run], given the calls made so far with
    this one last: the [JobRunId], or an error. *)
Variable glue_client : list Call -> Outcome string.

Definition start_glue_job (log : list Call) (bucket key : string)
  : list Call * Outcome string :=
  let job_args :=
    [ ("--S3_RAW_BUCKET", S3_RAW_BUCKET);
      ("--S3_PROCESSED_BUCKET", S3_PROCESSED_BUCKET);
      ("--S3_INPUT_KEY", key);
      ("--CLOUDWATCH_NAMESPACE", CLOUDWATCH_NAMESPACE) ]%string in
  let log := log ++ [start_job_run GLUE_JOB_NAME job_args] in
  (log, glue_client log).

(** An error of [put_metric_data] is caught and printed: whatever
    CloudWatch answers, the call is all that remains. *)
Definition push_trigger_metric
           (log : list Call) (bucket key job_run_id : string) : list Call :=
  log ++ [ put_metric_data
             CLOUDWATCH_NAMESPACE
             [ {| CloudWatch.MetricName := "GlueJobTriggered";
                  CloudWatch.Value := 1;
                  CloudWatch.Unit := "Count";
                  CloudWatch.Dimensions :=
                    [ ("SourceBucket", bucket);
                      ("JobName", GLUE_JOB_NAME) ] |} ]%string ].

(** The loop over [event['Records']]; [response] is the variable of that
    name, unbound at first. *)
Fixpoint for_records
         (records : list S3Record) (log : list Call) (response : option string)
  : list Call * Outcome (option string) :=
  match records with
  | [] => (log, Return response)
  | record :: records =>
      if String.prefix "ObjectCreated" (eventName record)
      then
        let bucket := bucket_name record in
        let key := object_key record in
        match start_glue_job log bucket key with
        | (log, Raise e) => (log, Raise e)
        | (log, Return id) =>
            for_records records (push_trigger_metric log bucket key id)
                        (Some id)
        end
      else for_records records log response
  end.

(** The handler: the calls it makes and what it returns or raises (the
    [except] clause prints and raises the exception again). *)
Definition lambda_handler (event : list S3Record)
  : list Call * Outcome Response :=
  match for_records event [] None with
  | (log, Raise e) => (log, Raise e)
  | (log, Return None) => (log, Raise (UnboundLocalError "response"))
  | (log, Return (Some id)) =>
      (log, Return {| statusCode := 200;
                      message := "Glue job triggered successfully";
                      job_run_id := id |})
  end.

End Handler.

(** The jobs started by a sequence of calls: name and arguments. *)
Definition started (log : list Call)
  : list (string * list (string * string)) :=
  flat_map (fun c => match c with
                     | start_job_run j a => [(j, a)]
                     | put_metric_data _ _ => []
                     end) log.

(** The metric calls of a sequence of calls. *)
Definition pushed (log : list Call) : list (list CloudWatch.MetricDatum) :=
  flat_map (fun c => match c with
                     | start_job_run _ _ => []
                     | put_metric_data _ d => [d]
                     end) log.

(** [args.get(k)] *)
Fixpoint lookup (k : string) (args : list (string * string))
  : option string :=
  match args with
  | [] => None
  | (k', v) :: r => if String.eqb k' k then Some v else lookup k r
  end.

(** The records of an event that are handled. *)
Definition created (event : list S3Record) : list S3Record :=
  filter (fun r => String.prefix "ObjectCreated" (eventName r)) event.

End GlueTrigger.

(** An event of two records, of which the first is handled. *)
Definition sample_event : list GlueTrigger.S3Record :=
  [ {| GlueTrigger.eventName := "ObjectCreated:Put";
       GlueTrigger.bucket_name := "dqad-raw-dev";
       GlueTrigger.object_key := "claims/payer_claims_20240101_000000.csv";
       GlueTrigger.object_size := 1024 |};
    {| GlueTrigger.eventName := "ObjectRemoved:Delete";
       GlueTrigger.bucket_name := "dqad-raw-dev";
       GlueTrigger.object_key := "claims/old.csv";
       GlueTrigger.object_size := 0 |} ]%string.

(** ** [src/lambda/orchestrator/app.py] *)

Module Orchestrator.

(** The calls of S3 and Glue, in the order in which they are made. *)
Inductive Call : Type :=
| list_objects_v2 (Bucket Prefix : string)
| copy_object (CopySource_Bucket CopySource_Key Bucket Key : string)
| put_object_tagging (Bucket Key : string) (TagSet : list (string * string))
| start_job_run (JobName : string) (Arguments : list (string * string)).

(** What a service answers: a value, a [ClientError], or another
    exception. *)
Inductive Answer (A : Type) : Type :=
| Ok (a : A)
| ClientError (message : string)
| OtherException (message : string).

Arguments Ok {A} a.
Arguments ClientError {A} message.
Arguments OtherException {A} message.

(** The dictionary that [quarantine_data] returns. *)
Inductive QuarantineResult : Type :=
| skipped (reason : string)
| success (quarantined_count : nat) (files : list string)
| error (message : string) (quarantined_count : nat).

(** The dictionary that [restart_glue_job] returns. *)
Inductive RestartResult : Type :=
| restart_skipped (reason : string)
| restart_success (job_name job_run_id action : string)
| restart_error (message : string).

Inductive Outcome (A : Type) : Type :=
| Return (a : A)
| Raise (message : string).

Arguments Return {A} a.
Arguments Raise {A} message.

(** [s.endswith(suffix)] *)
Definition endswith (s suffix : string) : bool :=
  (String.length suffix <=? String.length s)
  && String.eqb (substring (String.length s - String.length suffix)
                           (String.length suffix) s)
                suffix.

Section Remediation.

(** The environment of the function. *)
Variables S3_RAW_BUCKET S3_PROCESSED_BUCKET S3_LOGS_BUCKET : string.

(** The answers of the services, given the calls made so far with this one
    last; [list_objects_v2] answers the keys under ['Contents'], or [None]
    when the response has no ['Contents'].  [now] is the clock, read as
    [strftime('%Y%m%d_%H%M%S')] after the calls made so far. *)
Variable s3_list : list Call -> Answer (option (list string)).
Variable s3_copy : list Call -> Answer unit.
Variable s3_tag : list Call -> Answer unit.
Variable glue_start : list Call -> Answer string.
Variable now : list Call -> string.

(** The loop over [response['Contents']]. *)
Fixpoint for_contents
         (bucket : string) (contents : list string)
         (log : list Call) (quarantined_files : list string)
  : list Call * Outcome QuarantineResult :=
  match contents with
  | [] =>
      (log, Return (success (List.length quarantined_files)
                            quarantined_files))
  | source_key :: contents =>
      if endswith source_key "/"
      then for_contents bucket contents log quarantined_files
      else
        let timestamp := now log in
        let quarantine_key :=
          ("quarantine/" ++ timestamp ++ "/" ++ source_key)%string in
        let log :=
          log ++ [copy_object bucket source_key
                              S3_LOGS_BUCKET quarantine_key] in
        match s3_copy log with
        | ClientError e =>
            (log, Return (error e (List.length quarantined_files)))
        | OtherException e => (log, Raise e)
        | Ok _ =>
            let log :=
              log ++ [put_object_tagging
                        bucket source_key
                        [("Status", "Quarantined")]%string] in
            match s3_tag log with
            | ClientError e =>
                (log, Return (error e (List.length quarantined_files)))
            | OtherException e => (log, Raise e)
            | Ok _ =>
                for_contents bucket contents log
                             (quarantined_files ++ [source_key])
            end
        end
  end.

(** [quarantine_data]: the calls it makes, and what it returns; an
    exception that is not a [ClientError] is not caught. *)
Definition quarantine_data (bucket prefix : string)
  : list Call * Outcome QuarantineResult :=
  if String.eqb S3_LOGS_BUCKET EmptyString
  then ([], Return (skipped "no_logs_bucket"))
  else
    let log := [list_objects_v2 bucket prefix] in
    match s3_list log with
    | ClientError e => (log, Return (error e 0))
    | OtherException e => (log, Raise e)
    | Ok None => (log, Return (success 0 []))
    | Ok (Some contents) => for_contents bucket contents log []
    end.

(** [restart_glue_job], as defined last in the file; every exception is
    caught. *)
Definition restart_glue_job (job_name : string)
  : list Call * RestartResult :=
  if String.eqb job_name EmptyString
  then ([], restart_skipped "no_job_name")
  else
    let log :=
      [ start_job_run
          job_name
          [ ("--S3_RAW_BUCKET", S3_RAW_BUCKET);
            ("--S3_PROCESSED_BUCKET", S3_PROCESSED_BUCKET);
            ("--S3_INPUT_KEY", "claims/");
            ("--CLOUDWATCH_NAMESPACE", "DQAD/DataQuality") ]%string ] in
    match glue_start log with
    | Ok job_run_id =>
        (log, restart_success job_name job_run_id "glue_job_started")
    | ClientError e => (log, restart_error e)
    | OtherException e => (log, restart_error e)
    end.

End Remediation.

(** The objects copied by a sequence of calls: source bucket and key,
    target bucket and key. *)
Definition copied (log : list Call)
  : list (string * string * string * string) :=
  flat_map (fun c => match c with
                     | copy_object sb sk b k => [(sb, sk, b, k)]
                     | _ => []
                     end) log.

(** The objects tagged by a sequence of calls: bucket, key and tags. *)
Definition tagged (log : list Call)
  : list (string * string * list (string * string)) :=
  flat_map (fun c => match c with
                     | put_object_tagging b k t => [(b, k, t)]
                     | _ => []
                     end) log.

(** The keys of a listing that are files, not folders. *)
Definition files_of (contents : list string) : list string :=
  filter (fun k => negb (endswith k "/")) contents.

End Orchestrator.

(** A listing of a folder with two files. *)
Definition sample_listing : list string :=
  [ "claims/"; "claims/payer_claims_20240101_000000.csv";
    "claims/payer_claims_20240102_000000.csv" ]%string.

(** ** [src/lambda/cost_collector/app.py] *)

Module CostCollector.
Import CloudWatch.

(** The dictionary of [parse_cost_data]; the costs by service are the
    items of a dictionary, in order. *)
Record CostData : Type := mkCostData {
  total_cost    : Q;
  service_costs : list (string * Q);
  date          : string
}.

Section Collector.

Variables PROJECT_NAME ENVIRONMENT : string.

(** The [MetricData] that [push_cost_metrics_to_cloudwatch] sends. *)
Definition push_cost_metrics_to_cloudwatch (cost_data : CostData)
  : list MetricDatum :=
  let metric_data :=
    [ {| MetricName := "DailyCost";
         Value := total_cost cost_data;
         Unit := "None";
         Dimensions := [ ("Project", PROJECT_NAME);
                         ("Environment", ENVIRONMENT) ] |} ]%string in
  fold_left
    (fun metric_data item =>
       metric_data
       ++ [ {| MetricName := "ServiceCost";
               Value := snd item;
               Unit := "None";
               Dimensions := [ ("Project", PROJECT_NAME);
                               ("Service", fst item) ] |} ]%string)
    (service_costs cost_data) metric_data.

End Collector.

End CostCollector.

(** * The job in binary64

    [claim_amount] is a [DoubleType] column: Spark holds the amounts, the
    statistics of a group and [z_score] as IEEE 754 doubles, and Python
    computes the two percentages of the metrics as floats.  The modules
    below follow the same statements of the job as [Glue] does, with
    binary64 arithmetic (primitive floats), every operation rounded to the
    nearest double. *)

Module Spark64.
Import PrimFloat.

(** An integer as a float; exact below [2^53]. *)
Definition of_Z (z : Z) : float :=
  if (0 <=? z)%Z then of_uint63 (Uint63.of_Z z)
  else opp (of_uint63 (Uint63.of_Z (- z))).

(** Spark's [>] on doubles: NaN is larger than every other value. *)
Definition gt (x y : float) : bool :=
  if is_nan x then negb (is_nan y)
  else if is_nan y then false
  else ltb y x.

(** Spark's [/]: NULL when the divisor is zero. *)
Definition divide (x y : option float) : option float :=
  match x, y with
  | Some a, Some b => if is_zero b then None else Some (div a b)
  | _, _ => None
  end.

(** The double nearest to a rational whose numerator and denominator are
    below [2^53], as a decimal of the file is read. *)
Definition of_Q (q : Q) : float :=
  div (of_Z (Qnum q)) (of_Z (Zpos (Qden q))).

(** [avg] over the values of one partition, in the order of the rows: the
    sum of the values divided by their number. *)
Definition avg_in_order (values : list float) : option float :=
  match values with
  | [] => None
  | _ :: _ =>
      Some (div (fold_left add values 0%float)
                (of_Z (Z.of_nat (List.length values))))
  end.

(** One step of the running update of the count, the mean and the sum of
    squared deviations. *)
Definition update (state : float * float * float) (x : float)
  : float * float * float :=
  let '(n, mean, m2) := state in
  let n := add n 1%float in
  let delta := sub x mean in
  let delta_n := div delta n in
  let mean := add mean delta_n in
  let m2 := add m2 (mul delta (sub delta delta_n)) in
  (n, mean, m2).

(** [stddev] (the sample standard deviation) over the values of one
    partition, in the order of the rows; NULL on fewer than two values. *)
Definition stddev_in_order (values : list float) : option float :=
  let '(n, _, m2) := fold_left update values (0, 0, 0)%float in
  if (List.length values <? 2)%nat then None
  else Some (sqrt (div m2 (sub n 1%float))).

(** The rational that a finite float stands for. *)
Definition exact_value (x : float) : option Q :=
  match FloatOps.Prim2SF x with
  | SpecFloat.S754_zero _ => Some 0%Q
  | SpecFloat.S754_finite s m e =>
      let v :=
        match e with
        | Z0 => inject_Z (Zpos m)
        | Zpos p => inject_Z (Zpos m * 2 ^ Zpos p)
        | Zneg p => (Zpos m # 2 ^ p)%Q
        end in
      Some (if s then (- v)%Q else v)
  | _ => None
  end.

End Spark64.

Module Glue64.
Import Sql.

(** A row of [stats_df]. *)
Record StatsRow : Type := mkStatsRow {
  stats_cpt_code : option string;
  avg_amount     : option PrimFloat.float;
  stddev_amount  : option PrimFloat.float;
  count          : nat
}.

(** A row of [df_with_stats]. *)
Record ScoredRow : Type := mkScoredRow {
  scored_claim           : Claim;
  joined_avg_amount      : option PrimFloat.float;
  joined_stddev_amount   : option PrimFloat.float;
  joined_count           : option nat;
  z_score                : option PrimFloat.float;
  is_statistical_outlier : tbool
}.

(** The dictionary of [calculate_dq_metrics]: the counts are integers, the
    two percentages are floats. *)
Record Metrics : Type := mkMetrics {
  total_records      : Z;
  gold_records       : Z;
  silver_records     : Z;
  quarantine_records : Z;
  total_anomalies    : Z;
  data_quality_score : PrimFloat.float;
  anomaly_rate       : PrimFloat.float
}.

(** [x / raw_count * 100]: the quotient of the two integers rounded to a
    float, then the product with 100 rounded (counts below [2^53]). *)
Definition percent (x raw_count : Z) : PrimFloat.float :=
  PrimFloat.mul (PrimFloat.div (Spark64.of_Z x) (Spark64.of_Z raw_count))
                (Spark64.of_Z 100).

Definition calculate_dq_metrics
           (raw_count clean_count dq_failure_count outlier_count : Z)
  : Metrics :=
  let total_anomalies := (dq_failure_count + outlier_count)%Z in
  let gold_count := (clean_count - outlier_count)%Z in
  {| total_records := raw_count;
     gold_records := gold_count;
     silver_records := dq_failure_count;
     quarantine_records := outlier_count;
     total_anomalies := total_anomalies;
     data_quality_score :=
       if (raw_count >? 0)%Z then percent gold_count raw_count
       else Spark64.of_Z 0;
     anomaly_rate :=
       if (raw_count >? 0)%Z then percent total_anomalies raw_count
       else Spark64.of_Z 0 |}.

Record Outputs : Type := mkOutputs {
  clean_claims         : list Claim;
  dq_failures          : list Glue.DqRow;
  claims_with_outliers : list ScoredRow;
  gold_claims          : list Claim;
  silver_claims        : list Glue.DqRow;
  quarantine_claims    : list ScoredRow;
  dq_metrics           : Metrics
}.

Section Job.

(** The double that Spark reads for an amount (the rational of the model
    is the amount as written), and the two aggregates of Spark, whose
    result depends on how the rows of a group are spread over partitions:
    they are taken as they come. *)
Variable double_of : Q -> PrimFloat.float.
Variable avg : list PrimFloat.float -> option PrimFloat.float.
Variable stddev : list PrimFloat.float -> option PrimFloat.float.

(** The value of [claim_amount] seen by the aggregates; rows that passed
    the validator are finite, the other cells are read as NULL. *)
Definition amount_value (c : Claim) : option PrimFloat.float :=
  match claim_amount c with
  | Some (DFin q) => Some (double_of q)
  | _ => None
  end.

Definition amounts (rows : list Claim) : list PrimFloat.float :=
  flat_map (fun c => match amount_value c with
                     | Some a => [a]
                     | None => []
                     end) rows.

Definition stats_row (df : list Claim) (k : option string) : StatsRow :=
  let rows := Glue.group_rows df k in
  {| stats_cpt_code := k;
     avg_amount := avg (amounts rows);
     stddev_amount := stddev (amounts rows);
     count := List.length rows |}.

Definition stats_df (df : list Claim) : list StatsRow :=
  map (stats_row df) (nodup option_string_dec (map cpt_code df)).

Definition key_matches (c : Claim) (s : StatsRow) : bool :=
  holds (lift2 String.eqb (cpt_code c) (stats_cpt_code s)).

Definition left_join (df : list Claim) (stats : list StatsRow)
  : list (Claim * option StatsRow) :=
  flat_map (fun c =>
              match filter (key_matches c) stats with
              | [] => [(c, None)]
              | matches => map (fun s => (c, Some s)) matches
              end) df.

(** [when(stddev_amount > 0, (claim_amount - avg_amount) / stddev_amount)
    .otherwise(lit(0))], then [abs(z_score) > 3]. *)
Definition score (cs : Claim * option StatsRow) : ScoredRow :=
  let (c, s) := cs in
  let avg := match s with Some s => avg_amount s | None => None end in
  let sd := match s with Some s => stddev_amount s | None => None end in
  let z :=
    case_when
      [ (lift2 Spark64.gt sd (Some (Spark64.of_Z 0)),
         Spark64.divide (lift2 PrimFloat.sub (amount_value c) avg) sd) ]
      (Some (Spark64.of_Z 0)) in
  {| scored_claim := c;
     joined_avg_amount := avg;
     joined_stddev_amount := sd;
     joined_count := option_map count s;
     z_score := z;
     is_statistical_outlier :=
       lift2 Spark64.gt (option_map PrimFloat.abs z)
             (Some (Spark64.of_Z 3)) |}.

Definition detect_statistical_anomalies (df : list Claim) : list ScoredRow :=
  map score (left_join df (stats_df df)).

(** The statements at module level, in order. *)
Definition run (current_date : date) (raw_claims_df : list Claim) : Outputs :=
  let raw_count := Z.of_nat (List.length raw_claims_df) in
  let (clean_claims, dq_failures) :=
    Glue.validate_data_quality current_date raw_claims_df in
  let clean_count := Z.of_nat (List.length clean_claims) in
  let dq_failure_count := Z.of_nat (List.length dq_failures) in
  let claims_with_outliers := detect_statistical_anomalies clean_claims in
  let statistical_outliers :=
    filter (fun r => holds (is_statistical_outlier r)) claims_with_outliers in
  let outlier_count := Z.of_nat (List.length statistical_outliers) in
  let gold_claims :=
    map scored_claim
        (filter (fun r => holds (not3 (is_statistical_outlier r)))
                claims_with_outliers) in
  {| clean_claims := clean_claims;
     dq_failures := dq_failures;
     claims_with_outliers := claims_with_outliers;
     gold_claims := gold_claims;
     silver_claims := dq_failures;
     quarantine_claims := statistical_outliers;
     dq_metrics :=
       calculate_dq_metrics raw_count clean_count dq_failure_count
                            outlier_count |}.

(** The row of [df_with_stats] for a claim of the frame. *)
Definition scored_row (df : list Claim) (c : Claim) : ScoredRow :=
  score (c, option_map (fun k => stats_row df (Some k)) (cpt_code c)).

(** The amounts of the peer group of [c] in frame [df]. *)
Definition peer_amounts (df : list Claim) (c : Claim)
  : list PrimFloat.float :=
  amounts (Glue.group_rows df (cpt_code c)).

End Job.

End Glue64.

(** ** Sample batches for the binary64 job *)

Module Sample64.
Open Scope string_scope.

(** Eleven claims of one procedure code: two bill 0, eight bill 1 and one
    bills 14. *)
Definition threshold_claim : Claim :=
  Sample.with_amount 14 "T11" Sample.valid_claim.

Definition threshold_batch : list Claim :=
  map (fun p => Sample.with_amount (fst p) (snd p) Sample.valid_claim)
      [(0%Q, "T01"); (0%Q, "T02"); (1%Q, "T03"); (1%Q, "T04");
       (1%Q, "T05"); (1%Q, "T06"); (1%Q, "T07"); (1%Q, "T08");
       (1%Q, "T09"); (1%Q, "T10")]
  ++ [threshold_claim].

(** Three records, two of them valid; six records, five of them valid. *)
Definition thirds : list Claim :=
  [Sample.valid_claim; Sample.with_amount 250 "CLM-0010" Sample.valid_claim;
   Sample.odd_status].

Definition sixths : list Claim :=
  [Sample.valid_claim;
   Sample.with_amount 250 "CLM-0010" Sample.valid_claim;
   Sample.with_amount 250 "CLM-0012" Sample.valid_claim;
   Sample.with_amount 250 "CLM-0013" Sample.valid_claim;
   Sample.with_amount 250 "CLM-0014" Sample.valid_claim;
   Sample.odd_status].

(** The job on a batch whose rows of a group lie in one partition, in the
    order of the batch. *)
Definition run (d : date) (batch : list Claim) : Glue64.Outputs :=
  Glue64.run Spark64.of_Q Spark64.avg_in_order Spark64.stddev_in_order
             d batch.

End Sample64.

(** ** The two percentages on every small batch

    A decision procedure for the percentages of the snapshot: for a batch
    of [t] records of which [g] are GOLD it tells whether the two stored
    floats lie in [0, 100] and whether their float sum is within [2^-45] of
    100; [percentages_upto n] runs it on every [t] from 1 to [n] and every
    [g] from 0 to [t]. *)

Module Percentages.
Import PrimFloat.

Definition in_range (x : float) : bool := leb 0 x && leb x 100.

Definition tolerance : float := div 1 (Spark64.of_Z (2 ^ 45)).

Definition near_hundred (x y : float) : bool :=
  leb (abs (sub (add x y) 100)) tolerance.

Definition ok (g t : Z) : bool :=
  let score := Glue64.percent g t in
  let rate := Glue64.percent (t - g) t in
  in_range score && in_range rate && near_hundred score rate.

(** [f 0 && f 1 && ... && f n]. *)
Fixpoint upto (n : nat) (f : Z -> bool) : bool :=
  match n with
  | O => f 0%Z
  | S k => f (Z.of_nat n) && upto k f
  end.

Definition percentages_upto (n : nat) : bool :=
  upto n (fun t => (t =? 0)%Z
                   || upto (Z.to_nat t) (fun g => ok g t)).

End Percentages.
(** * Facts *)

Ltac split_ifs :=
  repeat match goal with
         | |- context [if ?b then _ else _] => destruct b
         end.

(** One case for each outcome of the conditions of a chained [when]. *)
Ltac by_branches := simpl; split_ifs; eauto using app_nil_r.

(** ** The rendered issue string *)

Lemma render_issues_length (l : list IssueCode) :
  (0 <? String.length (render_issues l)) = negb (rule_clean l).
Proof.
  destruct l as [|i l]; [reflexivity|].
  destruct i; reflexivity.
Qed.

(** ** The Spark validator, row by row *)

Section GlueBlocks.
Import Sql.
Variable current_date : date.
Variable c : Claim.

Lemma null_checks_app dq :
  Glue.null_checks c dq = dq ++ Glue.null_checks c [].
Proof. unfold Glue.null_checks. by_branches. Qed.

Lemma npi_check_app dq : Glue.npi_check c dq = dq ++ Glue.npi_check c [].
Proof. unfold Glue.npi_check. by_branches. Qed.

Lemma amount_checks_app dq :
  Glue.amount_checks c dq = dq ++ Glue.amount_checks c [].
Proof. unfold Glue.amount_checks. by_branches. Qed.

Lemma date_checks_app dq :
  Glue.date_checks current_date c dq
  = dq ++ Glue.date_checks current_date c [].
Proof. unfold Glue.date_checks. by_branches. Qed.

Lemma status_check_app dq :
  Glue.status_check c dq = dq ++ Glue.status_check c [].
Proof. unfold Glue.status_check. by_branches. Qed.

Lemma gender_check_app dq :
  Glue.gender_check c dq = dq ++ Glue.gender_check c [].
Proof. unfold Glue.gender_check. by_branches. Qed.

Lemma zip_check_app dq : Glue.zip_check c dq = dq ++ Glue.zip_check c [].
Proof. unfold Glue.zip_check. by_branches. Qed.

(** The issue list is the concatenation of what each block adds to the
    empty string. *)
Lemma issues_of_blocks :
  Glue.issues_of current_date c
  = Glue.null_checks c [] ++ Glue.npi_check c [] ++ Glue.amount_checks c []
    ++ Glue.date_checks current_date c [] ++ Glue.status_check c []
    ++ Glue.gender_check c [] ++ Glue.zip_check c [].
Proof.
  unfold Glue.issues_of.
  rewrite zip_check_app, gender_check_app, status_check_app,
    date_checks_app, amount_checks_app, npi_check_app.
  repeat rewrite <- app_assoc. reflexivity.
Qed.

(** Each block adds nothing or exactly one code of its own. *)
Lemma null_checks_one : at_most_one_of 1 (Glue.null_checks c []).
Proof. unfold Glue.null_checks, at_most_one_of. by_branches. Qed.

Lemma npi_check_one : at_most_one_of 2 (Glue.npi_check c []).
Proof. unfold Glue.npi_check, at_most_one_of. by_branches. Qed.

Lemma amount_checks_one : at_most_one_of 3 (Glue.amount_checks c []).
Proof. unfold Glue.amount_checks, at_most_one_of. by_branches. Qed.

Lemma date_checks_one :
  at_most_one_of 4 (Glue.date_checks current_date c []).
Proof. unfold Glue.date_checks, at_most_one_of. by_branches. Qed.

Lemma status_check_one : at_most_one_of 5 (Glue.status_check c []).
Proof. unfold Glue.status_check, at_most_one_of. by_branches. Qed.

Lemma gender_check_one : at_most_one_of 6 (Glue.gender_check c []).
Proof. unfold Glue.gender_check, at_most_one_of. by_branches. Qed.

Lemma zip_check_one : at_most_one_of 7 (Glue.zip_check c []).
Proof. unfold Glue.zip_check, at_most_one_of. by_branches. Qed.

End GlueBlocks.


Lemma at_most_one_of_In k l i : at_most_one_of k l -> In i l -> block i = k.
Proof.
  intros [-> | [j [-> Hj]]] H; simpl in H; [tauto|].
  destruct H as [<- | []]; exact Hj.
Qed.

(** A recorded code was added by the block it belongs to. *)
Lemma in_issues_of_block d c i :
  In i (Glue.issues_of d c) ->
  match block i with
  | 1 => In i (Glue.null_checks c [])
  | 2 => In i (Glue.npi_check c [])
  | 3 => In i (Glue.amount_checks c [])
  | 4 => In i (Glue.date_checks d c [])
  | 5 => In i (Glue.status_check c [])
  | 6 => In i (Glue.gender_check c [])
  | _ => In i (Glue.zip_check c [])
  end.
Proof.
  rewrite issues_of_blocks. repeat rewrite in_app_iff.
  intros H.
  repeat match type of H with
         | _ \/ _ => destruct H as [H | H]
         end;
    [ pose proof (at_most_one_of_In _ _ i (null_checks_one c) H) as E
    | pose proof (at_most_one_of_In _ _ i (npi_check_one c) H) as E
    | pose proof (at_most_one_of_In _ _ i (amount_checks_one c) H) as E
    | pose proof (at_most_one_of_In _ _ i (date_checks_one d c) H) as E
    | pose proof (at_most_one_of_In _ _ i (status_check_one c) H) as E
    | pose proof (at_most_one_of_In _ _ i (gender_check_one c) H) as E
    | pose proof (at_most_one_of_In _ _ i (zip_check_one c) H) as E ];
    rewrite E; exact H.
Qed.

Lemma block_in_issues_of d c i :
  match block i with
  | 1 => In i (Glue.null_checks c [])
  | 2 => In i (Glue.npi_check c [])
  | 3 => In i (Glue.amount_checks c [])
  | 4 => In i (Glue.date_checks d c [])
  | 5 => In i (Glue.status_check c [])
  | 6 => In i (Glue.gender_check c [])
  | _ => In i (Glue.zip_check c [])
  end ->
  In i (Glue.issues_of d c).
Proof.
  rewrite issues_of_blocks. repeat rewrite in_app_iff.
  destruct i; simpl; tauto.
Qed.

(** *** What a rule-clean row looks like *)


Lemma clean_row_fields d c :
  Glue.issues_of d c = [] ->
  (exists m, member_id c = Some m)
  /\ (exists n, provider_npi c = Some n)
  /\ (exists k, cpt_code c = Some k)
  /\ (exists q, claim_amount c = Some (DFin q)
                /\ (0 <= q)%Q /\ (q <= 100000)%Q).
Proof.
  rewrite issues_of_blocks. intros H.
  apply app_eq_nil in H. destruct H as [H1 H].
  apply app_eq_nil in H. destruct H as [_ H].
  apply app_eq_nil in H. destruct H as [H3 _].
  unfold Glue.null_checks in H1. unfold Glue.amount_checks in H3.
  destruct (member_id c); [|discriminate H1].
  destruct (provider_npi c); [|discriminate H1].
  destruct (cpt_code c); [|discriminate H1].
  destruct (claim_amount c) as [a|];
    [|simpl in H1; destruct (Sql.holds _); discriminate H1].
  repeat split; eauto.
  destruct a as [q| | |]; simpl in H3; try discriminate H3.
  exists q. split; [reflexivity|].
  unfold DQ_THRESHOLDS.min_claim_amount, DQ_THRESHOLDS.max_claim_amount in H3.
  destruct (Qle_bool 0 q) eqn:E0; simpl in H3; [|discriminate H3].
  destruct (Qle_bool q 100000) eqn:E1; simpl in H3; [|discriminate H3].
  split; apply Qle_bool_iff; assumption.
Qed.

(** The amounts that reach the aggregates are finite, hence never NULL. *)
Lemma clean_amount_finite d c :
  Glue.issues_of d c = [] ->
  exists q, claim_amount c = Some (DFin q)
            /\ Glue.amount_value c = Some (Q2R q).
Proof.
  intros H. destruct (clean_row_fields _ _ H) as (_ & _ & _ & q & E & _).
  exists q. split; [exact E|]. unfold Glue.amount_value. rewrite E.
  reflexivity.
Qed.

(** *** C10 *)



(** ** The Pandas validator, row by row *)

Lemma flag_app m j dq :
  Pandas.flag m j dq = dq ++ (if m then [j] else []).
Proof. destruct m; simpl; auto using app_nil_r. Qed.

Lemma filter_head {A} (f : A -> bool) a l :
  filter f (a :: l) = (if f a then [a] else []) ++ filter f l.
Proof. simpl. destruct (f a); reflexivity. Qed.

(** Every update of the Pandas validator is evaluated on its own: the issue
    list is the catalogue, in order, restricted to the masks that hold. *)
Lemma pandas_issues_additive d c :
  Pandas.issues_of d c = filter (Pandas.rule_mask d c) Pandas.catalogue.
Proof.
  unfold Pandas.issues_of, Pandas.catalogue.
  repeat rewrite flag_app. repeat rewrite filter_head.
  cbn [Pandas.rule_mask filter]. simpl app at 1.
  repeat rewrite <- app_assoc. rewrite app_nil_r. reflexivity.
Qed.

Lemma pandas_issue_iff d c i :
  In i (Pandas.issues_of d c) <-> Pandas.rule_mask d c i = true.
Proof.
  rewrite pandas_issues_additive, filter_In. split; [tauto|].
  intros H. split; [|exact H].
  destruct i; simpl; auto 14. discriminate H.
Qed.

(** ** Single codes in the Spark validator *)

Lemma glue_invalid_status_iff d c :
  In INVALID_STATUS (Glue.issues_of d c)
  <-> exists s, claim_status c = Some s
                /\ existsb (String.eqb s) valid_statuses = false.
Proof.
  split.
  - intros H. apply in_issues_of_block in H. simpl in H.
    unfold Glue.status_check in H.
    destruct (claim_status c) as [s|]; [|simpl in H; tauto].
    exists s. split; [reflexivity|].
    unfold Sql.isin in H. cbn [option_map] in H.
    destruct (existsb (String.eqb s) valid_statuses);
      [simpl in H; tauto | reflexivity].
  - intros (s & E & H). apply block_in_issues_of. simpl.
    unfold Glue.status_check, Sql.isin. rewrite E. cbn [option_map].
    rewrite H. simpl. auto.
Qed.

Lemma status_in_set_iff c :
  status_in_set c
  <-> exists s, claim_status c = Some s
                /\ existsb (String.eqb s) valid_statuses = true.
Proof.
  unfold status_in_set. split; intros (s & E & H); exists s; split; auto.
  - apply existsb_exists. exists s. split; [exact H | apply String.eqb_refl].
  - apply existsb_exists in H. destruct H as (x & Hx & Hs).
    apply String.eqb_eq in Hs. congruence.
Qed.

Lemma pandas_invalid_status_iff d c :
  In INVALID_STATUS (Pandas.issues_of d c) <-> ~ status_in_set c.
Proof.
  rewrite pandas_issue_iff, status_in_set_iff. cbn [Pandas.rule_mask].
  unfold Pandas.isin. destruct (claim_status c) as [s|].
  - destruct (existsb (String.eqb s) valid_statuses) eqn:E; cbn [negb];
      split; intros H; try discriminate.
    + exfalso. apply H. eauto.
    + intros (s' & E' & H'). congruence.
    + reflexivity.
  - split; [|reflexivity]. intros _ (s & E & _). discriminate.
Qed.

(** *** C1 *)

(** C1. The additive policy fails in the Spark job: on a record whose
    [member_id] and [provider_npi] are both absent it records
    MISSING_MEMBER_ID alone, and on a record served in the future and
    submitted before the service it records FUTURE_SERVICE_DATE alone; the
    Pandas reference records every matching code on both. *)
Theorem glue_drops_later_codes_of_a_block :
  Glue.issues_of Sample.today Sample.no_member_no_npi = [MISSING_MEMBER_ID]
  /\ Pandas.issues_of Sample.today Sample.no_member_no_npi
     = [MISSING_MEMBER_ID; MISSING_NPI; INVALID_NPI]
  /\ Glue.issues_of Sample.today Sample.future_and_before
     = [FUTURE_SERVICE_DATE]
  /\ Pandas.issues_of Sample.today Sample.future_and_before
     = [FUTURE_SERVICE_DATE; SUBMISSION_BEFORE_SERVICE].
Proof. repeat split; vm_compute; reflexivity. Qed.

(** *** C9 *)

(** C9. A record whose [claim_status] is absent is outside the closed set,
    yet the Spark job records no INVALID_STATUS for it (its issue string
    stays empty); the Pandas reference records the code. *)
Theorem glue_absent_status_not_flagged :
  claim_status Sample.no_status = None
  /\ ~ status_in_set Sample.no_status
  /\ Glue.issues_of Sample.today Sample.no_status = []
  /\ Pandas.issues_of Sample.today Sample.no_status = [INVALID_STATUS].
Proof.
  repeat split; try (vm_compute; reflexivity).
  intros (s & E & _). discriminate E.
Qed.

(** On a present status both validators agree with the rule table. *)
Lemma glue_present_status_flagged_iff d c s :
  claim_status c = Some s ->
  (In INVALID_STATUS (Glue.issues_of d c) <-> ~ status_in_set c).
Proof.
  intros E. rewrite glue_invalid_status_iff, status_in_set_iff. split.
  - intros (s1 & E1 & H1) (s2 & E2 & H2). congruence.
  - intros H. exists s. split; [exact E|].
    destruct (existsb _ _) eqn:X; [|reflexivity].
    exfalso. apply H. eauto.
Qed.

(** *** C3 *)






(** ** Lists *)

Lemma filter_split_perm {A} (f : A -> bool) (l : list A) :
  Permutation (filter f l ++ filter (fun x => negb (f x)) l) l.
Proof.
  induction l as [|a l IH]; simpl; [constructor|].
  destruct (f a); simpl.
  - constructor. exact IH.
  - symmetry. apply Permutation_cons_app. symmetry. exact IH.
Qed.

Lemma flat_map_singletons {A B} (f : A -> list B) (g : A -> B) (l : list A) :
  (forall x, In x l -> f x = [g x]) -> flat_map f l = map g l.
Proof.
  induction l as [|a l IH]; intros H; simpl; [reflexivity|].
  rewrite (H a (or_introl eq_refl)), IH; [reflexivity|].
  intros x Hx. apply H. right; exact Hx.
Qed.

Lemma filter_none {A} (f : A -> bool) (l : list A) :
  (forall x, In x l -> f x = false) -> filter f l = [].
Proof.
  induction l as [|a l IH]; intros H; simpl; [reflexivity|].
  rewrite (H a (or_introl eq_refl)). apply IH.
  intros x Hx. apply H. right; exact Hx.
Qed.

(** In a duplicate-free list, a test that singles out [x] keeps [x] alone. *)
Lemma filter_unique {A} (f : A -> bool) (x : A) (l : list A) :
  NoDup l -> In x l -> (forall y, In y l -> (f y = true <-> y = x)) ->
  filter f l = [x].
Proof.
  induction 1 as [|a l Hna Hnd IH]; intros Hin Hf; [destruct Hin|].
  simpl. destruct Hin as [-> | Hin].
  - rewrite (proj2 (Hf x (or_introl eq_refl)) eq_refl).
    f_equal. apply filter_none. intros y Hy.
    destruct (f y) eqn:E; [|reflexivity].
    apply (Hf y (or_intror Hy)) in E. subst y. contradiction.
  - destruct (f a) eqn:E.
    + apply (Hf a (or_introl eq_refl)) in E. subst a. contradiction.
    + apply IH; [exact Hin|]. intros y Hy. apply Hf. right; exact Hy.
Qed.

(** ** The Spark validator on a frame *)

Lemma glue_has_dq_issues d c :
  Glue.has_dq_issues (Glue.dq_row d c)
  = Some (negb (rule_clean (Glue.issues_of d c))).
Proof. unfold Glue.dq_row; simpl. rewrite render_issues_length. reflexivity. Qed.

Lemma glue_clean_df d df :
  fst (Glue.validate_data_quality d df)
  = filter (fun c => rule_clean (Glue.issues_of d c)) df.
Proof.
  unfold Glue.validate_data_quality; simpl.
  induction df as [|c df IH]; simpl; [reflexivity|].
  rewrite render_issues_length.
  destruct (rule_clean (Glue.issues_of d c)); simpl; congruence.
Qed.

Lemma glue_dq_failures_df d df :
  snd (Glue.validate_data_quality d df)
  = map (Glue.dq_row d)
        (filter (fun c => negb (rule_clean (Glue.issues_of d c))) df).
Proof.
  unfold Glue.validate_data_quality; simpl.
  induction df as [|c df IH]; simpl; [reflexivity|].
  rewrite render_issues_length.
  destruct (rule_clean (Glue.issues_of d c)); simpl; congruence.
Qed.

Lemma rule_clean_nil l : rule_clean l = true <-> l = [].
Proof. destruct l; simpl; split; congruence. Qed.

(** ** The join of the detector *)

Lemma key_matches_stats_row df c k :
  Glue.key_matches c (Glue.stats_row df k) = true <-> 
  (exists s, k = Some s) /\ k = cpt_code c.
Proof.
  unfold Glue.key_matches; simpl.
  destruct (cpt_code c) as [a|], k as [b|]; simpl;
    try (split; [discriminate | intros [[s Hs] H]; congruence]).
  destruct (String.eqb a b) eqn:E.
  - apply String.eqb_eq in E. subst. split; eauto.
  - apply String.eqb_neq in E. split; [discriminate|].
    intros [_ H]. congruence.
Qed.

(** The join keeps the frame row for row: each claim meets the statistics
    of its own group and nothing else. *)
Lemma left_join_stats df :
  Glue.left_join df (Glue.stats_df df)
  = map (fun c =>
           (c, option_map (fun k => Glue.stats_row df (Some k)) (cpt_code c)))
        df.
Proof.
  unfold Glue.left_join. apply flat_map_singletons. intros c Hc.
  unfold Glue.stats_df.
  destruct (cpt_code c) as [k|] eqn:Ek; simpl.
  - assert (F : filter (Glue.key_matches c)
                  (map (Glue.stats_row df)
                       (nodup option_string_dec (map cpt_code df)))
                = [Glue.stats_row df (Some k)]).
    { change [Glue.stats_row df (Some k)]
        with (map (Glue.stats_row df) [Some k]).
      rewrite <- (filter_unique
                    (fun k' => Glue.key_matches c (Glue.stats_row df k'))
                    (Some k)
                    (nodup option_string_dec (map cpt_code df))).
      - generalize (nodup option_string_dec (map cpt_code df)).
        induction l as [|a l IH]; simpl; [reflexivity|].
        destruct (Glue.key_matches c (Glue.stats_row df a)); simpl;
          congruence.
      - apply NoDup_nodup.
      - apply nodup_In. rewrite <- Ek. apply in_map. exact Hc.
      - intros y _. rewrite key_matches_stats_row, Ek. split.
        + intros [_ H]; exact H.
        + intros ->. split; eauto. }
    rewrite F. reflexivity.
  - rewrite filter_none; [reflexivity|].
    intros s Hs. apply in_map_iff in Hs. destruct Hs as (k & <- & _).
    destruct (Glue.key_matches c (Glue.stats_row df k)) eqn:E;
      [|reflexivity].
    apply key_matches_stats_row in E. destruct E as [[s ->] E].
    congruence.
Qed.

Lemma detect_rows df :
  Glue.detect_statistical_anomalies df = map (scored_row df) df.
Proof.
  unfold Glue.detect_statistical_anomalies. rewrite left_join_stats.
  rewrite map_map. reflexivity.
Qed.

Lemma scored_row_claim df c : Glue.scored_claim (scored_row df c) = c.
Proof. reflexivity. Qed.

(** ** Comparisons and aggregates over the reals *)

Lemma Rltb_true x y : Rltb x y = true <-> (x < y)%R.
Proof. unfold Rltb. destruct (Rlt_dec x y); split; auto; discriminate. Qed.

Lemma Rltb_false x y : Rltb x y = false <-> ~ (x < y)%R.
Proof.
  unfold Rltb. destruct (Rlt_dec x y); split; auto; try discriminate.
  intros H; contradiction.
Qed.

Lemma Rsum_constant x l :
  (forall y, In y l -> y = x) -> Rsum l = (INR (List.length l) * x)%R.
Proof.
  induction l as [|y l IH]; intros H.
  - simpl. lra.
  - change (Rsum (y :: l)) with (y + Rsum l)%R.
    rewrite IH by (intros z Hz; apply H; right; exact Hz).
    rewrite (H y (or_introl eq_refl)).
    cbn [List.length]. rewrite S_INR. lra.
Qed.

Lemma mean_constant x l :
  l <> [] -> (forall y, In y l -> y = x) -> mean l = Some x.
Proof.
  intros Hne H. destruct l as [|y l]; [congruence|].
  unfold mean. rewrite (Rsum_constant x _ H). f_equal.
  assert (INR (List.length (y :: l)) <> 0)%R
    by (apply not_0_INR; discriminate).
  field. assumption.
Qed.

Lemma sum_sq_dev_constant x l :
  (forall y, In y l -> y = x) -> sum_sq_dev x l = 0%R.
Proof.
  unfold sum_sq_dev. induction l as [|y l IH]; intros H; simpl; [reflexivity|].
  rewrite IH by (intros z Hz; apply H; right; exact Hz).
  rewrite (H y (or_introl eq_refl)). lra.
Qed.

(** A group of identical amounts has no standard deviation (one member) or
    the standard deviation zero. *)
Lemma stddev_samp_constant x l :
  (forall y, In y l -> y = x) ->
  stddev_samp l = None \/ stddev_samp l = Some 0%R.
Proof.
  intros H. unfold stddev_samp.
  destruct l as [|y l]; [left; reflexivity|].
  rewrite (mean_constant x) by (congruence || assumption).
  destruct (List.length (y :: l) <? 2); [left; reflexivity|].
  right. rewrite (sum_sq_dev_constant x _ H).
  unfold Rdiv. rewrite Rmult_0_l, sqrt_0. reflexivity.
Qed.

(** ** The score of one row *)

Lemma scored_row_stats df c k :
  cpt_code c = Some k ->
  Glue.joined_avg_amount (scored_row df c) = mean (peer_amounts df c)
  /\ Glue.joined_stddev_amount (scored_row df c)
     = stddev_samp (peer_amounts df c).
Proof.
  intros E. unfold scored_row, peer_amounts. rewrite E. split; reflexivity.
Qed.

Lemma outlier_flag_of_z_score df c :
  Glue.is_statistical_outlier (scored_row df c)
  = option_map (fun z => Rltb 3 (Rabs z)) (Glue.z_score (scored_row df c)).
Proof.
  unfold scored_row, Glue.score; cbn [Glue.is_statistical_outlier Glue.z_score].
  match goal with |- context [option_map Rabs ?z] => destruct z end;
    reflexivity.
Qed.

Lemma z_score_cases df c k a m :
  cpt_code c = Some k ->
  Glue.amount_value c = Some a ->
  mean (peer_amounts df c) = Some m ->
  Glue.z_score (scored_row df c)
  = match stddev_samp (peer_amounts df c) with
    | Some s => if Rltb 0 s then Some ((a - m) / s)%R else Some 0%R
    | None => Some 0%R
    end.
Proof.
  intros Ek Ea Em. unfold peer_amounts in *.
  unfold scored_row, Glue.score. rewrite Ek, Ea.
  cbn [option_map Glue.z_score Glue.stats_row Glue.avg_amount
       Glue.stddev_amount Glue.stats_cpt_code].
  rewrite Ek in Em. rewrite Em.
  destruct (stddev_samp _) as [s|]; [|reflexivity].
  simpl. destruct (Rltb 0 s) eqn:E; simpl; [|reflexivity].
  apply Rltb_true in E.
  destruct (Req_dec_T s 0); [lra | reflexivity].
Qed.

Lemma in_peer_amounts df c a :
  In c df -> Glue.amount_value c = Some a -> In a (peer_amounts df c).
Proof.
  intros Hc Ea. unfold peer_amounts, Glue.amounts.
  apply in_flat_map. exists c. split.
  - unfold Glue.group_rows. apply filter_In. split; [exact Hc|].
    destruct (option_string_dec (cpt_code c) (cpt_code c)); congruence.
  - rewrite Ea. left; reflexivity.
Qed.

Lemma mean_of_nonempty l a : In a l -> exists m, mean l = Some m.
Proof. destruct l; [intros []|]. intros _. simpl. eauto. Qed.

(** On a frame of rule-clean rows neither [z_score] nor the outlier flag is
    NULL. *)
Lemma clean_row_scored d df c :
  (forall x, In x df -> Glue.issues_of d x = []) -> In c df ->
  exists z, Glue.z_score (scored_row df c) = Some z
            /\ Glue.is_statistical_outlier (scored_row df c)
               = Some (Rltb 3 (Rabs z)).
Proof.
  intros Hclean Hc.
  destruct (clean_row_fields _ _ (Hclean c Hc)) as (_ & _ & [k Ek] & _).
  destruct (clean_amount_finite _ _ (Hclean c Hc)) as (q & _ & Ea).
  destruct (mean_of_nonempty _ _ (in_peer_amounts _ _ _ Hc Ea)) as [m Em].
  rewrite outlier_flag_of_z_score, (z_score_cases _ _ _ _ _ Ek Ea Em).
  destruct (stddev_samp _) as [s|]; [destruct (Rltb 0 s)|]; eauto.
Qed.

(** ** The job *)

Section Run.
Import Sql.
Variable d : date.
Variable batch : list Claim.

Let o := Glue.run d batch.
Let clean := filter (fun c => rule_clean (Glue.issues_of d c)) batch.
Let flagged (r : Glue.ScoredRow) := holds (Glue.is_statistical_outlier r).

Lemma run_clean_claims : Glue.clean_claims o = clean.
Proof.
  subst o clean. unfold Glue.run. rewrite <- glue_clean_df.
  destruct (Glue.validate_data_quality d batch); reflexivity.
Qed.

Lemma run_dq_failures :
  Glue.dq_failures o
  = map (Glue.dq_row d)
        (filter (fun c => negb (rule_clean (Glue.issues_of d c))) batch).
Proof.
  subst o. unfold Glue.run. rewrite <- glue_dq_failures_df.
  destruct (Glue.validate_data_quality d batch); reflexivity.
Qed.

Lemma run_silver_claims : Glue.silver_claims o = Glue.dq_failures o.
Proof.
  subst o. unfold Glue.run.
  destruct (Glue.validate_data_quality d batch); reflexivity.
Qed.

Lemma run_claims_with_outliers :
  Glue.claims_with_outliers o = map (scored_row clean) clean.
Proof.
  rewrite <- run_clean_claims, <- detect_rows. subst o. unfold Glue.run.
  destruct (Glue.validate_data_quality d batch); reflexivity.
Qed.

Lemma run_quarantine_claims :
  Glue.quarantine_claims o = filter flagged (Glue.claims_with_outliers o).
Proof.
  subst o. unfold Glue.run.
  destruct (Glue.validate_data_quality d batch); reflexivity.
Qed.

Lemma run_gold_claims :
  Glue.gold_claims o
  = map Glue.scored_claim
        (filter (fun r => holds (not3 (Glue.is_statistical_outlier r)))
                (Glue.claims_with_outliers o)).
Proof.
  subst o. unfold Glue.run.
  destruct (Glue.validate_data_quality d batch); reflexivity.
Qed.

Lemma run_dq_metrics :
  Glue.dq_metrics o
  = Glue.calculate_dq_metrics
      (Z.of_nat (List.length batch))
      (Z.of_nat (List.length (Glue.clean_claims o)))
      (Z.of_nat (List.length (Glue.dq_failures o)))
      (Z.of_nat (List.length (Glue.quarantine_claims o))).
Proof.
  subst o. unfold Glue.run.
  destruct (Glue.validate_data_quality d batch); reflexivity.
Qed.

Lemma clean_is_clean c : In c clean -> Glue.issues_of d c = [].
Proof.
  subst clean. intros H. apply filter_In in H.
  apply rule_clean_nil. tauto.
Qed.

(** Every scored row is the row of a rule-clean claim, and carries a
    z-score and a flag that are not NULL. *)
Lemma run_row_scored r :
  In r (Glue.claims_with_outliers o) ->
  In (Glue.scored_claim r) clean
  /\ r = scored_row clean (Glue.scored_claim r)
  /\ exists z, Glue.z_score r = Some z
               /\ Glue.is_statistical_outlier r = Some (Rltb 3 (Rabs z)).
Proof.
  rewrite run_claims_with_outliers. intros H.
  apply in_map_iff in H. destruct H as (c & <- & Hc).
  rewrite scored_row_claim. repeat split; auto.
  apply (clean_row_scored d); [apply clean_is_clean | exact Hc].
Qed.

Lemma run_gold_not_flagged :
  Glue.gold_claims o
  = map Glue.scored_claim
        (filter (fun r => negb (flagged r)) (Glue.claims_with_outliers o)).
Proof.
  rewrite run_gold_claims. f_equal. apply filter_ext_in.
  intros r Hr. destruct (run_row_scored r Hr) as (_ & _ & z & _ & E).
  unfold flagged. rewrite E. simpl. destruct (Rltb 3 (Rabs z)); reflexivity.
Qed.

Lemma run_scored_claims :
  map Glue.scored_claim (Glue.claims_with_outliers o) = clean.
Proof.
  rewrite run_claims_with_outliers, map_map.
  rewrite (map_ext _ (fun c => c)) by (intros; apply scored_row_claim).
  apply map_id.
Qed.

Lemma run_silver_rows :
  map Glue.dq_claim (Glue.silver_claims o)
  = filter (fun c => negb (rule_clean (Glue.issues_of d c))) batch.
Proof.
  rewrite run_silver_claims, run_dq_failures, map_map.
  rewrite (map_ext _ (fun c => c)) by reflexivity.
  apply map_id.
Qed.

(** GOLD and QUARANTINE together are the rule-clean rows. *)
Lemma run_clean_split :
  Permutation
    (Glue.gold_claims o
     ++ map Glue.scored_claim (Glue.quarantine_claims o))
    clean.
Proof.
  rewrite run_gold_not_flagged, run_quarantine_claims.
  rewrite <- map_app, <- run_scored_claims.
  apply Permutation_map.
  eapply Permutation_trans; [apply Permutation_app_comm|].
  apply filter_split_perm.
Qed.

Lemma run_partition :
  Permutation
    (Glue.gold_claims o
     ++ map Glue.dq_claim (Glue.silver_claims o)
     ++ map Glue.scored_claim (Glue.quarantine_claims o))
    batch.
Proof.
  eapply Permutation_trans.
  { apply Permutation_app_head. apply Permutation_app_comm. }
  rewrite app_assoc.
  eapply Permutation_trans.
  { apply Permutation_app_tail. apply run_clean_split. }
  rewrite run_silver_rows. apply filter_split_perm.
Qed.

Lemma run_counts :
  List.length (Glue.gold_claims o) + List.length (Glue.silver_claims o)
  + List.length (Glue.quarantine_claims o)
  = List.length batch.
Proof.
  rewrite <- (Permutation_length run_partition).
  repeat rewrite length_app. repeat rewrite length_map. lia.
Qed.

Lemma run_clean_count :
  List.length (Glue.gold_claims o)
  + List.length (Glue.quarantine_claims o)
  = List.length (Glue.clean_claims o).
Proof.
  rewrite run_clean_claims, <- (Permutation_length run_clean_split).
  rewrite length_app, length_map. reflexivity.
Qed.

(** Membership in the three tiers, claim by claim. *)
Lemma in_silver_iff c :
  In c (map Glue.dq_claim (Glue.silver_claims o))
  <-> In c batch /\ Glue.issues_of d c <> [].
Proof.
  rewrite run_silver_rows, filter_In.
  destruct (Glue.issues_of d c); simpl; intuition congruence.
Qed.

Lemma in_quarantine_iff c :
  In c (map Glue.scored_claim (Glue.quarantine_claims o))
  <-> In c clean /\ flagged (scored_row clean c) = true.
Proof.
  rewrite run_quarantine_claims, run_claims_with_outliers.
  rewrite in_map_iff. split.
  - intros (r & <- & Hr). apply filter_In in Hr. destruct Hr as [Hr Hf].
    apply in_map_iff in Hr. destruct Hr as (c & <- & Hc).
    rewrite scored_row_claim. auto.
  - intros [Hc Hf]. exists (scored_row clean c). split; [reflexivity|].
    apply filter_In. split; [apply in_map; exact Hc | exact Hf].
Qed.

Lemma in_gold_iff c :
  In c (Glue.gold_claims o)
  <-> In c clean /\ flagged (scored_row clean c) = false.
Proof.
  rewrite run_gold_not_flagged, run_claims_with_outliers.
  rewrite in_map_iff. split.
  - intros (r & <- & Hr). apply filter_In in Hr. destruct Hr as [Hr Hf].
    apply in_map_iff in Hr. destruct Hr as (c & <- & Hc).
    rewrite scored_row_claim. split; [exact Hc|].
    apply negb_true_iff. exact Hf.
  - intros [Hc Hf]. exists (scored_row clean c). split; [reflexivity|].
    apply filter_In. split; [apply in_map; exact Hc|].
    apply negb_true_iff. exact Hf.
Qed.

End Run.

Ltac metric_fields :=
  unfold Glue.calculate_dq_metrics;
  cbn [Glue.total_records Glue.gold_records Glue.silver_records
       Glue.quarantine_records Glue.total_anomalies Glue.data_quality_score
       Glue.anomaly_rate].


(** *** C2 *)

(** C2. For every batch the tiers GOLD, SILVER and QUARANTINE are pairwise
    disjoint and hold the claims of the batch, each as often as the batch
    does; the three counts, and the three counts of the metrics, add up to
    the number of input records. *)
Theorem tiers_partition_the_batch (d : date) (batch : list Claim) :
  let o := Glue.run d batch in
  let gold := Glue.gold_claims o in
  let silver := map Glue.dq_claim (Glue.silver_claims o) in
  let quarantine := map Glue.scored_claim (Glue.quarantine_claims o) in
  Permutation (gold ++ silver ++ quarantine) batch
  /\ (forall c, ~ (In c gold /\ In c silver))
  /\ (forall c, ~ (In c gold /\ In c quarantine))
  /\ (forall c, ~ (In c silver /\ In c quarantine))
  /\ List.length (Glue.gold_claims o) + List.length (Glue.silver_claims o)
     + List.length (Glue.quarantine_claims o)
     = List.length batch
  /\ (Glue.gold_records (Glue.dq_metrics o)
      + Glue.silver_records (Glue.dq_metrics o)
      + Glue.quarantine_records (Glue.dq_metrics o)
      = Glue.total_records (Glue.dq_metrics o))%Z.
Proof.
  cbv zeta. repeat split.
  - apply run_partition.
  - intros c [Hg Hs]. apply in_gold_iff in Hg. apply in_silver_iff in Hs.
    destruct Hg as [Hg _]. apply clean_is_clean in Hg. tauto.
  - intros c [Hg Hq]. apply in_gold_iff in Hg. apply in_quarantine_iff in Hq.
    destruct Hg as [_ Hg]. destruct Hq as [_ Hq]. congruence.
  - intros c [Hs Hq]. apply in_silver_iff in Hs. apply in_quarantine_iff in Hq.
    destruct Hq as [Hq _]. apply clean_is_clean in Hq. tauto.
  - apply run_counts.
  - rewrite run_dq_metrics. metric_fields. rewrite <- run_silver_claims.
    pose proof (run_counts d batch). pose proof (run_clean_count d batch).
    lia.
Qed.

(** ** Percentages *)




(** *** C6 *)



(** *** C7 *)



(** ** The detector on the rule-clean rows of a batch *)

Lemma in_quarantine_rows d batch r :
  In r (Glue.quarantine_claims (Glue.run d batch))
  <-> In r (Glue.claims_with_outliers (Glue.run d batch))
      /\ Glue.is_statistical_outlier r = Some true.
Proof.
  rewrite run_quarantine_claims, filter_In.
  destruct (Glue.is_statistical_outlier r) as [[|]|]; simpl;
    intuition congruence.
Qed.



(** The guarded branch of [z_score]. *)
Lemma scored_row_positive_stddev df c k a m s :
  cpt_code c = Some k ->
  Glue.amount_value c = Some a ->
  mean (peer_amounts df c) = Some m ->
  stddev_samp (peer_amounts df c) = Some s ->
  (0 < s)%R ->
  Glue.z_score (scored_row df c) = Some ((a - m) / s)%R
  /\ Glue.is_statistical_outlier (scored_row df c)
     = Some (Rltb 3 (Rabs ((a - m) / s))).
Proof.
  intros Ek Ea Em Es Hpos.
  rewrite outlier_flag_of_z_score, (z_score_cases _ _ _ _ _ Ek Ea Em), Es.
  apply Rltb_true in Hpos. rewrite Hpos. split; reflexivity.
Qed.

(** The default branch of [z_score]. *)
Lemma scored_row_no_stddev df c k a m :
  cpt_code c = Some k ->
  Glue.amount_value c = Some a ->
  mean (peer_amounts df c) = Some m ->
  stddev_samp (peer_amounts df c) = None
  \/ stddev_samp (peer_amounts df c) = Some 0%R ->
  Glue.z_score (scored_row df c) = Some 0%R
  /\ Glue.is_statistical_outlier (scored_row df c) = Some false.
Proof.
  intros Ek Ea Em Es.
  rewrite outlier_flag_of_z_score, (z_score_cases _ _ _ _ _ Ek Ea Em).
  assert (F : Rltb 3 (Rabs 0) = false)
    by (apply Rltb_false; rewrite Rabs_R0; lra).
  destruct Es as [-> | ->].
  - simpl. rewrite F. split; reflexivity.
  - assert (Z : Rltb 0 0 = false) by (apply Rltb_false; lra).
    rewrite Z. simpl. rewrite F. split; reflexivity.
Qed.

(** *** C4 *)



(** *** C5 *)

Lemma peers_of_identical_amounts df k a c :
  (forall x, In x df -> cpt_code x = Some k ->
             exists q, claim_amount x = Some (DFin q) /\ (q == a)%Q) ->
  cpt_code c = Some k ->
  forall y, In y (peer_amounts df c) -> y = Q2R a.
Proof.
  intros H Ek y Hy. unfold peer_amounts, Glue.amounts in Hy.
  apply in_flat_map in Hy. destruct Hy as (x & Hx & Hy).
  unfold Glue.group_rows in Hx. apply filter_In in Hx.
  destruct Hx as [Hx Hk].
  destruct (option_string_dec (cpt_code x) (cpt_code c)) as [E|];
    [|discriminate Hk].
  rewrite Ek in E. destruct (H x Hx E) as (q & Eq & Hq).
  unfold Glue.amount_value in Hy. rewrite Eq in Hy.
  destruct Hy as [<- | []]. apply Qeq_eqR. exact Hq.
Qed.

(** C5. In a [cpt_code] group whose rule-clean claims all have the same
    amount (one claim or more) the standard deviation is NULL or zero, the
    guarded division is not taken, every row of the group gets z-score 0
    and is not flagged: none is quarantined and all are GOLD. *)
Theorem zero_variance_group_never_flagged
        (d : date) (batch : list Claim) (k : string) (a : Q) :
  let o := Glue.run d batch in
  (forall c, In c (Glue.clean_claims o) -> cpt_code c = Some k ->
             exists q, claim_amount c = Some (DFin q) /\ (q == a)%Q) ->
  forall r,
    In r (Glue.claims_with_outliers o) ->
    cpt_code (Glue.scored_claim r) = Some k ->
    (Glue.joined_stddev_amount r = None
     \/ Glue.joined_stddev_amount r = Some 0%R)
    /\ Glue.z_score r = Some 0%R
    /\ Glue.is_statistical_outlier r = Some false
    /\ ~ In r (Glue.quarantine_claims o)
    /\ In (Glue.scored_claim r) (Glue.gold_claims o).
Proof.
  cbv zeta. rewrite run_clean_claims.
  set (clean := filter _ batch). intros Hsame r Hr Ek.
  destruct (run_row_scored d batch r Hr) as (Hc & E & _).
  fold clean in Hc, E.
  set (c := Glue.scored_claim r) in *.
  pose proof (clean_is_clean d batch c Hc) as Hi.
  destruct (clean_amount_finite _ _ Hi) as (q & _ & Ea).
  destruct (mean_of_nonempty _ _ (in_peer_amounts _ _ _ Hc Ea)) as [m Em].
  pose proof (stddev_samp_constant
                (Q2R a) _ (peers_of_identical_amounts clean k a c Hsame Ek))
    as Hsd.
  destruct (scored_row_no_stddev clean c k _ m Ek Ea Em Hsd) as [Hz Hf].
  rewrite in_quarantine_rows, in_gold_iff. fold clean. rewrite E.
  rewrite (proj2 (scored_row_stats clean c k Ek)), Hz, Hf.
  repeat split; auto.
  intros [_ X]. discriminate X.
Qed.

(** Two claims of procedure 99213 that both bill 250. *)
Lemma zero_variance_group_never_flagged_witness :
  (forall c,
      In c (Glue.clean_claims (Glue.run Sample.today Sample.flat_batch)) ->
      cpt_code c = Some "99213"%string ->
      exists q, claim_amount c = Some (DFin q) /\ (q == 250)%Q)
  /\ Glue.z_score (scored_row Sample.flat_batch Sample.valid_claim)
     = Some 0%R
  /\ Glue.is_statistical_outlier
       (scored_row Sample.flat_batch Sample.valid_claim)
     = Some false
  /\ In Sample.valid_claim
        (Glue.gold_claims (Glue.run Sample.today Sample.flat_batch)).
Proof.
  assert (C : Glue.clean_claims (Glue.run Sample.today Sample.flat_batch)
              = Sample.flat_batch)
    by (rewrite run_clean_claims; reflexivity).
  assert (H : forall c,
             In c (Glue.clean_claims
                     (Glue.run Sample.today Sample.flat_batch)) ->
             cpt_code c = Some "99213"%string ->
             exists q, claim_amount c = Some (DFin q) /\ (q == 250)%Q).
  { rewrite C. intros c [<- | [<- | []]] _; exists 250%Q;
      split; reflexivity. }
  assert (I : In (scored_row Sample.flat_batch Sample.valid_claim)
                 (Glue.claims_with_outliers
                    (Glue.run Sample.today Sample.flat_batch))).
  { rewrite run_claims_with_outliers.
    change (filter _ Sample.flat_batch) with Sample.flat_batch.
    left; reflexivity. }
  destruct (zero_variance_group_never_flagged
              Sample.today Sample.flat_batch "99213"%string 250%Q H
              (scored_row Sample.flat_batch Sample.valid_claim) I eq_refl)
    as (_ & Hz & Hf & _ & Hg).
  repeat split; assumption.
Defined.

(** ** The validators do not look at the other rows *)


Lemma pandas_anomalies_df d df :
  snd (Pandas.validate_data_quality d df)
  = map (Pandas.dq_row d)
        (filter (fun c => negb (rule_clean (Pandas.issues_of d c))) df).
Proof.
  unfold Pandas.validate_data_quality; simpl.
  induction df as [|c df IH]; simpl; [reflexivity|].
  rewrite render_issues_length.
  destruct (rule_clean (Pandas.issues_of d c)); simpl; congruence.
Qed.



Lemma in_pandas_anomalies d df r :
  In r (snd (Pandas.validate_data_quality d df))
  <-> r = Pandas.dq_row d (Pandas.dq_claim r)
      /\ In (Pandas.dq_claim r) df
      /\ rule_clean (Pandas.issues_of d (Pandas.dq_claim r)) = false.
Proof.
  rewrite pandas_anomalies_df, in_map_iff. split.
  - intros (c & <- & Hc). apply filter_In in Hc. destruct Hc as [Hc Hb].
    apply negb_true_iff in Hb. auto.
  - intros (E & Hc & Hb). exists (Pandas.dq_claim r). split; [auto|].
    apply filter_In. split; [exact Hc|]. apply negb_true_iff. exact Hb.
Qed.

(** *** C8 *)



(** *** QUARANTINE is relative to the group

    The same claim (procedure 99213, amount 10000) is GOLD when it is alone
    and QUARANTINE next to ten claims of its procedure that bill 100: the
    group mean is 1000, the sample variance 8910000, and
    [9000 / sqrt 8910000 > 3]. *)
Lemma quarantine_status_is_group_relative :
  In Sample.big_claim
     (Glue.gold_claims (Glue.run Sample.today [Sample.big_claim]))
  /\ In Sample.big_claim
        (map Glue.scored_claim
             (Glue.quarantine_claims
                (Glue.run Sample.today
                          (Sample.peers ++ [Sample.big_claim])))).
Proof.
  assert (V : (Q2R 100 = 100 /\ Q2R 10000 = 10000)%R)
    by (unfold Q2R; simpl; lra).
  destruct V as [V1 V2].
  split.
  - apply in_gold_iff.
    change (filter _ [Sample.big_claim]) with [Sample.big_claim].
    split; [left; reflexivity|].
    destruct (scored_row_no_stddev
                [Sample.big_claim] Sample.big_claim "99213"%string
                (Q2R 10000) ((Q2R 10000 + 0) / INR 1)%R
                eq_refl eq_refl eq_refl (or_introl eq_refl)) as [_ F].
    rewrite F. reflexivity.
  - apply in_quarantine_iff.
    change (filter _ (Sample.peers ++ [Sample.big_claim]))
      with (Sample.peers ++ [Sample.big_claim]).
    split; [apply in_or_app; right; left; reflexivity|].
    assert (P : peer_amounts (Sample.peers ++ [Sample.big_claim])
                             Sample.big_claim
                = [100; 100; 100; 100; 100; 100; 100; 100; 100; 100;
                   10000]%R).
    { rewrite <- V1, <- V2. reflexivity. }
    assert (M : mean (peer_amounts (Sample.peers ++ [Sample.big_claim])
                                   Sample.big_claim)
                = Some 1000%R).
    { rewrite P. unfold mean, Rsum. simpl. f_equal. lra. }
    assert (S : stddev_samp
                  (peer_amounts (Sample.peers ++ [Sample.big_claim])
                                Sample.big_claim)
                = Some (sqrt 8910000)).
    { unfold stddev_samp. rewrite M. rewrite P.
      unfold sum_sq_dev, Rsum. simpl. do 2 f_equal. lra. }
    assert (Hpos : (0 < sqrt 8910000)%R) by (apply sqrt_lt_R0; lra).
    assert (Hlt : (sqrt 8910000 < 3000)%R).
    { rewrite <- (sqrt_square 3000) by lra.
      apply sqrt_lt_1; lra. }
    destruct (scored_row_positive_stddev
                (Sample.peers ++ [Sample.big_claim]) Sample.big_claim
                "99213"%string (Q2R 10000) 1000%R (sqrt 8910000)
                eq_refl eq_refl M S Hpos) as [_ F].
    assert (T : Rltb 3 (Rabs ((Q2R 10000 - 1000) / sqrt 8910000)) = true).
    { apply Rltb_true.
      rewrite V2. replace (10000 - 1000)%R with 9000%R by lra.
      rewrite Rabs_right.
      - apply (Rmult_lt_reg_r (sqrt 8910000)); [exact Hpos|].
        unfold Rdiv. rewrite Rmult_assoc, Rinv_l by lra. lra.
      - apply Rle_ge. apply Rlt_le. apply Rdiv_lt_0_compat; lra. }
    rewrite F, T. reflexivity.
Qed.

(** ** The Pandas detector computes the same scores *)

Lemma pandas_group_rows df k :
  Pandas.group_rows df k = Glue.group_rows df (Some k).
Proof.
  unfold Pandas.group_rows, Glue.group_rows. apply filter_ext. intros c.
  unfold Pandas.mask2.
  destruct (cpt_code c) as [a|].
  - destruct (option_string_dec (Some a) (Some k)) as [E|N].
    + injection E as ->. apply String.eqb_refl.
    + apply String.eqb_neq. congruence.
  - destruct (option_string_dec None (Some k)); [discriminate | reflexivity].
Qed.

Lemma pandas_stats_row df k :
  Pandas.avg_amount (Pandas.stats_row df k)
  = Glue.avg_amount (Glue.stats_row df (Some k))
  /\ Pandas.stddev_amount (Pandas.stats_row df k)
     = Glue.stddev_amount (Glue.stats_row df (Some k)).
Proof.
  unfold Pandas.stats_row, Glue.stats_row; simpl.
  rewrite pandas_group_rows. split; reflexivity.
Qed.

Lemma in_group_keys df c k :
  In c df -> cpt_code c = Some k -> In k (Pandas.group_keys df).
Proof.
  intros Hc Ek. unfold Pandas.group_keys. apply nodup_In.
  apply in_flat_map. exists c. split; [exact Hc|].
  rewrite Ek. left; reflexivity.
Qed.

(** The merge also keeps the frame row for row. *)
Lemma merge_left_stats df :
  Pandas.merge_left df (Pandas.stats_df df)
  = map (fun c => (c, option_map (Pandas.stats_row df) (cpt_code c))) df.
Proof.
  unfold Pandas.merge_left. apply flat_map_singletons. intros c Hc.
  unfold Pandas.stats_df.
  destruct (cpt_code c) as [k|] eqn:Ek; simpl.
  - assert (F : filter
                  (fun s => String.eqb k (Pandas.stats_cpt_code s))
                  (map (Pandas.stats_row df) (Pandas.group_keys df))
                = [Pandas.stats_row df k]).
    { change [Pandas.stats_row df k] with (map (Pandas.stats_row df) [k]).
      rewrite <- (filter_unique (String.eqb k) k (Pandas.group_keys df)).
      - generalize (Pandas.group_keys df).
        induction l as [|a l IH]; simpl; [reflexivity|].
        destruct (String.eqb k a); simpl; congruence.
      - apply NoDup_nodup.
      - apply (in_group_keys df c k Hc Ek).
      - intros y _. rewrite String.eqb_eq. split; congruence. }
    rewrite F. reflexivity.
  - rewrite filter_none; [reflexivity | reflexivity].
Qed.

Lemma pandas_detect_rows df :
  Pandas.detect_statistical_anomalies df = map (pandas_scored_row df) df.
Proof.
  unfold Pandas.detect_statistical_anomalies. rewrite merge_left_stats.
  rewrite map_map. reflexivity.
Qed.

(** Row by row the two detectors give the same z-score, and the Pandas flag
    is set exactly when the Spark flag is true. *)
Lemma detectors_agree df c :
  Pandas.z_score (pandas_scored_row df c) = Glue.z_score (scored_row df c)
  /\ Pandas.is_statistical_outlier (pandas_scored_row df c)
     = Sql.holds (Glue.is_statistical_outlier (scored_row df c)).
Proof.
  unfold pandas_scored_row, scored_row, Pandas.score, Glue.score.
  destruct (cpt_code c) as [k|];
    cbn [option_map Pandas.z_score Glue.z_score
         Pandas.is_statistical_outlier Glue.is_statistical_outlier].
  - destruct (pandas_stats_row df k) as [-> ->].
    change (Pandas.amount_value c) with (Glue.amount_value c).
    generalize (Glue.avg_amount (Glue.stats_row df (Some k))).
    generalize (Glue.stddev_amount (Glue.stats_row df (Some k))).
    generalize (Glue.amount_value c).
    intros a sd avg.
    destruct sd as [s|]; simpl;
      [|destruct (Rltb 3 (Rabs 0)); split; reflexivity].
    destruct (Rltb 0 s) eqn:E; simpl;
      [|destruct (Rltb 3 (Rabs 0)); split; reflexivity].
    apply Rltb_true in E.
    destruct a as [a|], avg as [m|]; simpl; try (split; reflexivity).
    destruct (Req_dec_T s 0); [lra|]. simpl.
    destruct (Rltb 3 (Rabs ((a - m) / s))); split; reflexivity.
  - simpl. destruct (Rltb 3 (Rabs 0)); split; reflexivity.
Qed.

(** The Pandas metrics of an empty file. *)
Lemma pandas_metrics_empty :
  Pandas.calculate_dq_metrics 0 0 0 = Pandas.mkMetrics 0 0 0 0 0.
Proof. reflexivity. Qed.


(** ** The scenarios of the specification

    A: amount -250; B: a three-digit NPI; C: served tomorrow.  The record
    is flagged in both validators and is SILVER in the job. *)

Example scenario_negative_amount :
  Glue.issues_of Sample.today
                 (Sample.with_amount (-250) "CLM-A" Sample.valid_claim)
  = [NEGATIVE_AMOUNT]
  /\ Pandas.issues_of Sample.today
                      (Sample.with_amount (-250) "CLM-A" Sample.valid_claim)
     = [NEGATIVE_AMOUNT].
Proof. split; vm_compute; reflexivity. Qed.

Example scenario_short_npi :
  Glue.issues_of Sample.today (Sample.with_npi "123" Sample.valid_claim)
  = [INVALID_NPI]
  /\ Pandas.issues_of Sample.today (Sample.with_npi "123" Sample.valid_claim)
     = [INVALID_NPI].
Proof. split; vm_compute; reflexivity. Qed.

Example scenario_served_tomorrow :
  Glue.issues_of Sample.today
                 (Sample.with_dates 20001%Z 20002%Z Sample.valid_claim)
  = [FUTURE_SERVICE_DATE]
  /\ Pandas.issues_of Sample.today
                      (Sample.with_dates 20001%Z 20002%Z Sample.valid_claim)
     = [FUTURE_SERVICE_DATE].
Proof. split; vm_compute; reflexivity. Qed.

Example scenario_flagged_is_silver :
  map Glue.dq_claim
      (Glue.silver_claims
         (Glue.run Sample.today
                   [Sample.with_amount (-250) "CLM-A" Sample.valid_claim]))
  = [Sample.with_amount (-250) "CLM-A" Sample.valid_claim].
Proof. rewrite run_silver_rows. reflexivity. Qed.

(** * More facts about the two files *)

(** ** The Pandas validator on a frame *)



(** ** The Pandas metrics *)


Lemma process_file_counts d df :
  PandasMain.raw_count (PandasMain.process_file d df) = List.length df
  /\ PandasMain.clean_count (PandasMain.process_file d df)
     = List.length (fst (Pandas.validate_data_quality d df))
  /\ PandasMain.anomaly_count (PandasMain.process_file d df)
     = List.length (snd (Pandas.validate_data_quality d df))
  /\ PandasMain.clean_df (PandasMain.process_file d df)
     = fst (Pandas.validate_data_quality d df)
  /\ PandasMain.anomaly_df (PandasMain.process_file d df)
     = snd (Pandas.validate_data_quality d df)
  /\ PandasMain.metrics (PandasMain.process_file d df)
     = Pandas.calculate_dq_metrics
         (Z.of_nat (List.length df))
         (Z.of_nat (List.length (fst (Pandas.validate_data_quality d df))))
         (Z.of_nat (List.length (snd (Pandas.validate_data_quality d df)))).
Proof.
  unfold PandasMain.process_file.
  destruct (Pandas.validate_data_quality d df); repeat split; reflexivity.
Qed.





(** ** The order of the codes in an issue list *)

Lemma sorted_app_one k (l rest : list IssueCode) :
  at_most_one_of k l ->
  Forall (fun i => k < block i) rest ->
  StronglySorted before rest ->
  StronglySorted before (l ++ rest)
  /\ Forall (fun i => k <= block i) (l ++ rest).
Proof.
  intros [-> | (i & -> & Hi)] Hall Hs; simpl.
  - split; [exact Hs|]. eapply Forall_impl; [|exact Hall].
    simpl; intros; lia.
  - split.
    + constructor; [exact Hs|]. eapply Forall_impl; [|exact Hall].
      intros j Hj. unfold before. rewrite <- Hi in Hj.
      destruct i; destruct j; simpl in *; lia.
    + constructor; [lia|]. eapply Forall_impl; [|exact Hall].
      simpl; intros; lia.
Qed.

Lemma Forall_block_succ k (l : list IssueCode) :
  Forall (fun i => S k <= block i) l -> Forall (fun i => k < block i) l.
Proof. intros H. eapply Forall_impl; [|exact H]. simpl; intros; lia. Qed.

Lemma glue_issues_sorted d c : StronglySorted before (Glue.issues_of d c).
Proof.
  rewrite issues_of_blocks.
  destruct (sorted_app_one 7 (Glue.zip_check c []) [] (zip_check_one c)
                           (Forall_nil _) (SSorted_nil _)) as [S7 F7].
  destruct (sorted_app_one 6 _ _ (gender_check_one c)
                           (Forall_block_succ 6 _ F7) S7) as [S6 F6].
  destruct (sorted_app_one 5 _ _ (status_check_one c)
                           (Forall_block_succ 5 _ F6) S6) as [S5 F5].
  destruct (sorted_app_one 4 _ _ (date_checks_one d c)
                           (Forall_block_succ 4 _ F5) S5) as [S4 F4].
  destruct (sorted_app_one 3 _ _ (amount_checks_one c)
                           (Forall_block_succ 3 _ F4) S4) as [S3 F3].
  destruct (sorted_app_one 2 _ _ (npi_check_one c)
                           (Forall_block_succ 2 _ F3) S3) as [S2 F2].
  destruct (sorted_app_one 1 _ _ (null_checks_one c)
                           (Forall_block_succ 1 _ F2) S2) as [S1 _].
  rewrite app_nil_r in S1. exact S1.
Qed.

Lemma filter_sorted {A} (R : A -> A -> Prop) (f : A -> bool) (l : list A) :
  StronglySorted R l -> StronglySorted R (filter f l).
Proof.
  induction 1 as [|a l Hs IH Ha]; simpl; [constructor|].
  destruct (f a); [|exact IH].
  constructor; [exact IH|].
  apply Forall_forall. intros x Hx. apply filter_In in Hx.
  rewrite Forall_forall in Ha. apply Ha. tauto.
Qed.

Lemma pandas_catalogue_sorted : StronglySorted before Pandas.catalogue.
Proof.
  unfold Pandas.catalogue, before.
  repeat (constructor; [|repeat (constructor; [simpl; lia|]); constructor]).
  constructor.
Qed.

Lemma sorted_before_NoDup (l : list IssueCode) :
  StronglySorted before l -> NoDup l.
Proof.
  induction 1 as [|a l Hs IH Ha]; constructor; [|exact IH].
  intros Hin. rewrite Forall_forall in Ha. specialize (Ha a Hin).
  unfold before in Ha. lia.
Qed.

(** X3. In both validators the codes of an issue list follow the order in
    which the rules are written, and no code is recorded twice on a
    record. *)
Theorem issue_lists_follow_rule_order (d : date) (c : Claim) :
  StronglySorted before (Glue.issues_of d c)
  /\ StronglySorted before (Pandas.issues_of d c)
  /\ NoDup (Glue.issues_of d c)
  /\ NoDup (Pandas.issues_of d c).
Proof.
  assert (P : StronglySorted before (Pandas.issues_of d c)).
  { rewrite pandas_issues_additive. apply filter_sorted.
    apply pandas_catalogue_sorted. }
  pose proof (glue_issues_sorted d c) as G.
  repeat split; auto using sorted_before_NoDup.
Qed.

(** ** The two NPI patterns *)

Lemma length_append (a b : string) :
  String.length (a ++ b) = String.length a + String.length b.
Proof. induction a as [|x a IH]; simpl; congruence. Qed.


Lemma append_empty_r (s : string) : (s ++ EmptyString)%string = s.
Proof. induction s as [|x s IH]; simpl; congruence. Qed.









(** ** Where the two validators agree *)











(** ** Rule-clean in one validator and in the other *)





(** ** The codes of the job among the codes of the reference *)





(** ** The issue string, split again *)

Lemma split_tag i rest :
  PandasMain.split ";"%char (issue_tag i ++ rest)
  = issue_name i :: PandasMain.split ";"%char rest.
Proof. destruct i; reflexivity. Qed.

Lemma split_render l :
  PandasMain.split ";"%char (render_issues l)
  = map issue_name l ++ [EmptyString].
Proof.
  induction l as [|i l IH]; [reflexivity|].
  cbn [render_issues fold_right map app].
  fold (render_issues l). rewrite split_tag, IH. reflexivity.
Qed.

Lemma issue_name_nonempty i : String.eqb (issue_name i) EmptyString = false.
Proof. destruct i; reflexivity. Qed.

Lemma issue_name_injective i j : issue_name i = issue_name j -> i = j.
Proof. destruct i; destruct j; intros H; try reflexivity; discriminate H. Qed.

Lemma split_render_nonempty l :
  filter (fun s => negb (String.eqb s EmptyString))
         (PandasMain.split ";"%char (render_issues l))
  = map issue_name l.
Proof.
  rewrite split_render, filter_app. simpl. rewrite app_nil_r.
  induction l as [|i l IH]; [reflexivity|].
  simpl. rewrite issue_name_nonempty. simpl. congruence.
Qed.

(** X8. Splitting the issue string of a record on [";"] gives the names of
    its codes in order, followed by one empty piece; dropping the empty
    pieces, as [main] does, leaves exactly the names of the recorded codes,
    and different codes have different names. *)
Theorem issue_string_splits_into_names (l : list IssueCode) :
  PandasMain.split ";"%char (render_issues l)
  = map issue_name l ++ [EmptyString]
  /\ filter (fun s => negb (String.eqb s EmptyString))
            (PandasMain.split ";"%char (render_issues l))
     = map issue_name l
  /\ (forall l', map issue_name l = map issue_name l' -> l = l').
Proof.
  split; [apply split_render|]. split; [apply split_render_nonempty|].
  induction l as [|i l IH]; intros [|j l'] H; try discriminate H.
  - reflexivity.
  - simpl in H. injection H as H1 H2.
    apply issue_name_injective in H1. subst j.
    f_equal. apply IH. exact H2.
Qed.

(** ** Counting the issues of a file *)

Lemma get_set d k v k' default :
  PandasMain.get (PandasMain.set d k v) k' default
  = if String.eqb k k' then v else PandasMain.get d k' default.
Proof.
  induction d as [|[a b] d IH]; simpl.
  - destruct (String.eqb k k'); reflexivity.
  - destruct (String.eqb a k) eqn:E; simpl.
    + apply String.eqb_eq in E. subst a.
      destruct (String.eqb k k'); reflexivity.
    + destruct (String.eqb a k') eqn:E'; [|exact IH].
      apply String.eqb_eq in E'. subst a.
      rewrite String.eqb_sym, E. reflexivity.
Qed.

(** One pass of the inner loop over the pieces [keys]. *)
Lemma count_pieces d keys k :
  PandasMain.get
    (fold_left
       (fun counts issue =>
          if String.eqb issue EmptyString then counts
          else PandasMain.set counts issue
                              (PandasMain.get counts issue 0 + 1))
       keys d) k 0
  = PandasMain.get d k 0
    + count_occ string_dec
                (filter (fun s => negb (String.eqb s EmptyString)) keys) k.
Proof.
  revert d. induction keys as [|x keys IH]; intros d; simpl; [lia|].
  destruct (String.eqb x EmptyString) eqn:E; simpl; [apply IH|].
  rewrite IH, get_set.
  destruct (string_dec x k) as [-> | N].
  - rewrite String.eqb_refl. lia.
  - apply String.eqb_neq in N. rewrite N. lia.
Qed.

Lemma count_row_get d l k :
  PandasMain.get (PandasMain.count_row d (render_issues l)) k 0
  = PandasMain.get d k 0 + count_occ string_dec (map issue_name l) k.
Proof.
  unfold PandasMain.count_row. rewrite count_pieces.
  rewrite split_render_nonempty. reflexivity.
Qed.

Lemma count_names l i :
  NoDup l ->
  count_occ string_dec (map issue_name l) (issue_name i)
  = if in_dec IssueCode_eq_dec i l then 1 else 0.
Proof.
  induction 1 as [|j l Hj Hnd IH]; [reflexivity|].
  cbn [map count_occ].
  destruct (string_dec (issue_name j) (issue_name i)) as [E | N].
  - apply issue_name_injective in E. subst j.
    destruct (in_dec IssueCode_eq_dec i (i :: l)) as [_ | X];
      [|exfalso; apply X; left; reflexivity].
    rewrite IH. destruct (in_dec IssueCode_eq_dec i l); [contradiction|].
    reflexivity.
  - rewrite IH.
    destruct (in_dec IssueCode_eq_dec i l) as [I | I];
      destruct (in_dec IssueCode_eq_dec i (j :: l)) as [J | J];
      try reflexivity.
    + exfalso. apply J. right; exact I.
    + exfalso. destruct J as [-> | J]; [apply N; reflexivity | contradiction].
Qed.

Lemma count_not_a_name l k :
  (forall i, k <> issue_name i) ->
  count_occ string_dec (map issue_name l) k = 0.
Proof.
  intros H. induction l as [|j l IH]; [reflexivity|].
  cbn [map count_occ].
  destruct (string_dec (issue_name j) k) as [E | _]; [|exact IH].
  exfalso. apply (H j). symmetry. exact E.
Qed.

Lemma issue_counts_from d0 rows k :
  PandasMain.get
    (fold_left PandasMain.count_row
               (map (fun r => render_issues (Pandas.dq_issues r)) rows) d0)
    k 0
  = PandasMain.get d0 k 0
    + PandasMain.sum
        (map (fun r => count_occ string_dec
                                 (map issue_name (Pandas.dq_issues r)) k)
             rows).
Proof.
  revert d0. induction rows as [|r rows IH]; intros d0.
  - simpl. lia.
  - cbn [map fold_left]. rewrite IH, count_row_get.
    cbn [PandasMain.sum fold_right map].
    fold (PandasMain.sum
            (map (fun r => count_occ string_dec
                                     (map issue_name (Pandas.dq_issues r)) k)
                 rows)).
    lia.
Qed.

Lemma pandas_issues_NoDup d c : NoDup (Pandas.issues_of d c).
Proof.
  apply sorted_before_NoDup. rewrite pandas_issues_additive.
  apply filter_sorted. apply pandas_catalogue_sorted.
Qed.

Lemma issue_counts_rows rows i :
  (forall r, In r rows -> NoDup (Pandas.dq_issues r)) ->
  PandasMain.get (PandasMain.issue_counts rows) (issue_name i) 0
  = List.length (filter (carries i) rows).
Proof.
  intros H. unfold PandasMain.issue_counts. rewrite issue_counts_from.
  simpl PandasMain.get.
  induction rows as [|r rows IH]; [reflexivity|].
  cbn [map PandasMain.sum fold_right filter].
  fold (PandasMain.sum
          (map (fun r => count_occ string_dec
                                   (map issue_name (Pandas.dq_issues r))
                                   (issue_name i)) rows)).
  rewrite count_names by (apply H; left; reflexivity).
  simpl in IH. rewrite IH by (intros x Hx; apply H; right; exact Hx).
  unfold carries at 2.
  destruct (in_dec IssueCode_eq_dec i (Pandas.dq_issues r)); reflexivity.
Qed.

(** X9. The issue counter of [main] gives, for every code, the number of
    anomalous rows of the file that carry it, and 0 for a string that is
    not the name of a code. *)
Theorem issue_counts_count_rows (d : date) (df : list Claim) :
  let anomalies := snd (Pandas.validate_data_quality d df) in
  (forall i,
      PandasMain.get (PandasMain.issue_counts anomalies) (issue_name i) 0
      = List.length (filter (carries i) anomalies))
  /\ (forall k, (forall i, k <> issue_name i) ->
                PandasMain.get (PandasMain.issue_counts anomalies) k 0 = 0).
Proof.
  cbv zeta. split.
  - intros i. apply issue_counts_rows. intros r Hr.
    apply in_pandas_anomalies in Hr. destruct Hr as (-> & _).
    apply pandas_issues_NoDup.
  - intros k Hk. unfold PandasMain.issue_counts.
    rewrite issue_counts_from. simpl PandasMain.get.
    induction (snd (Pandas.validate_data_quality d df)) as [|r rows IH];
      [reflexivity|].
    cbn [map PandasMain.sum fold_right].
    rewrite (count_not_a_name _ k Hk). exact IH.
Qed.

Lemma issue_counts_count_rows_witness :
  PandasMain.get
    (PandasMain.issue_counts
       (snd (Pandas.validate_data_quality
               Sample.today [Sample.no_status; Sample.odd_status])))
    "NOT_A_CODE" 0
  = 0.
Proof.
  apply (proj2 (issue_counts_count_rows
                  Sample.today [Sample.no_status; Sample.odd_status])).
  intros i. destruct i; discriminate.
Defined.

(** ** The most frequent issues of a file *)

Lemma insert_desc_perm x l : Permutation (PandasMain.insert_desc x l) (x :: l).
Proof.
  induction l as [|y l IH]; simpl; [reflexivity|].
  destruct (snd y <=? snd x); [reflexivity|].
  rewrite IH. apply perm_swap.
Qed.

Lemma sorted_desc_perm l : Permutation (PandasMain.sorted_desc l) l.
Proof.
  induction l as [|x l IH]; simpl; [reflexivity|].
  rewrite insert_desc_perm. constructor. exact IH.
Qed.

Lemma insert_desc_sorted x l :
  StronglySorted count_ge l ->
  StronglySorted count_ge (PandasMain.insert_desc x l).
Proof.
  induction 1 as [|y l Hs IH Hy]; simpl.
  - constructor; constructor.
  - destruct (snd y <=? snd x) eqn:E.
    + apply Nat.leb_le in E. constructor.
      * constructor; assumption.
      * constructor; [exact E|].
        eapply Forall_impl; [|exact Hy].
        unfold count_ge. intros z Hz. lia.
    + apply Nat.leb_gt in E. constructor; [exact IH|].
      apply Forall_forall. intros z Hz.
      apply (Permutation_in _ (insert_desc_perm x l)) in Hz.
      destruct Hz as [<- | Hz].
      * unfold count_ge. lia.
      * rewrite Forall_forall in Hy. apply Hy. exact Hz.
Qed.

Lemma sorted_desc_sorted l : StronglySorted count_ge (PandasMain.sorted_desc l).
Proof.
  induction l as [|x l IH]; simpl; [constructor|].
  apply insert_desc_sorted. exact IH.
Qed.

(** Items of equal count keep their order: the sort is stable. *)
Lemma insert_desc_stable n x l :
  filter (fun y => snd y =? n) (PandasMain.insert_desc x l)
  = filter (fun y => snd y =? n) (x :: l).
Proof.
  induction l as [|y l IH]; [reflexivity|].
  cbn [PandasMain.insert_desc].
  destruct (snd y <=? snd x) eqn:E; [reflexivity|].
  apply Nat.leb_gt in E.
  cbn [filter] in *. rewrite IH.
  destruct (snd x =? n) eqn:X; [|reflexivity].
  apply Nat.eqb_eq in X.
  assert (Y : (snd y =? n) = false) by (apply Nat.eqb_neq; lia).
  rewrite Y. reflexivity.
Qed.

Lemma sorted_desc_stable n l :
  filter (fun y => snd y =? n) (PandasMain.sorted_desc l)
  = filter (fun y => snd y =? n) l.
Proof.
  induction l as [|x l IH]; [reflexivity|].
  cbn [PandasMain.sorted_desc fold_right].
  fold (PandasMain.sorted_desc l).
  rewrite insert_desc_stable. cbn [filter]. rewrite IH. reflexivity.
Qed.

Lemma sorted_firstn_skipn k (l : list (string * nat)) x y :
  StronglySorted count_ge l ->
  In x (firstn k l) -> In y (skipn k l) -> snd y <= snd x.
Proof.
  revert l. induction k as [|k IH]; intros l Hs Hx Hy; [destruct Hx|].
  destruct l as [|a l]; [destruct Hx|].
  inversion Hs as [|? ? Hs' Ha]; subst.
  simpl in Hx, Hy. destruct Hx as [<- | Hx].
  - rewrite Forall_forall in Ha. apply (Ha y).
    rewrite <- (firstn_skipn k l). apply in_or_app. right; exact Hy.
  - apply (IH l); assumption.
Qed.

Lemma in_set d k v kv :
  In kv (PandasMain.set d k v) -> In kv d \/ kv = (k, v).
Proof.
  induction d as [|[a b] d IH]; simpl.
  - intros [<- | []]. auto.
  - destruct (String.eqb a k) eqn:E; simpl.
    + apply String.eqb_eq in E. subst a. intros [<- | H]; auto.
    + intros [<- | H]; auto. destruct (IH H); auto.
Qed.

Lemma keys_set d k v x :
  In x (map fst (PandasMain.set d k v)) <-> In x (map fst d) \/ x = k.
Proof.
  induction d as [|[a b] d IH]; simpl.
  - intuition.
  - destruct (String.eqb a k) eqn:E; simpl.
    + apply String.eqb_eq in E. subst a. intuition.
    + rewrite IH. intuition.
Qed.

Lemma set_NoDup d k v :
  NoDup (map fst d) -> NoDup (map fst (PandasMain.set d k v)).
Proof.
  induction d as [|[a b] d IH]; simpl; intros H.
  - constructor; [intros []|constructor].
  - inversion H as [|? ? Ha Hd]; subst.
    destruct (String.eqb a k) eqn:E; simpl.
    + constructor; assumption.
    + constructor; [|apply IH; exact Hd].
      rewrite keys_set. intros [X | X]; [contradiction|].
      apply String.eqb_neq in E. congruence.
Qed.

Lemma set_ok d i v : counter_ok d -> 0 < v ->
  counter_ok (PandasMain.set d (issue_name i) v).
Proof.
  intros [Hn Hf] Hv. split; [apply set_NoDup; exact Hn|].
  apply Forall_forall. intros kv Hkv. apply in_set in Hkv.
  destruct Hkv as [Hkv | ->].
  - rewrite Forall_forall in Hf. apply Hf. exact Hkv.
  - simpl. eauto.
Qed.

Lemma count_row_ok d l :
  counter_ok d -> counter_ok (PandasMain.count_row d (render_issues l)).
Proof.
  unfold PandasMain.count_row. rewrite split_render.
  rewrite fold_left_app. cbn [fold_left]. rewrite String.eqb_refl.
  revert d. induction l as [|i l IH]; intros d Hd; [exact Hd|].
  cbn [map fold_left]. rewrite issue_name_nonempty.
  apply IH. apply set_ok; [exact Hd | lia].
Qed.

Lemma issue_counts_ok rows : counter_ok (PandasMain.issue_counts rows).
Proof.
  unfold PandasMain.issue_counts.
  assert (H : counter_ok []) by (split; constructor).
  revert H. generalize (@nil (string * nat)).
  induction rows as [|r rows IH]; intros d0 H; [exact H|].
  cbn [map fold_left]. apply IH. apply count_row_ok. exact H.
Qed.

Lemma get_of_entry d k n default :
  NoDup (map fst d) -> In (k, n) d -> PandasMain.get d k default = n.
Proof.
  induction d as [|[a b] d IH]; simpl; intros Hn H; [destruct H|].
  inversion Hn as [|? ? Ha Hd]; subst.
  destruct H as [E | H].
  - injection E as -> ->. rewrite String.eqb_refl. reflexivity.
  - destruct (String.eqb a k) eqn:E; [|apply IH; assumption].
    apply String.eqb_eq in E. subst a.
    exfalso. apply Ha. apply (in_map fst) in H. exact H.
Qed.

(** X10. The issues shown for a file are at most five, in decreasing order
    of count; each is a code with the number of anomalous rows that carry
    it, at least one; every counted code that is not shown has a count no
    larger than the ones shown; and codes of equal count come in the order
    in which they were first met. *)
Theorem top_issues_are_the_most_frequent (d : date) (df : list Claim) :
  let rep := PandasMain.process_file d df in
  let counts := PandasMain.issue_counts (PandasMain.anomaly_df rep) in
  List.length (PandasMain.top_issues rep) <= 5
  /\ StronglySorted count_ge (PandasMain.top_issues rep)
  /\ (forall k n, In (k, n) (PandasMain.top_issues rep) ->
        0 < n
        /\ exists i, k = issue_name i
                     /\ n = List.length
                              (filter (carries i)
                                      (PandasMain.anomaly_df rep)))
  /\ (forall x y, In x (PandasMain.top_issues rep) -> In y counts ->
                  ~ In y (PandasMain.top_issues rep) -> snd y <= snd x)
  /\ (forall n, filter (fun y => snd y =? n) (PandasMain.sorted_desc counts)
                = filter (fun y => snd y =? n) counts).
Proof.
  cbv zeta.
  assert (T : PandasMain.top_issues (PandasMain.process_file d df)
              = firstn 5 (PandasMain.sorted_desc
                            (PandasMain.issue_counts
                               (snd (Pandas.validate_data_quality d df))))).
  { unfold PandasMain.process_file.
    destruct (Pandas.validate_data_quality d df) as [cl an].
    cbn [PandasMain.top_issues snd].
    destruct an as [|r an]; reflexivity. }
  destruct (process_file_counts d df) as (_ & _ & _ & _ & -> & _).
  rewrite T.
  set (counts := PandasMain.issue_counts
                   (snd (Pandas.validate_data_quality d df))).
  pose proof (sorted_desc_sorted counts) as Hs.
  pose proof (issue_counts_ok (snd (Pandas.validate_data_quality d df)))
    as [Hn Hf]. fold counts in Hn, Hf.
  split; [apply firstn_le_length|]. split; [|split; [|split]].
  - rewrite <- (firstn_skipn 5 (PandasMain.sorted_desc counts)) in Hs.
    clear - Hs. revert Hs.
    generalize (firstn 5 (PandasMain.sorted_desc counts)).
    generalize (skipn 5 (PandasMain.sorted_desc counts)).
    intros rest top. induction top as [|a top IH]; intros Hs;
      [constructor|].
    simpl in Hs. inversion Hs as [|? ? Hs' Ha]; subst.
    constructor; [apply IH; exact Hs'|].
    apply Forall_forall. intros x Hx. rewrite Forall_forall in Ha.
    apply Ha. apply in_or_app. left; exact Hx.
  - intros k n Hk.
    assert (Hin : In (k, n) counts).
    { apply (Permutation_in _ (sorted_desc_perm counts)).
      rewrite <- (firstn_skipn 5 (PandasMain.sorted_desc counts)).
      apply in_or_app. left; exact Hk. }
    rewrite Forall_forall in Hf. destruct (Hf _ Hin) as [[i Ei] Hp].
    simpl in Ei, Hp. split; [exact Hp|]. exists i. split; [exact Ei|].
    rewrite <- (get_of_entry counts k n 0 Hn Hin). subst k.
    unfold counts. apply issue_counts_rows. intros r Hr.
    apply in_pandas_anomalies in Hr. destruct Hr as (-> & _).
    apply pandas_issues_NoDup.
  - intros x y Hx Hy Hny.
    apply (sorted_firstn_skipn 5 (PandasMain.sorted_desc counts));
      [exact Hs | exact Hx|].
    apply (Permutation_in _ (Permutation_sym (sorted_desc_perm counts)))
      in Hy.
    rewrite <- (firstn_skipn 5 (PandasMain.sorted_desc counts)) in Hy.
    apply in_app_or in Hy. destruct Hy as [Hy | Hy]; [contradiction|].
    exact Hy.
  - intros n. apply sorted_desc_stable.
Qed.

(** ** How far from the mean a member of a small group can be *)














(** ** The order of the rows does not matter *)










(** ** The other groups do not matter *)






(** * Around the job *)

(** ** The folder of a key *)

Lemma split_no_sep ch s :
  GluePush.contains ch s = false -> PandasMain.split ch s = [s].
Proof.
  induction s as [|c r IH]; simpl; [reflexivity|]. intros H.
  apply orb_false_iff in H. destruct H as [Hc Hr].
  rewrite Hc, (IH Hr). reflexivity.
Qed.

Lemma split_head ch d rest :
  GluePush.contains ch d = false ->
  hd EmptyString (PandasMain.split ch (d ++ String ch rest)%string) = d.
Proof.
  induction d as [|c r IH]; simpl; intros H.
  - rewrite Ascii.eqb_refl. reflexivity.
  - apply orb_false_iff in H. destruct H as [Hc Hr]. rewrite Hc.
    specialize (IH Hr).
    destruct (PandasMain.split ch (r ++ String ch rest)%string); simpl in *.
    + subst r. reflexivity.
    + subst. reflexivity.
Qed.

Lemma contains_app ch a b :
  GluePush.contains ch (a ++ b)%string
  = GluePush.contains ch a || GluePush.contains ch b.
Proof.
  induction a as [|c r IH]; simpl; [reflexivity|].
  rewrite IH. apply orb_assoc.
Qed.

(** A string with the character splits at its first occurrence. *)
Lemma contains_split ch s :
  GluePush.contains ch s = true ->
  exists d rest, s = (d ++ String ch rest)%string
                 /\ GluePush.contains ch d = false.
Proof.
  induction s as [|c r IH]; simpl; [discriminate|]. intros H.
  destruct (Ascii.eqb c ch) eqn:E.
  - apply Ascii.eqb_eq in E. subst c. exists EmptyString, r. auto.
  - simpl in H. destruct (IH H) as (d & rest & -> & Hd).
    exists (String c d), rest. simpl. rewrite E, Hd. auto.
Qed.

Lemma folder_prefix_of_key d rest :
  GluePush.contains "/"%char d = false ->
  GluePush.folder_prefix (d ++ String "/"%char rest)%string
  = (d ++ "/")%string.
Proof.
  intros H. unfold GluePush.folder_prefix.
  rewrite contains_app. simpl. rewrite orb_true_r.
  rewrite (split_head "/"%char d rest H). reflexivity.
Qed.

Lemma folder_prefix_plain s :
  GluePush.contains "/"%char s = false -> GluePush.folder_prefix s = s.
Proof. intros H. unfold GluePush.folder_prefix. rewrite H. reflexivity. Qed.

Lemma append_assoc_string (a b c : string) :
  ((a ++ b) ++ c = a ++ (b ++ c))%string.
Proof. induction a as [|x r IH]; simpl; [reflexivity|]. rewrite IH. reflexivity. Qed.

Lemma prefix_app a b : String.prefix a (a ++ b)%string = true.
Proof.
  induction a as [|c r IH]; simpl.
  - destruct b; reflexivity.
  - destruct (ascii_dec c c) as [_|N]; [exact IH|congruence].
Qed.

(** X14. The folder under which the job publishes its aggregated metrics:
    a key without ["/"] is its own folder; otherwise the folder is the part
    of the key up to and including its first ["/"].  It is a prefix of the
    key, and taking the folder of a folder changes nothing. *)
Theorem folder_prefix_is_the_first_folder (source_file : string) :
  (GluePush.contains "/"%char source_file = false ->
   GluePush.folder_prefix source_file = source_file)
  /\ (forall d rest,
         source_file = (d ++ String "/"%char rest)%string ->
         GluePush.contains "/"%char d = false ->
         GluePush.folder_prefix source_file = (d ++ "/")%string)
  /\ String.prefix (GluePush.folder_prefix source_file) source_file = true
  /\ GluePush.folder_prefix (GluePush.folder_prefix source_file)
     = GluePush.folder_prefix source_file.
Proof.
  split; [apply folder_prefix_plain|].
  split; [intros d rest -> H; apply folder_prefix_of_key; exact H|].
  destruct (GluePush.contains "/"%char source_file) eqn:E.
  - destruct (contains_split _ _ E) as (d & rest & -> & Hd).
    rewrite (folder_prefix_of_key d rest Hd). split.
    + change (String "/"%char rest) with ("/" ++ rest)%string.
      rewrite <- (append_assoc_string d "/" rest).
      apply prefix_app.
    + change ("/"%string) with (String "/"%char EmptyString).
      apply folder_prefix_of_key. exact Hd.
  - rewrite (folder_prefix_plain _ E). split.
    + rewrite <- (append_empty_r source_file) at 2. apply prefix_app.
    + apply folder_prefix_plain. exact E.
Qed.

(** ** What one run publishes *)

Lemma published_as_file metrics source_file n :
  In n metric_names ->
  published_as n source_file (GluePush.metric_data metrics source_file)
  = [ {| CloudWatch.MetricName := n;
         CloudWatch.Value := metric_value metrics n;
         CloudWatch.Unit :=
           if String.eqb n "DataQualityScore" || String.eqb n "AnomalyRate"
           then "Percent" else "Count";
         CloudWatch.Dimensions := [("SourceFile", source_file)] |} ]%string.
Proof.
  intros H. unfold metric_names in H. simpl in H.
  unfold published_as, GluePush.metric_data.
  repeat (destruct H as [<- | H]; [cbn; rewrite !String.eqb_refl; reflexivity|]).
  destruct H.
Qed.

Lemma published_as_other metrics source_file n v :
  v <> source_file ->
  published_as n v (GluePush.metric_data metrics source_file) = [].
Proof.
  intros H. apply String.eqb_neq in H.
  unfold published_as, GluePush.metric_data. cbn.
  rewrite (String.eqb_sym source_file v), H, !andb_false_r. reflexivity.
Qed.

Lemma published_as_app n v a b :
  published_as n v (a ++ b) = published_as n v a ++ published_as n v b.
Proof. unfold published_as. apply filter_app. Qed.

(** X15. One run publishes each of its seven metrics twice in one call of
    fourteen entries: once under the key of the file and once, with the
    same value, under its folder.  When the key is its own folder (a key
    without ["/"], or the folder itself as in a restart on ["claims/"]) the
    two entries are the same data point, published twice. *)
Theorem each_metric_is_published_for_file_and_folder
        (metrics : Glue.Metrics) (source_file n : string) :
  In n metric_names ->
  let data := GluePush.push_metrics_to_cloudwatch metrics source_file in
  let folder := GluePush.folder_prefix source_file in
  List.length data = 14
  /\ (folder <> source_file ->
      (exists u,
          published_as n source_file data
          = [CloudWatch.mkMetricDatum n (metric_value metrics n) u
                                      [("SourceFile"%string, source_file)]]
          /\ published_as n folder data
             = [CloudWatch.mkMetricDatum n (metric_value metrics n) u
                                         [("SourceFile"%string, folder)]]))
  /\ (folder = source_file ->
      exists u,
        let d := CloudWatch.mkMetricDatum n (metric_value metrics n) u
                                          [("SourceFile"%string, source_file)]
        in published_as n source_file data = [d; d]).
Proof.
  intros H data folder. subst data.
  unfold GluePush.push_metrics_to_cloudwatch. fold folder.
  split; [reflexivity|]. split.
  - intros N. eexists.
    rewrite !published_as_app.
    change (GluePush.aggregated_metric_data metrics folder)
      with (GluePush.metric_data metrics folder).
    rewrite (published_as_file metrics source_file n H).
    rewrite (published_as_file metrics folder n H).
    rewrite (published_as_other metrics source_file n folder N).
    rewrite (published_as_other metrics folder n source_file
                                (fun E => N (eq_sym E))).
    split; reflexivity.
  - intros E. eexists. rewrite E.
    rewrite !published_as_app.
    change (GluePush.aggregated_metric_data metrics source_file)
      with (GluePush.metric_data metrics source_file).
    rewrite (published_as_file metrics source_file n H). reflexivity.
Qed.

Lemma each_metric_is_published_for_file_and_folder_witness :
  List.length
    (GluePush.push_metrics_to_cloudwatch
       (Glue.dq_metrics (Glue.run Sample.today Sample.spread_batch))
       "claims/payer_claims_20240101_000000.csv")
  = 14.
Proof.
  apply (each_metric_is_published_for_file_and_folder
           (Glue.dq_metrics (Glue.run Sample.today Sample.spread_batch))
           "claims/payer_claims_20240101_000000.csv" "AnomalyCount").
  simpl. tauto.
Defined.

(** ** What the dashboard reads of a run *)

Lemma selects_source_file n d v :
  CloudWatch.Dimensions d = [("SourceFile"%string, v)] ->
  CloudWatch.selects
    (Dashboard.fetch_cloudwatch_metrics_query
       Dashboard.CLOUDWATCH_NAMESPACE_DQ n)
    Dashboard.CLOUDWATCH_NAMESPACE_DQ d
  = String.eqb (CloudWatch.MetricName d) n && String.eqb v "claims/".
Proof.
  intros H.
  unfold CloudWatch.selects, Dashboard.fetch_cloudwatch_metrics_query,
    CloudWatch.dimensions_in, CloudWatch.dimension_eqb.
  rewrite H.
  cbn [CloudWatch.query_Namespace CloudWatch.query_MetricName
       CloudWatch.query_Dimensions forallb existsb fst snd].
  rewrite !String.eqb_refl.
  rewrite (String.eqb_sym n), (String.eqb_sym "claims/" v).
  destruct (String.eqb (CloudWatch.MetricName d) n),
    (String.eqb v "claims/"); reflexivity.
Qed.

Lemma selected_are_published n data :
  Forall (fun d => exists v,
              CloudWatch.Dimensions d = [("SourceFile"%string, v)]) data ->
  filter (CloudWatch.selects
            (Dashboard.fetch_cloudwatch_metrics_query
               Dashboard.CLOUDWATCH_NAMESPACE_DQ n)
            Dashboard.CLOUDWATCH_NAMESPACE_DQ) data
  = published_as n "claims/" data.
Proof.
  intros H. unfold published_as. apply filter_ext_in. intros d Hd.
  rewrite Forall_forall in H. destruct (H d Hd) as [v Hv].
  rewrite (selects_source_file n d v Hv), Hv.
  rewrite String.eqb_refl. reflexivity.
Qed.

Lemma push_dimensions metrics source_file :
  Forall (fun d => exists v,
              CloudWatch.Dimensions d = [("SourceFile"%string, v)])
         (GluePush.push_metrics_to_cloudwatch metrics source_file).
Proof.
  unfold GluePush.push_metrics_to_cloudwatch, GluePush.metric_data,
    GluePush.aggregated_metric_data.
  repeat (apply Forall_cons; [eexists; reflexivity|]).
  cbn. repeat (apply Forall_cons; [eexists; reflexivity|]).
  apply Forall_nil.
Qed.

Lemma folder_of_claims rest :
  GluePush.folder_prefix ("claims/" ++ rest)%string = "claims/"%string.
Proof.
  change ("claims/" ++ rest)%string
    with ("claims" ++ String "/"%char rest)%string.
  apply (folder_prefix_of_key "claims" rest). reflexivity.
Qed.



(** ** The summary of the dashboard *)

Lemma substring_in_app needle p s :
  Dashboard.substring_in needle s = true ->
  Dashboard.substring_in needle (p ++ s)%string = true.
Proof.
  intros H. induction p as [|c r IH]; [exact H|].
  change (String c r ++ s)%string with (String c (r ++ s)%string).
  cbn [Dashboard.substring_in]. rewrite IH. apply orb_true_r.
Qed.

Lemma int_inject_Z z : Dashboard.int (inject_Z z) = z.
Proof. unfold Dashboard.int. simpl. apply Z.quot_1_r. Qed.

Lemma metric_value_counts raw clean fail out :
  let m := Glue.calculate_dq_metrics raw clean fail out in
  metric_value m "AnomalyCount" = inject_Z (Glue.total_anomalies m)
  /\ metric_value m "SilverRecords" = inject_Z (Glue.silver_records m)
  /\ metric_value m "TotalRecords" = inject_Z (Glue.total_records m)
  /\ metric_value m "GoldRecords" = inject_Z (Glue.gold_records m).
Proof. repeat split. Qed.

(** The file metric of a run is the only one the summary keeps. *)
Lemma file_dimensions_of_a_run all_metrics name :
  Dashboard.substring_in "payer_claims" name = true ->
  (forall dims,
      In dims all_metrics
      <-> dims = [("SourceFile", "claims/" ++ name)]%string
          \/ dims = [("SourceFile", "claims/")]%string) ->
  exists rest,
    Dashboard.file_dimensions all_metrics
    = [("SourceFile", "claims/" ++ name)]%string :: rest.
Proof.
  intros Hn Hall.
  assert (Hfile : forall dims,
             In dims (Dashboard.file_dimensions all_metrics) ->
             dims = [("SourceFile", "claims/" ++ name)]%string).
  { intros dims Hd. unfold Dashboard.file_dimensions in Hd.
    apply filter_In in Hd. destruct Hd as [Hin Hf].
    apply Hall in Hin. destruct Hin as [-> | ->]; [reflexivity|].
    cbn [negb andb] in Hf. rewrite String.eqb_refl in Hf. discriminate. }
  assert (Hin : In [("SourceFile", "claims/" ++ name)]%string
                   (Dashboard.file_dimensions all_metrics)).
  { unfold Dashboard.file_dimensions. apply filter_In. split.
    - apply Hall. left. reflexivity.
    - apply andb_true_intro. split.
      + apply negb_true_iff. apply String.eqb_neq. intros E.
        apply (f_equal String.length) in E. rewrite length_append in E.
        destruct name; [discriminate Hn|simpl in E; lia].
      + apply (substring_in_app "payer_claims" "claims/" name Hn). }
  destruct (Dashboard.file_dimensions all_metrics) as [|x rest];
    [destruct Hin|].
  exists rest. f_equal. apply Hfile. left. reflexivity.
Qed.

(** X17. The summary of the dashboard shows the run of a generated file.
    When CloudWatch lists the two [TotalRecords] metrics that a run on the
    key ["claims/" ++ name] published, with [payer_claims] in the name,
    and answers each query on the file with data points of which the
    latest carries the published value, the summary shows the counts of
    the run and its [dq_score] is the [DataQualityScore] of the run. *)
Theorem dashboard_summary_shows_the_run
        (cw : Dashboard.Clients) (raw clean fail out : Z)
        (name : string) (all_metrics : list (list (string * string))) :
  let metrics := Glue.calculate_dq_metrics raw clean fail out in
  let source_file := ("claims/" ++ name)%string in
  Dashboard.substring_in "payer_claims" name = true ->
  Dashboard.list_metrics cw Dashboard.CLOUDWATCH_NAMESPACE_DQ "TotalRecords"
  = Some all_metrics ->
  (forall dims,
      In dims all_metrics
      <-> In dims
             (map CloudWatch.Dimensions
                  (published_as
                     "TotalRecords" source_file
                     (GluePush.push_metrics_to_cloudwatch
                        metrics source_file)
                   ++ published_as
                        "TotalRecords" (GluePush.folder_prefix source_file)
                        (GluePush.push_metrics_to_cloudwatch
                           metrics source_file)))) ->
  (forall n, In n metric_names ->
             exists x r,
               Dashboard.get_metric_statistics
                 cw
                 {| CloudWatch.query_Namespace :=
                      Dashboard.CLOUDWATCH_NAMESPACE_DQ;
                    CloudWatch.query_MetricName := n;
                    CloudWatch.query_Dimensions :=
                      [("SourceFile"%string, source_file)] |}
               = Some (x :: r)
               /\ Dashboard.Maximum (Dashboard.latest_from x r)
                  = metric_value metrics n) ->
  Dashboard.fetch_anomaly_summary (Some cw)
  = {| Dashboard.total_anomalies := Glue.total_anomalies metrics;
       Dashboard.data_quality_issues := Glue.silver_records metrics;
       Dashboard.total_records := Glue.total_records metrics;
       Dashboard.gold_records := Glue.gold_records metrics;
       Dashboard.dq_score := Glue.data_quality_score metrics |}.
Proof.
  intros metrics source_file Hn Hlist Hall Hget.
  assert (Hname : name <> EmptyString)
    by (intros ->; discriminate Hn).
  assert (Hdims : forall dims,
             In dims all_metrics
             <-> dims = [("SourceFile", "claims/" ++ name)]%string
                 \/ dims = [("SourceFile", "claims/")]%string).
  { intros dims. rewrite (Hall dims). subst source_file.
    rewrite folder_of_claims.
    unfold GluePush.push_metrics_to_cloudwatch.
    rewrite folder_of_claims, !published_as_app.
    change (GluePush.aggregated_metric_data metrics "claims/")
      with (GluePush.metric_data metrics "claims/").
    assert (T : In "TotalRecords"%string metric_names) by (simpl; tauto).
    rewrite (published_as_file metrics _ "TotalRecords" T).
    rewrite (published_as_file metrics "claims/" "TotalRecords" T).
    assert (N : ("claims/" ++ name)%string <> "claims/"%string).
    { intros E. apply (f_equal String.length) in E.
      rewrite length_append in E.
      destruct name; [congruence|simpl in E; lia]. }
    rewrite (published_as_other metrics "claims/" "TotalRecords" _ N).
    rewrite (published_as_other metrics _ "TotalRecords" "claims/"
                                (fun E => N (eq_sym E))).
    simpl. intuition congruence. }
  destruct (file_dimensions_of_a_run all_metrics name Hn Hdims)
    as [rest Hfile].
  unfold Dashboard.fetch_anomaly_summary. rewrite Hlist, Hfile.
  cbn [hd snd]. fold source_file.
  destruct (metric_value_counts raw clean fail out) as (Va & Vs & Vt & Vg).
  fold metrics in Va, Vs, Vt, Vg.
  unfold Dashboard.fetch_one.
  destruct (Hget "AnomalyCount"%string) as (xa & ra & -> & Ea);
    [simpl; tauto|].
  destruct (Hget "SilverRecords"%string) as (xs & rs & -> & Es);
    [simpl; tauto|].
  destruct (Hget "TotalRecords"%string) as (xt & rt & -> & Et);
    [simpl; tauto|].
  destruct (Hget "GoldRecords"%string) as (xg & rg & -> & Eg);
    [simpl; tauto|].
  rewrite Ea, Es, Et, Eg, Va, Vs, Vt, Vg, !int_inject_Z.
  reflexivity.
Qed.

Lemma dashboard_summary_shows_the_run_witness :
  Dashboard.fetch_anomaly_summary
    (Some (cloudwatch_after
             "DQAD/DataQuality" 0
             (GluePush.push_metrics_to_cloudwatch
                (Glue.calculate_dq_metrics 5 4 1 1)
                "claims/payer_claims_20240101_000000.csv")))
  = {| Dashboard.total_anomalies := 2;
       Dashboard.data_quality_issues := 1;
       Dashboard.total_records := 5;
       Dashboard.gold_records := 3;
       Dashboard.dq_score := (inject_Z 3 / inject_Z 5 * 100)%Q |}.
Proof.
  apply (dashboard_summary_shows_the_run
           (cloudwatch_after
              "DQAD/DataQuality" 0
              (GluePush.push_metrics_to_cloudwatch
                 (Glue.calculate_dq_metrics 5 4 1 1)
                 "claims/payer_claims_20240101_000000.csv"))
           5 4 1 1 "payer_claims_20240101_000000.csv"
           [ [("SourceFile", "claims/payer_claims_20240101_000000.csv")];
             [("SourceFile", "claims/")] ]%string).
  - reflexivity.
  - reflexivity.
  - intros dims. apply iff_refl.
  - intros n Hn. simpl in Hn.
    repeat (destruct Hn as [<- | Hn];
            [eexists; eexists; split; reflexivity|]).
    destruct Hn.
Defined.

(** ** The trigger *)

Section Trigger.

Variables JOB RAW PROC NS : string.
Variable glue : list GlueTrigger.Call -> GlueTrigger.Outcome string.

Let loop := GlueTrigger.for_records JOB RAW PROC NS glue.
Let handler := GlueTrigger.lambda_handler JOB RAW PROC NS glue.

(** What is asked of Glue for a record. *)
Let job_of (r : GlueTrigger.S3Record) :=
  (JOB, Some (GlueTrigger.object_key r), Some RAW, Some PROC, Some NS).

Let asked (ja : string * list (string * string)) :=
  (fst ja,
   GlueTrigger.lookup "--S3_INPUT_KEY" (snd ja),
   GlueTrigger.lookup "--S3_RAW_BUCKET" (snd ja),
   GlueTrigger.lookup "--S3_PROCESSED_BUCKET" (snd ja),
   GlueTrigger.lookup "--CLOUDWATCH_NAMESPACE" (snd ja)).

Lemma started_app a b :
  GlueTrigger.started (a ++ b)
  = GlueTrigger.started a ++ GlueTrigger.started b.
Proof. unfold GlueTrigger.started. apply flat_map_app. Qed.

Lemma pushed_app a b :
  GlueTrigger.pushed (a ++ b)
  = GlueTrigger.pushed a ++ GlueTrigger.pushed b.
Proof. unfold GlueTrigger.pushed. apply flat_map_app. Qed.

(** The loop when every job starts: the calls it adds, and the last
    identifier. *)
Lemma loop_when_jobs_start records :
  (forall log, exists id, glue log = GlueTrigger.Return id) ->
  forall log response,
  exists more last,
    loop records log response = (log ++ more, GlueTrigger.Return last)
    /\ map asked (GlueTrigger.started more)
       = map job_of (GlueTrigger.created records)
    /\ List.length (GlueTrigger.pushed more)
       = List.length (GlueTrigger.created records)
    /\ (GlueTrigger.created records = [] -> more = [] /\ last = response)
    /\ (GlueTrigger.created records <> [] ->
        exists before s m id,
          more = before ++ [s; m]
          /\ GlueTrigger.started [s; m] = GlueTrigger.started [s]
          /\ GlueTrigger.started [s] <> []
          /\ glue (log ++ before ++ [s]) = GlueTrigger.Return id
          /\ last = Some id).
Proof.
  intros Hok. induction records as [|r records IH]; intros log response.
  - exists [], response. simpl. rewrite app_nil_r.
    repeat split; auto. intros N. congruence.
  - unfold loop. cbn [GlueTrigger.for_records GlueTrigger.created filter].
    fold (GlueTrigger.created records). fold loop.
    destruct (String.prefix "ObjectCreated" (GlueTrigger.eventName r)).
    + unfold GlueTrigger.start_glue_job.
      set (s := GlueTrigger.start_job_run JOB _).
      destruct (Hok (log ++ [s])) as [id Hid]. rewrite Hid.
      unfold GlueTrigger.push_trigger_metric.
      set (m := GlueTrigger.put_metric_data NS _).
      destruct (IH ((log ++ [s]) ++ [m]) (Some id))
        as (more & last & E & Hs & Hp & Hnil & Hcons).
      exists ([s; m] ++ more), last.
      split; [rewrite E, <- !app_assoc; reflexivity|].
      split; [rewrite started_app, map_app, Hs; subst s; reflexivity|].
      split; [rewrite pushed_app, length_app, Hp; reflexivity|].
      split; [intros N; discriminate N|]. intros _.
      destruct (GlueTrigger.created records) as [|r' rs] eqn:Ec.
      * destruct (Hnil eq_refl) as [-> ->].
        exists [], s, m, id. rewrite app_nil_r.
        repeat split; try reflexivity; [subst s; discriminate|exact Hid].
      * destruct Hcons as (before & s' & m' & id' & -> & H1 & H2 & H3 & ->);
          [discriminate|].
        exists ([s; m] ++ before), s', m', id'.
        repeat split; auto.
        rewrite <- H3. f_equal. rewrite <- !app_assoc. reflexivity.
    + destruct (IH log response) as (more & last & E & Hs & Hp & Hnil & Hcons).
      exists more, last. repeat split; auto; apply Hnil; assumption.
Qed.

(** X18. When Glue starts every job it is asked for, the trigger starts
    one job for each [ObjectCreated] record of the event, in order, named
    by the environment, with the key of the record as [--S3_INPUT_KEY] and
    the buckets and namespace of the environment, and pushes one metric for
    each.  It then answers 200 with the identifier of the last job started;
    with no [ObjectCreated] record it calls nothing and raises
    [UnboundLocalError]. *)
Theorem trigger_starts_one_job_per_created_object
        (event : list GlueTrigger.S3Record) :
  (forall log, exists id, glue log = GlueTrigger.Return id) ->
  let log := fst (handler event) in
  let outcome := snd (handler event) in
  map asked (GlueTrigger.started log)
  = map job_of (GlueTrigger.created event)
  /\ List.length (GlueTrigger.pushed log)
     = List.length (GlueTrigger.created event)
  /\ (GlueTrigger.created event = [] ->
      log = []
      /\ outcome = GlueTrigger.Raise (GlueTrigger.UnboundLocalError "response"))
  /\ (GlueTrigger.created event <> [] ->
      exists before s m id,
        log = before ++ [s; m]
        /\ GlueTrigger.started [s; m] = GlueTrigger.started [s]
        /\ GlueTrigger.started [s] <> []
        /\ glue (before ++ [s]) = GlueTrigger.Return id
        /\ outcome
           = GlueTrigger.Return
               {| GlueTrigger.statusCode := 200;
                  GlueTrigger.message := "Glue job triggered successfully";
                  GlueTrigger.job_run_id := id |}).
Proof.
  intros Hok log outcome. subst log outcome.
  unfold handler, GlueTrigger.lambda_handler. fold loop.
  destruct (loop_when_jobs_start event Hok [] None)
    as (more & last & E & Hs & Hp & Hnil & Hcons).
  rewrite E. cbn [app].
  destruct (GlueTrigger.created event) as [|r rs] eqn:Ec.
  - destruct (Hnil eq_refl) as [-> ->]. cbn.
    repeat split; auto. intros N. congruence.
  - destruct Hcons as (before & s & m & id & -> & H1 & H2 & H3 & ->);
      [discriminate|].
    cbn [fst snd]. split; [exact Hs|]. split; [exact Hp|].
    split; [intros N; discriminate N|]. intros _.
    exists before, s, m, id. repeat split; auto.
Qed.

(** Without a record to handle the loop does nothing. *)
Lemma loop_when_no_record records :
  GlueTrigger.created records = [] ->
  forall log response,
    loop records log response = (log, GlueTrigger.Return response).
Proof.
  induction records as [|r records IH]; intros Hc log response;
    [reflexivity|].
  unfold loop. cbn [GlueTrigger.for_records].
  unfold GlueTrigger.created in Hc. cbn [filter] in Hc.
  destruct (String.prefix "ObjectCreated" (GlueTrigger.eventName r));
    [discriminate Hc|].
  apply IH. exact Hc.
Qed.

(** The loop in general: it goes on until a job fails to start. *)
Lemma loop_until_failure records :
  forall log response,
  exists more,
    fst (loop records log response) = log ++ more
    /\ match snd (loop records log response) with
       | GlueTrigger.Return last =>
           map asked (GlueTrigger.started more)
           = map job_of (GlueTrigger.created records)
           /\ (GlueTrigger.created records = [] -> last = response)
           /\ (GlueTrigger.created records <> [] -> last <> None)
       | GlueTrigger.Raise e =>
           exists before s n,
             more = before ++ [s]
             /\ GlueTrigger.started [s] <> []
             /\ glue (log ++ more) = GlueTrigger.Raise e
             /\ n < List.length (GlueTrigger.created records)
             /\ map asked (GlueTrigger.started more)
                = firstn (S n) (map job_of (GlueTrigger.created records))
             /\ List.length (GlueTrigger.pushed more) = n
       end.
Proof.
  induction records as [|r records IH]; intros log response.
  - exists []. unfold loop. simpl. rewrite app_nil_r. repeat split; auto.
  - unfold loop. cbn [GlueTrigger.for_records GlueTrigger.created filter].
    fold (GlueTrigger.created records). fold loop.
    destruct (String.prefix "ObjectCreated" (GlueTrigger.eventName r)).
    + unfold GlueTrigger.start_glue_job.
      set (s := GlueTrigger.start_job_run JOB _).
      destruct (glue (log ++ [s])) as [id|e] eqn:Hid.
      * unfold GlueTrigger.push_trigger_metric.
        set (m := GlueTrigger.put_metric_data NS _).
        destruct (IH ((log ++ [s]) ++ [m]) (Some id)) as (more & E & Hm).
        exists ([s; m] ++ more).
        split; [rewrite E, <- !app_assoc; reflexivity|].
        destruct (snd (loop records ((log ++ [s]) ++ [m]) (Some id)))
          as [last|e].
        -- destruct Hm as (Hs & Hnil & Hcons).
           split; [rewrite started_app, map_app, Hs; subst s; reflexivity|].
           split; [intros N; discriminate N|]. intros _.
           destruct (GlueTrigger.created records) as [|r' rs].
           ++ rewrite (Hnil eq_refl). discriminate.
           ++ apply Hcons. discriminate.
        -- destruct Hm as (before & s' & n & -> & H1 & H2 & H3 & H4 & H5).
           exists ([s; m] ++ before), s', (S n).
           split; [rewrite <- app_assoc; reflexivity|].
           split; [exact H1|].
           split; [rewrite <- H2; f_equal; rewrite <- !app_assoc;
                   reflexivity|].
           split; [simpl; lia|].
           split.
           ++ rewrite started_app, map_app, H4. subst s. reflexivity.
           ++ rewrite pushed_app, length_app, H5. reflexivity.
      * exists [s]. split; [reflexivity|]. cbn [snd].
        exists [], s, 0. repeat split; auto.
        -- subst s. discriminate.
        -- simpl. lia.
    + destruct (IH log response) as (more & E & Hm).
      exists more. split; [exact E|]. exact Hm.
Qed.

(** X19. The trigger stops at the first job that Glue does not start: the
    exception is raised again, the call that failed is the last one made,
    the jobs of the records before it have been started in order, each
    with its metric, and the records after it are not looked at.  The only
    other way to fail is an event without [ObjectCreated] record. *)
Theorem trigger_stops_at_the_first_failure
        (event : list GlueTrigger.S3Record) (e : GlueTrigger.Exception) :
  snd (handler event) = GlueTrigger.Raise e ->
  let log := fst (handler event) in
  (GlueTrigger.created event = [] /\ log = []
   /\ e = GlueTrigger.UnboundLocalError "response")
  \/ (exists before s n,
         log = before ++ [s]
         /\ GlueTrigger.started [s] <> []
         /\ glue log = GlueTrigger.Raise e
         /\ n < List.length (GlueTrigger.created event)
         /\ map asked (GlueTrigger.started log)
            = firstn (S n) (map job_of (GlueTrigger.created event))
         /\ List.length (GlueTrigger.pushed log) = n).
Proof.
  unfold handler, GlueTrigger.lambda_handler. fold loop.
  destruct (GlueTrigger.created event) as [|r rs] eqn:Ec.
  - rewrite (loop_when_no_record event Ec [] None). cbn.
    intros H. injection H as <-. left. auto.
  - destruct (loop_until_failure event [] None) as (more & E & Hm).
    rewrite Ec in Hm.
    destruct (loop event [] None) as [log' [last|e']]; cbn [fst snd] in *.
    + destruct Hm as (_ & _ & Hcons).
      destruct last; [intros H; discriminate H|].
      exfalso. apply Hcons; [discriminate|reflexivity].
    + intros H. injection H as <-. right. subst log'. exact Hm.
Qed.

End Trigger.

Lemma trigger_starts_one_job_per_created_object_witness :
  List.length
    (GlueTrigger.pushed
       (fst (GlueTrigger.lambda_handler
               "dqad-etl" "dqad-raw-dev" "dqad-processed-dev"
               "DQAD/DataQuality"
               (fun _ => GlueTrigger.Return "jr_1"%string) sample_event)))
  = List.length (GlueTrigger.created sample_event).
Proof.
  apply (trigger_starts_one_job_per_created_object
           "dqad-etl" "dqad-raw-dev" "dqad-processed-dev" "DQAD/DataQuality"
           (fun _ => GlueTrigger.Return "jr_1"%string) sample_event).
  intros log. exists "jr_1"%string. reflexivity.
Defined.

Lemma trigger_stops_at_the_first_failure_witness :
  snd (GlueTrigger.lambda_handler
         "dqad-etl" "dqad-raw-dev" "dqad-processed-dev" "DQAD/DataQuality"
         (fun _ => GlueTrigger.Raise
                     (GlueTrigger.ServiceError
                        "ConcurrentRunsExceededException"))
         sample_event)
  = GlueTrigger.Raise
      (GlueTrigger.ServiceError "ConcurrentRunsExceededException")
  /\ fst (GlueTrigger.lambda_handler
            "dqad-etl" "dqad-raw-dev" "dqad-processed-dev" "DQAD/DataQuality"
            (fun _ => GlueTrigger.Raise
                        (GlueTrigger.ServiceError
                           "ConcurrentRunsExceededException"))
            sample_event)
     <> [].
Proof.
  assert (H : snd (GlueTrigger.lambda_handler
                     "dqad-etl" "dqad-raw-dev" "dqad-processed-dev"
                     "DQAD/DataQuality"
                     (fun _ => GlueTrigger.Raise
                                 (GlueTrigger.ServiceError
                                    "ConcurrentRunsExceededException"))
                     sample_event)
              = GlueTrigger.Raise
                  (GlueTrigger.ServiceError
                     "ConcurrentRunsExceededException"))
    by reflexivity.
  split; [exact H|].
  destruct (trigger_stops_at_the_first_failure
              "dqad-etl" "dqad-raw-dev" "dqad-processed-dev"
              "DQAD/DataQuality" _ sample_event _ H)
    as [(Hc & _) | (before & s & n & E & _)].
  - discriminate Hc.
  - rewrite E. destruct before; discriminate.
Defined.

(** ** Quarantine *)

Section Quarantine.

Variable LOGS : string.
Variable s3_list :
  list Orchestrator.Call -> Orchestrator.Answer (option (list string)).
Variable s3_copy : list Orchestrator.Call -> Orchestrator.Answer unit.
Variable s3_tag : list Orchestrator.Call -> Orchestrator.Answer unit.
Variable now : list Orchestrator.Call -> string.
Variable bucket : string.

Let loop := Orchestrator.for_contents LOGS s3_copy s3_tag now bucket.
Let quarantine :=
  Orchestrator.quarantine_data LOGS s3_list s3_copy s3_tag now bucket.

(** The copy of a file: from the bucket, to the logs bucket, under
    [quarantine/], a time stamp and the key of the file. *)
Let copy_of (x : string * string * string * string) (k : string) : Prop :=
  let '(sb, sk, b, key) := x in
  sb = bucket /\ sk = k /\ b = LOGS
  /\ exists timestamp,
      key = ("quarantine/" ++ timestamp ++ "/" ++ k)%string.

Let tag_of (k : string) :=
  (bucket, k, [("Status", "Quarantined")]%string).

(** The calls stop at file [n] of [todo], on an answer [a] to the copy or
    to the tagging of that file. *)
Let stopped (log more : list Orchestrator.Call) (todo : list string)
    (n : nat) (a : Orchestrator.Answer unit) : Prop :=
  n < List.length todo
  /\ Forall2 copy_of (Orchestrator.copied more) (firstn (S n) todo)
  /\ ((Orchestrator.tagged more = map tag_of (firstn n todo)
       /\ s3_copy (log ++ more) = a)
      \/ (Orchestrator.tagged more = map tag_of (firstn (S n) todo)
          /\ s3_tag (log ++ more) = a)).

Lemma copied_app a b :
  Orchestrator.copied (a ++ b)
  = Orchestrator.copied a ++ Orchestrator.copied b.
Proof. unfold Orchestrator.copied. apply flat_map_app. Qed.

Lemma tagged_app a b :
  Orchestrator.tagged (a ++ b)
  = Orchestrator.tagged a ++ Orchestrator.tagged b.
Proof. unfold Orchestrator.tagged. apply flat_map_app. Qed.

Lemma stopped_later log c t more todo k n a :
  Orchestrator.copied [c] = [(bucket, k, LOGS,
                              ("quarantine/" ++ now log ++ "/" ++ k)%string)]
  -> Orchestrator.tagged [c] = [] ->
  Orchestrator.copied [t] = [] -> Orchestrator.tagged [t] = [tag_of k] ->
  stopped ((log ++ [c]) ++ [t]) more todo n a ->
  stopped log ([c; t] ++ more) (k :: todo) (S n) a.
Proof.
  intros Hc1 Hc2 Ht1 Ht2 (Hn & Hcp & Htg). unfold stopped.
  split; [simpl; lia|].
  change [c; t] with ([c] ++ [t]).
  rewrite !copied_app, !tagged_app, Hc1, Hc2, Ht1, Ht2.
  split.
  - cbn [app firstn]. constructor; [|exact Hcp].
    unfold copy_of. repeat split; auto. exists (now log). reflexivity.
  - rewrite <- !app_assoc in Htg. cbn [app] in Htg. cbn [app firstn map].
    destruct Htg as [[H1 H2] | [H1 H2]]; [left|right];
      (split; [rewrite H1; reflexivity|exact H2]).
Qed.

(** The loop: it goes through the files of the listing in order, copying
    then tagging each, until a call fails. *)
Lemma loop_calls contents :
  forall log files,
  exists more,
    fst (loop contents log files) = log ++ more
    /\ match snd (loop contents log files) with
       | Orchestrator.Return (Orchestrator.success n fs) =>
           fs = files ++ Orchestrator.files_of contents
           /\ n = List.length fs
           /\ Forall2 copy_of (Orchestrator.copied more)
                      (Orchestrator.files_of contents)
           /\ Orchestrator.tagged more
              = map tag_of (Orchestrator.files_of contents)
           /\ List.length more
              = 2 * List.length (Orchestrator.files_of contents)
       | Orchestrator.Return (Orchestrator.error e n) =>
           exists k,
             n = List.length files + k
             /\ stopped log more (Orchestrator.files_of contents) k
                        (Orchestrator.ClientError e)
       | Orchestrator.Return (Orchestrator.skipped _) => False
       | Orchestrator.Raise e =>
           exists k,
             stopped log more (Orchestrator.files_of contents) k
                     (Orchestrator.OtherException e)
       end.
Proof.
  induction contents as [|key contents IH]; intros log files.
  - exists []. unfold loop. simpl. rewrite !app_nil_r.
    repeat split; constructor.
  - unfold loop.
    cbn [Orchestrator.for_contents Orchestrator.files_of filter].
    fold (Orchestrator.files_of contents). fold loop.
    destruct (Orchestrator.endswith key "/"); cbn [negb]; [apply IH|].
    set (c := Orchestrator.copy_object bucket key LOGS _).
    assert (Hc1 : Orchestrator.copied [c]
                  = [(bucket, key, LOGS,
                      ("quarantine/" ++ now log ++ "/" ++ key)%string)])
      by reflexivity.
    assert (Hc2 : Orchestrator.tagged [c] = []) by reflexivity.
    assert (Stop1 : forall a, s3_copy (log ++ [c]) = a ->
                              stopped log [c]
                                      (key :: Orchestrator.files_of contents)
                                      0 a).
    { intros a Ha. unfold stopped. split; [simpl; lia|]. split.
      - rewrite Hc1. cbn [firstn]. constructor; [|constructor].
        unfold copy_of. repeat split; auto. exists (now log). reflexivity.
      - left. split; [reflexivity|exact Ha]. }
    destruct (s3_copy (log ++ [c])) as [[]|e|e] eqn:Hcopy.
    + set (t := Orchestrator.put_object_tagging bucket key _).
      assert (Ht1 : Orchestrator.copied [t] = []) by reflexivity.
      assert (Ht2 : Orchestrator.tagged [t] = [tag_of key]) by reflexivity.
      assert (Stop2 : forall a, s3_tag ((log ++ [c]) ++ [t]) = a ->
                                stopped log [c; t]
                                        (key :: Orchestrator.files_of contents)
                                        0 a).
      { intros a Ha. unfold stopped. split; [simpl; lia|]. split.
        - change [c; t] with ([c] ++ [t]).
          rewrite copied_app, Hc1, Ht1. cbn [firstn app].
          constructor; [|constructor].
          unfold copy_of. repeat split; auto. exists (now log). reflexivity.
        - right. split; [reflexivity|].
          rewrite <- Ha. f_equal. rewrite <- app_assoc. reflexivity. }
      destruct (s3_tag ((log ++ [c]) ++ [t])) as [[]|e|e] eqn:Htag.
      * destruct (IH ((log ++ [c]) ++ [t]) (files ++ [key]))
          as (more & E & Hm).
        exists ([c; t] ++ more).
        split; [rewrite E, <- !app_assoc; reflexivity|].
        destruct (snd (loop contents ((log ++ [c]) ++ [t]) (files ++ [key])))
          as [[reason|n fs|e n]|e].
        -- exact Hm.
        -- destruct Hm as (Hfs & Hn & Hcp & Htg & Hlen).
           split; [rewrite Hfs, <- app_assoc; reflexivity|].
           split; [exact Hn|].
           change [c; t] with ([c] ++ [t]).
           rewrite !copied_app, !tagged_app, Hc1, Hc2, Ht1, Ht2.
           cbn [app map]. split; [|split].
           ++ constructor; [|exact Hcp].
              unfold copy_of. repeat split; auto.
              exists (now log). reflexivity.
           ++ rewrite Htg. reflexivity.
           ++ cbn [List.length]. rewrite Hlen. lia.
        -- destruct Hm as (k & Hn & Hstop).
           exists (S k). split; [rewrite Hn, length_app; simpl; lia|].
           apply stopped_later; assumption.
        -- destruct Hm as (k & Hstop).
           exists (S k). apply stopped_later; assumption.
      * exists [c; t].
        split; [rewrite <- app_assoc; reflexivity|]. cbn [snd].
        exists 0. split; [lia|]. apply Stop2. reflexivity.
      * exists [c; t].
        split; [rewrite <- app_assoc; reflexivity|]. cbn [snd].
        exists 0. apply Stop2. reflexivity.
    + exists [c]. split; [reflexivity|]. cbn [snd].
      exists 0. split; [lia|]. apply Stop1. reflexivity.
    + exists [c]. split; [reflexivity|]. cbn [snd].
      exists 0. apply Stop1. reflexivity.
Qed.

Lemma quarantine_listing prefix :
  LOGS <> EmptyString ->
  quarantine prefix
  = match s3_list [Orchestrator.list_objects_v2 bucket prefix] with
    | Orchestrator.ClientError e =>
        ([Orchestrator.list_objects_v2 bucket prefix],
         Orchestrator.Return (Orchestrator.error e 0))
    | Orchestrator.OtherException e =>
        ([Orchestrator.list_objects_v2 bucket prefix], Orchestrator.Raise e)
    | Orchestrator.Ok None =>
        ([Orchestrator.list_objects_v2 bucket prefix],
         Orchestrator.Return (Orchestrator.success 0 []))
    | Orchestrator.Ok (Some contents) =>
        loop contents [Orchestrator.list_objects_v2 bucket prefix] []
    end.
Proof.
  intros H. apply String.eqb_neq in H.
  unfold quarantine, Orchestrator.quarantine_data. rewrite H. reflexivity.
Qed.

(** X20. When [quarantine_data] reports success, the logs bucket is
    configured, the files are the keys of the listing that do not end in
    ["/"], in order, and the count is their number; after the listing,
    every file has been copied from the bucket to the logs bucket under
    [quarantine/<time stamp>/<key>] and tagged [Status = Quarantined] in
    place, and nothing else has been called: one call to list and two for
    each file. *)
Theorem quarantine_copies_and_tags_each_file
        (prefix : string) (n : nat) (files : list string) :
  snd (quarantine prefix)
  = Orchestrator.Return (Orchestrator.success n files) ->
  let log := fst (quarantine prefix) in
  LOGS <> EmptyString
  /\ n = List.length files
  /\ (exists listing,
         s3_list [Orchestrator.list_objects_v2 bucket prefix]
         = Orchestrator.Ok listing
         /\ files = Orchestrator.files_of
                      (match listing with
                       | Some contents => contents
                       | None => []
                       end))
  /\ hd_error log = Some (Orchestrator.list_objects_v2 bucket prefix)
  /\ Forall2 copy_of (Orchestrator.copied log) files
  /\ Orchestrator.tagged log = map tag_of files
  /\ List.length log = 1 + 2 * n.
Proof.
  destruct (String.eqb LOGS EmptyString) eqn:EL.
  { unfold quarantine, Orchestrator.quarantine_data. rewrite EL.
    intros H. discriminate H. }
  apply String.eqb_neq in EL. rewrite (quarantine_listing prefix EL).
  destruct (s3_list [Orchestrator.list_objects_v2 bucket prefix])
    as [[contents|]|e|e] eqn:Hl; cbn [fst snd]; try discriminate.
  - destruct (loop_calls contents
                         [Orchestrator.list_objects_v2 bucket prefix] [])
      as (more & E & Hm).
    intros H. rewrite H in Hm. destruct Hm as (Hfs & Hn & Hcp & Htg & Hlen).
    cbn [app] in Hfs. rewrite E. cbn [app hd_error].
    split; [exact EL|]. split; [exact Hn|].
    split; [exists (Some contents); split; [reflexivity|exact Hfs]|].
    split; [reflexivity|].
    change (Orchestrator.list_objects_v2 bucket prefix :: more)
      with ([Orchestrator.list_objects_v2 bucket prefix] ++ more).
    rewrite copied_app, tagged_app. cbn [Orchestrator.copied
      Orchestrator.tagged flat_map app].
    rewrite Hfs. split; [exact Hcp|]. split; [exact Htg|].
    cbn [List.length]. rewrite Hlen, Hn, Hfs. lia.
  - intros H. injection H as <- <-.
    split; [exact EL|]. split; [reflexivity|].
    split; [exists None; split; reflexivity|].
    repeat split. constructor.
Qed.

(** X21. When [quarantine_data] reports an error, either the listing
    failed and nothing else was called, or the copy or the tagging of one
    file failed: the call that failed is the last one, the count is the
    number of files copied and tagged before that file, and the file
    itself is not counted although it has been copied (and tagged, if it
    is the tagging that was answered by an error). *)
Theorem quarantine_counts_the_files_done
        (prefix e : string) (n : nat) :
  snd (quarantine prefix)
  = Orchestrator.Return (Orchestrator.error e n) ->
  let log := fst (quarantine prefix) in
  (log = [Orchestrator.list_objects_v2 bucket prefix]
   /\ s3_list log = Orchestrator.ClientError e /\ n = 0)
  \/ (exists contents,
         s3_list [Orchestrator.list_objects_v2 bucket prefix]
         = Orchestrator.Ok (Some contents)
         /\ n < List.length (Orchestrator.files_of contents)
         /\ Forall2 copy_of (Orchestrator.copied log)
                    (firstn (S n) (Orchestrator.files_of contents))
         /\ ((Orchestrator.tagged log
              = map tag_of (firstn n (Orchestrator.files_of contents))
              /\ s3_copy log = Orchestrator.ClientError e)
             \/ (Orchestrator.tagged log
                 = map tag_of (firstn (S n) (Orchestrator.files_of contents))
                 /\ s3_tag log = Orchestrator.ClientError e))).
Proof.
  destruct (String.eqb LOGS EmptyString) eqn:EL.
  { unfold quarantine, Orchestrator.quarantine_data. rewrite EL.
    intros H. discriminate H. }
  apply String.eqb_neq in EL. rewrite (quarantine_listing prefix EL).
  destruct (s3_list [Orchestrator.list_objects_v2 bucket prefix])
    as [[contents|]|e'|e'] eqn:Hl; cbn [fst snd]; try discriminate.
  - destruct (loop_calls contents
                         [Orchestrator.list_objects_v2 bucket prefix] [])
      as (more & E & Hm).
    intros H. rewrite H in Hm. destruct Hm as (k & Hn & Hk & Hcp & Htg).
    cbn [List.length Nat.add] in Hn. subst k.
    right. exists contents. rewrite E.
    split; [reflexivity|]. split; [exact Hk|].
    rewrite copied_app, tagged_app. cbn [Orchestrator.copied
      Orchestrator.tagged flat_map app].
    split; [exact Hcp|exact Htg].
  - intros H. injection H as <- <-. left. auto.
Qed.

End Quarantine.

Lemma quarantine_copies_and_tags_each_file_witness :
  List.length
    (fst (Orchestrator.quarantine_data
            "dqad-logs-dev"
            (fun _ => Orchestrator.Ok (Some sample_listing))
            (fun _ => Orchestrator.Ok tt) (fun _ => Orchestrator.Ok tt)
            (fun _ => "20240103_120000"%string)
            "dqad-raw-dev" "claims/"))
  = 1 + 2 * 2.
Proof.
  apply (quarantine_copies_and_tags_each_file
           "dqad-logs-dev"
           (fun _ => Orchestrator.Ok (Some sample_listing))
           (fun _ => Orchestrator.Ok tt) (fun _ => Orchestrator.Ok tt)
           (fun _ => "20240103_120000"%string)
           "dqad-raw-dev" "claims/" 2
           [ "claims/payer_claims_20240101_000000.csv";
             "claims/payer_claims_20240102_000000.csv" ]%string).
  reflexivity.
Defined.

Lemma quarantine_counts_the_files_done_witness :
  snd (Orchestrator.quarantine_data
         "dqad-logs-dev"
         (fun _ => Orchestrator.Ok (Some sample_listing))
         (fun _ => Orchestrator.Ok tt)
         (fun _ => Orchestrator.ClientError "AccessDenied")
         (fun _ => "20240103_120000"%string)
         "dqad-raw-dev" "claims/")
  = Orchestrator.Return (Orchestrator.error "AccessDenied" 0)
  /\ Orchestrator.copied
       (fst (Orchestrator.quarantine_data
               "dqad-logs-dev"
               (fun _ => Orchestrator.Ok (Some sample_listing))
               (fun _ => Orchestrator.Ok tt)
               (fun _ => Orchestrator.ClientError "AccessDenied")
               (fun _ => "20240103_120000"%string)
               "dqad-raw-dev" "claims/"))
     <> [].
Proof.
  assert (H : snd (Orchestrator.quarantine_data
                     "dqad-logs-dev"
                     (fun _ => Orchestrator.Ok (Some sample_listing))
                     (fun _ => Orchestrator.Ok tt)
                     (fun _ => Orchestrator.ClientError "AccessDenied")
                     (fun _ => "20240103_120000"%string)
                     "dqad-raw-dev" "claims/")
              = Orchestrator.Return (Orchestrator.error "AccessDenied" 0))
    by reflexivity.
  split; [exact H|].
  destruct (quarantine_counts_the_files_done _ _ _ _ _ _ _ _ _ H)
    as [(E & _) | (contents & _ & Hlt & Hcp & _)].
  - discriminate E.
  - intros N. rewrite N in Hcp.
    destruct (Orchestrator.files_of contents);
      [simpl in Hlt; lia|inversion Hcp].
Defined.

(** ** Restart *)

(** X22. A restart by the orchestrator starts the job on the folder
    ["claims/"] in the namespace that the dashboard reads.  The key of
    that run is its own folder, so the run publishes every metric twice
    under [SourceFile = "claims/"], and the charts of the dashboard read
    both data points. *)
Theorem restarted_job_publishes_each_data_point_twice
        (RAW PROC : string)
        (glue_start : list Orchestrator.Call -> Orchestrator.Answer string)
        (job_name : string) (metrics : Glue.Metrics) (n : string) :
  job_name <> EmptyString ->
  In n metric_names ->
  exists args key,
    fst (Orchestrator.restart_glue_job RAW PROC glue_start job_name)
    = [Orchestrator.start_job_run job_name args]
    /\ GlueTrigger.lookup "--S3_INPUT_KEY" args = Some key
    /\ GlueTrigger.lookup "--CLOUDWATCH_NAMESPACE" args
       = Some Dashboard.CLOUDWATCH_NAMESPACE_DQ
    /\ GluePush.folder_prefix key = key
    /\ exists u,
        let d := CloudWatch.mkMetricDatum
                   n (metric_value metrics n) u
                   [("SourceFile"%string, "claims/"%string)] in
        filter (CloudWatch.selects
                  (Dashboard.fetch_cloudwatch_metrics_query
                     Dashboard.CLOUDWATCH_NAMESPACE_DQ n)
                  Dashboard.CLOUDWATCH_NAMESPACE_DQ)
               (GluePush.push_metrics_to_cloudwatch metrics key)
        = [d; d].
Proof.
  intros Hj Hn. apply String.eqb_neq in Hj.
  unfold Orchestrator.restart_glue_job. rewrite Hj.
  eexists. exists "claims/"%string.
  split; [destruct (glue_start _); reflexivity|].
  split; [reflexivity|]. split; [reflexivity|]. split; [reflexivity|].
  rewrite (selected_are_published
             n _ (push_dimensions metrics "claims/")).
  unfold GluePush.push_metrics_to_cloudwatch.
  rewrite published_as_app.
  change (GluePush.folder_prefix "claims/") with "claims/"%string.
  change (GluePush.aggregated_metric_data metrics "claims/")
    with (GluePush.metric_data metrics "claims/").
  rewrite (published_as_file metrics "claims/" n Hn).
  eexists. reflexivity.
Qed.

Lemma restarted_job_publishes_each_data_point_twice_witness :
  exists args key,
    fst (Orchestrator.restart_glue_job
           "dqad-raw-dev" "dqad-processed-dev"
           (fun _ => Orchestrator.Ok "jr_2"%string) "dqad-etl")
    = [Orchestrator.start_job_run "dqad-etl" args]
    /\ GlueTrigger.lookup "--S3_INPUT_KEY" args = Some key
    /\ GluePush.folder_prefix key = key.
Proof.
  destruct (restarted_job_publishes_each_data_point_twice
              "dqad-raw-dev" "dqad-processed-dev"
              (fun _ => Orchestrator.Ok "jr_2"%string) "dqad-etl"
              (Glue.calculate_dq_metrics 5 4 1 1) "AnomalyCount")
    as (args & key & H1 & H2 & _ & H4 & _).
  - discriminate.
  - simpl. tauto.
  - exists args, key. auto.
Defined.

(** ** Costs *)

Lemma fold_left_append {A B} (f : A -> B) (l : list A) (acc : list B) :
  fold_left (fun acc x => acc ++ [f x]) l acc = acc ++ map f l.
Proof.
  revert acc. induction l as [|x l IH]; intros acc; simpl.
  - rewrite app_nil_r. reflexivity.
  - rewrite IH, <- app_assoc. reflexivity.
Qed.

(** The entries of the collector: the daily cost, then one entry for each
    service. *)
Lemma cost_metrics_entries project env cost_data d :
  In d (CostCollector.push_cost_metrics_to_cloudwatch project env cost_data)
  -> (CloudWatch.MetricName d = "DailyCost"%string
      /\ CloudWatch.Value d = CostCollector.total_cost cost_data
      /\ CloudWatch.Dimensions d
         = [("Project", project); ("Environment", env)]%string)
     \/ (CloudWatch.MetricName d = "ServiceCost"%string
         /\ exists service cost,
             In (service, cost) (CostCollector.service_costs cost_data)
             /\ CloudWatch.Value d = cost
             /\ CloudWatch.Dimensions d
                = [("Project", project); ("Service", service)]%string).
Proof.
  unfold CostCollector.push_cost_metrics_to_cloudwatch.
  rewrite (fold_left_append
             (fun item =>
                {| CloudWatch.MetricName := "ServiceCost";
                   CloudWatch.Value := snd item;
                   CloudWatch.Unit := "None";
                   CloudWatch.Dimensions :=
                     [("Project", project); ("Service", fst item)] |}%string)).
  intros [<- | H].
  - left. auto.
  - right. apply in_map_iff in H. destruct H as ([service cost] & <- & Hin).
    split; [reflexivity|]. exists service, cost. auto.
Qed.

Lemma not_selected_by_name q namespace d :
  String.eqb (CloudWatch.query_MetricName q) (CloudWatch.MetricName d)
  = false ->
  CloudWatch.selects q namespace d = false.
Proof.
  intros H. unfold CloudWatch.selects. rewrite H.
  rewrite andb_false_r. reflexivity.
Qed.

(** X23. The dashboard never reads the costs that the collector
    publishes.  The collector publishes [DailyCost] under the dimensions
    [Project] and [Environment] and [ServiceCost] under [Project] and
    [Service]; the summary of the dashboard asks for [EstimatedDailyCost]
    and its chart asks for [DailyCost] under [SourceFile = "claims/"], so
    no entry of the collector is selected by either, and with CloudWatch
    holding what the collector published the summary shows its fixed
    estimate of 0.02 a day. *)
Theorem dashboard_never_reads_the_collected_costs
        (project env namespace : string)
        (cost_data : CostCollector.CostData) (t : Z) :
  let data :=
    CostCollector.push_cost_metrics_to_cloudwatch project env cost_data in
  (forall d, In d data ->
     CloudWatch.selects Dashboard.cost_summary_query namespace d = false
     /\ CloudWatch.selects
          (Dashboard.fetch_cloudwatch_metrics_query
             Dashboard.CLOUDWATCH_NAMESPACE_COST "DailyCost")
          namespace d
        = false)
  /\ Dashboard.fetch_cost_summary (Some (cloudwatch_after namespace t data))
     = {| Dashboard.current_daily_cost := (2 # 100)%Q;
          Dashboard.avg_daily_cost := (2 # 100)%Q;
          Dashboard.projected_monthly := ((2 # 100) * 30)%Q |}.
Proof.
  intros data.
  assert (H : forall d, In d data ->
     CloudWatch.selects Dashboard.cost_summary_query namespace d = false
     /\ CloudWatch.selects
          (Dashboard.fetch_cloudwatch_metrics_query
             Dashboard.CLOUDWATCH_NAMESPACE_COST "DailyCost")
          namespace d
        = false).
  { intros d Hd.
    destruct (cost_metrics_entries project env cost_data d Hd)
      as [(Hn & _ & Hdim) | (Hn & service & cost & _ & _ & Hdim)].
    - split.
      + apply not_selected_by_name. rewrite Hn. reflexivity.
      + unfold CloudWatch.selects, Dashboard.fetch_cloudwatch_metrics_query,
          CloudWatch.dimensions_in, CloudWatch.dimension_eqb.
        rewrite Hdim.
        cbn [CloudWatch.query_Dimensions forallb existsb fst snd].
        change (String.eqb "SourceFile" "Project") with false.
        change (String.eqb "SourceFile" "Environment") with false.
        cbn [andb orb]. rewrite !andb_false_r. reflexivity.
    - split; apply not_selected_by_name; rewrite Hn; reflexivity. }
  split; [exact H|].
  unfold Dashboard.fetch_cost_summary, cloudwatch_after.
  cbn [Dashboard.get_metric_statistics].
  rewrite (filter_none _ data (fun d Hd => proj1 (H d Hd))).
  reflexivity.
Qed.

(** * The job in binary64 *)

Section Job64.

Import Sql.

Variable double_of : Q -> PrimFloat.float.
Variable avg : list PrimFloat.float -> option PrimFloat.float.
Variable stddev : list PrimFloat.float -> option PrimFloat.float.

Let stats_row := Glue64.stats_row double_of avg stddev.
Let scored_row64 := Glue64.scored_row double_of avg stddev.
Let peers := Glue64.peer_amounts double_of.
Let run64 := Glue64.run double_of avg stddev.

Lemma key_matches64_stats_row df c k :
  Glue64.key_matches c (stats_row df k) = true
  <-> (exists s, k = Some s) /\ k = cpt_code c.
Proof.
  unfold Glue64.key_matches; simpl.
  destruct (cpt_code c) as [a|], k as [b|]; simpl;
    try (split; [discriminate | intros [[s Hs] H]; congruence]).
  destruct (String.eqb a b) eqn:E.
  - apply String.eqb_eq in E. subst. split; eauto.
  - apply String.eqb_neq in E. split; [discriminate|].
    intros [_ H]. congruence.
Qed.

(** The join keeps the frame row for row, as in exact arithmetic. *)
Lemma left_join64_stats df :
  Glue64.left_join df (Glue64.stats_df double_of avg stddev df)
  = map (fun c =>
           (c, option_map (fun k => stats_row df (Some k)) (cpt_code c)))
        df.
Proof.
  unfold Glue64.left_join. apply flat_map_singletons. intros c Hc.
  unfold Glue64.stats_df. fold stats_row.
  destruct (cpt_code c) as [k|] eqn:Ek; simpl.
  - assert (F : filter (Glue64.key_matches c)
                  (map (stats_row df)
                       (nodup option_string_dec (map cpt_code df)))
                = [stats_row df (Some k)]).
    { change [stats_row df (Some k)] with (map (stats_row df) [Some k]).
      rewrite <- (filter_unique
                    (fun k' => Glue64.key_matches c (stats_row df k'))
                    (Some k)
                    (nodup option_string_dec (map cpt_code df))).
      - generalize (nodup option_string_dec (map cpt_code df)).
        induction l as [|a l IH]; simpl; [reflexivity|].
        destruct (Glue64.key_matches c (stats_row df a)); simpl;
          congruence.
      - apply NoDup_nodup.
      - apply nodup_In. rewrite <- Ek. apply in_map. exact Hc.
      - intros y _. rewrite key_matches64_stats_row, Ek. split.
        + intros [_ H]; exact H.
        + intros ->. split; eauto. }
    rewrite F. reflexivity.
  - rewrite filter_none; [reflexivity|].
    intros s Hs. apply in_map_iff in Hs. destruct Hs as (k & <- & _).
    destruct (Glue64.key_matches c (stats_row df k)) eqn:E;
      [|reflexivity].
    apply key_matches64_stats_row in E. destruct E as [[s ->] E].
    congruence.
Qed.

Lemma detect64_rows df :
  Glue64.detect_statistical_anomalies double_of avg stddev df
  = map (scored_row64 df) df.
Proof.
  unfold Glue64.detect_statistical_anomalies. rewrite left_join64_stats.
  rewrite map_map. reflexivity.
Qed.

(** The statistics joined to the row of a claim are those of its group. *)
Lemma scored_row64_stats df c k :
  cpt_code c = Some k ->
  Glue64.joined_avg_amount (scored_row64 df c) = avg (peers df c)
  /\ Glue64.joined_stddev_amount (scored_row64 df c) = stddev (peers df c).
Proof.
  intros Ek. unfold scored_row64, Glue64.scored_row, peers,
               Glue64.peer_amounts.
  rewrite Ek. split; reflexivity.
Qed.

(** The two branches of [z_score], and the flag. *)
Lemma z_score64_cases df c k a :
  cpt_code c = Some k ->
  Glue64.amount_value double_of c = Some a ->
  Glue64.z_score (scored_row64 df c)
  = match stddev (peers df c) with
    | Some s =>
        if Spark64.gt s (Spark64.of_Z 0)
        then Spark64.divide (option_map (PrimFloat.sub a) (avg (peers df c)))
                            (Some s)
        else Some (Spark64.of_Z 0)
    | None => Some (Spark64.of_Z 0)
    end.
Proof.
  intros Ek Ea. unfold scored_row64, Glue64.scored_row, Glue64.score, peers,
                  Glue64.peer_amounts.
  rewrite Ek, Ea.
  cbn [option_map Glue64.z_score Glue64.stats_row Glue64.avg_amount
       Glue64.stddev_amount].
  destruct (stddev _) as [s|]; [|reflexivity].
  cbn [lift2 case_when holds].
  destruct (Spark64.gt s (Spark64.of_Z 0)); [|reflexivity].
  destruct (avg _); reflexivity.
Qed.

Lemma outlier_flag64 df c :
  Glue64.is_statistical_outlier (scored_row64 df c)
  = option_map (fun z => Spark64.gt (PrimFloat.abs z) (Spark64.of_Z 3))
               (Glue64.z_score (scored_row64 df c)).
Proof.
  unfold scored_row64, Glue64.scored_row, Glue64.score.
  cbn [Glue64.is_statistical_outlier Glue64.z_score].
  destruct (case_when _ _); reflexivity.
Qed.

(** A positive standard deviation is not zero. *)
Lemma gt_zero_not_zero s :
  Spark64.gt s (Spark64.of_Z 0) = true -> PrimFloat.is_zero s = false.
Proof.
  assert (Z0 : FloatOps.Prim2SF PrimFloat.zero = SpecFloat.S754_zero false)
    by (vm_compute; reflexivity).
  unfold Spark64.gt, PrimFloat.is_zero, PrimFloat.is_nan.
  change (Spark64.of_Z 0) with PrimFloat.zero.
  rewrite !FloatAxioms.eqb_spec, FloatAxioms.ltb_spec, Z0.
  unfold SpecFloat.SFeqb, SpecFloat.SFltb.
  destruct (FloatOps.Prim2SF s) as [sg|sg| |sg m e]; simpl;
    try reflexivity; try discriminate.
  - destruct sg; reflexivity.
  - destruct sg; reflexivity.
Qed.

End Job64.

(** ** The run of the job in binary64 *)

Section Run64.

Import Sql.

Variable double_of : Q -> PrimFloat.float.
Variable avg : list PrimFloat.float -> option PrimFloat.float.
Variable stddev : list PrimFloat.float -> option PrimFloat.float.
Variable d : date.
Variable batch : list Claim.

Let o := Glue64.run double_of avg stddev d batch.
Let clean := filter (fun c => rule_clean (Glue.issues_of d c)) batch.
Let row := Glue64.scored_row double_of avg stddev clean.
Let flagged (r : Glue64.ScoredRow) :=
  holds (Glue64.is_statistical_outlier r).

Lemma run64_clean_claims : Glue64.clean_claims o = clean.
Proof.
  subst o clean. unfold Glue64.run. rewrite <- glue_clean_df.
  destruct (Glue.validate_data_quality d batch); reflexivity.
Qed.

Lemma run64_dq_failures :
  Glue64.dq_failures o
  = map (Glue.dq_row d)
        (filter (fun c => negb (rule_clean (Glue.issues_of d c))) batch).
Proof.
  subst o. unfold Glue64.run. rewrite <- glue_dq_failures_df.
  destruct (Glue.validate_data_quality d batch); reflexivity.
Qed.

Lemma run64_silver_claims : Glue64.silver_claims o = Glue64.dq_failures o.
Proof.
  subst o. unfold Glue64.run.
  destruct (Glue.validate_data_quality d batch); reflexivity.
Qed.

Lemma run64_claims_with_outliers :
  Glue64.claims_with_outliers o = map row clean.
Proof.
  subst row. rewrite <- run64_clean_claims, <- detect64_rows.
  subst o. unfold Glue64.run.
  destruct (Glue.validate_data_quality d batch); reflexivity.
Qed.

Lemma run64_quarantine_claims :
  Glue64.quarantine_claims o
  = filter flagged (Glue64.claims_with_outliers o).
Proof.
  subst o. unfold Glue64.run.
  destruct (Glue.validate_data_quality d batch); reflexivity.
Qed.

Lemma run64_gold_claims :
  Glue64.gold_claims o
  = map Glue64.scored_claim
        (filter (fun r => holds (not3 (Glue64.is_statistical_outlier r)))
                (Glue64.claims_with_outliers o)).
Proof.
  subst o. unfold Glue64.run.
  destruct (Glue.validate_data_quality d batch); reflexivity.
Qed.

Lemma run64_dq_metrics :
  Glue64.dq_metrics o
  = Glue64.calculate_dq_metrics
      (Z.of_nat (List.length batch))
      (Z.of_nat (List.length (Glue64.clean_claims o)))
      (Z.of_nat (List.length (Glue64.dq_failures o)))
      (Z.of_nat (List.length (Glue64.quarantine_claims o))).
Proof.
  subst o. unfold Glue64.run.
  destruct (Glue.validate_data_quality d batch); reflexivity.
Qed.

(** A rule-clean row has a procedure code and a finite amount. *)
Lemma clean64_fields c :
  In c clean ->
  exists k q, cpt_code c = Some k
              /\ claim_amount c = Some (DFin q)
              /\ Glue64.amount_value double_of c = Some (double_of q).
Proof.
  subst clean. intros H. apply filter_In in H. destruct H as [_ H].
  apply rule_clean_nil in H.
  destruct (clean_row_fields _ _ H) as (_ & _ & [k Ek] & q & Eq & _).
  exists k, q. repeat split; auto.
  unfold Glue64.amount_value. rewrite Eq. reflexivity.
Qed.

Lemma in_peer_amounts64 df c a :
  In c df -> Glue64.amount_value double_of c = Some a ->
  In a (Glue64.peer_amounts double_of df c).
Proof.
  intros Hc Ea. unfold Glue64.peer_amounts, Glue64.amounts.
  apply in_flat_map. exists c. split.
  - unfold Glue.group_rows. apply filter_In. split; [exact Hc|].
    destruct (option_string_dec (cpt_code c) (cpt_code c)); congruence.
  - rewrite Ea. left; reflexivity.
Qed.

Lemma run64_row_claim r :
  In r (Glue64.claims_with_outliers o) ->
  In (Glue64.scored_claim r) clean /\ r = row (Glue64.scored_claim r).
Proof.
  rewrite run64_claims_with_outliers. intros H.
  apply in_map_iff in H. destruct H as (c & <- & Hc). split; auto.
Qed.

Lemma run64_scored_claims :
  map Glue64.scored_claim (Glue64.claims_with_outliers o) = clean.
Proof.
  rewrite run64_claims_with_outliers, map_map.
  rewrite (map_ext _ (fun c => c)) by reflexivity.
  apply map_id.
Qed.

Lemma run64_silver_count :
  List.length (Glue64.clean_claims o) + List.length (Glue64.silver_claims o)
  = List.length batch.
Proof.
  rewrite run64_silver_claims, run64_dq_failures, run64_clean_claims.
  rewrite length_map. subst clean.
  pose proof (Permutation_length
                (filter_split_perm
                   (fun c => rule_clean (Glue.issues_of d c)) batch)) as H.
  rewrite length_app in H. exact H.
Qed.

Lemma run64_quarantine_le :
  List.length (Glue64.quarantine_claims o)
  <= List.length (Glue64.clean_claims o).
Proof.
  rewrite run64_quarantine_claims, run64_clean_claims.
  rewrite <- run64_scored_claims, length_map.
  apply filter_length_le.
Qed.

(** When [avg] of a non-empty group is not NULL, neither [z_score] nor the
    flag of a scored row is NULL. *)
Hypothesis avg_of_values : forall l, l <> [] -> avg l <> None.

Lemma run64_row_scored c :
  In c clean ->
  exists z, Glue64.z_score (row c) = Some z
            /\ Glue64.is_statistical_outlier (row c)
               = Some (Spark64.gt (PrimFloat.abs z) (Spark64.of_Z 3)).
Proof.
  intros Hc. destruct (clean64_fields c Hc) as (k & q & Ek & _ & Ea).
  subst row. rewrite outlier_flag64.
  rewrite (z_score64_cases double_of avg stddev clean c k _ Ek Ea).
  destruct (stddev _) as [s|]; [|eexists; split; reflexivity].
  destruct (Spark64.gt s (Spark64.of_Z 0)) eqn:G;
    [|eexists; split; reflexivity].
  destruct (avg (Glue64.peer_amounts double_of clean c)) as [m|] eqn:Em.
  - simpl. rewrite (gt_zero_not_zero s G). eexists; split; reflexivity.
  - exfalso. apply (avg_of_values (Glue64.peer_amounts double_of clean c));
      [|exact Em].
    intros E. pose proof (in_peer_amounts64 clean c _ Hc Ea) as Hin.
    rewrite E in Hin. exact Hin.
Qed.

Lemma run64_gold_not_flagged :
  Glue64.gold_claims o
  = map Glue64.scored_claim
        (filter (fun r => negb (flagged r))
                (Glue64.claims_with_outliers o)).
Proof.
  rewrite run64_gold_claims. f_equal. apply filter_ext_in.
  intros r Hr. destruct (run64_row_claim r Hr) as [Hc E].
  destruct (run64_row_scored _ Hc) as (z & _ & F).
  rewrite <- E in F. unfold flagged. rewrite F. simpl.
  destruct (Spark64.gt _ _); reflexivity.
Qed.

Lemma run64_clean_split :
  Permutation
    (Glue64.gold_claims o
     ++ map Glue64.scored_claim (Glue64.quarantine_claims o))
    clean.
Proof.
  rewrite run64_gold_not_flagged, run64_quarantine_claims.
  rewrite <- map_app, <- run64_scored_claims.
  apply Permutation_map.
  eapply Permutation_trans; [apply Permutation_app_comm|].
  apply filter_split_perm.
Qed.

Lemma run64_clean_count :
  List.length (Glue64.gold_claims o)
  + List.length (Glue64.quarantine_claims o)
  = List.length (Glue64.clean_claims o).
Proof.
  rewrite run64_clean_claims, <- (Permutation_length run64_clean_split).
  rewrite length_app, length_map. reflexivity.
Qed.

End Run64.
